(** * VictoryQuant: the simulation and accounting core

    A shallow embedding of the back-test engine, the position manager, the
    order manager, the simulated broker and the performance analyzer of
    VictoryQuant, with the properties of their ledgers and state machines.

    Conventions of the embedding.
    - A Python [int] is a [Z].
    - Money, prices and rates of the ledgers are Python [float]s.  The
      ledgers are embedded over the exact rationals [Qc]; what is stated
      over them is discrete (quantities, statuses, which branch is taken,
      which records are written) or is written with the operations of the
      code in the order of the code, and uses no law of the field.
    - What depends on the rounding is stated over binary64 ([float], module
      [Binary64]): the back-test engine as a run computes it, and the two
      sizing functions.
    - The performance analyzer returns the sentinels [inf] and [nan] and
      compares against them, so it is embedded over binary64 ([float]).
    - A Python [dict] keyed by strings is a [gmap string _]; a dict that is
      mutated through a reference is written back into its map at each
      assignment, in the order of the source.
    - A method that can raise returns an [outcome]: either the returned value
      with the state, or the exception with the state it left behind. *)

From Stdlib Require Import ZArith QArith Qcanon Qcabs String List Lia Floats.
From stdpp Require Import base numbers gmap strings list fin_maps.

Open Scope Z_scope.

(** ** Python values *)

Module Py.

Inductive exn : Type :=
| ZeroDivisionError
| TypeError
| IndexError
| KeyError (key : string).

Inductive outcome (A S : Type) : Type :=
| Return (a : A) (s : S)
| Raise (e : exn) (s : S).
Arguments Return {A S} a s.
Arguments Raise {A S} e s.

Definition state_of {A S : Type} (o : outcome A S) : S :=
  match o with
  | Return _ s => s
  | Raise _ s => s
  end.

(** A decimal literal of the source, as the rational it denotes. *)
Definition lit (q : Q) : Qc := Q2Qc q.

(** [float(n)] for an [int] operand of a mixed operation. *)
Definition float_of_int (n : Z) : Qc := Qc_of_Z n.

(** [int(x)]: truncation toward zero. *)
Definition int_of_float (x : Qc) : Z := Z.quot (Qnum (this x)) (Zpos (Qden (this x))).

(** [max(a, b)]: [b] only when it is strictly greater. *)
Definition pymax (a b : Qc) : Qc := if decide (a < b)%Qc then b else a.

(** [q and q > 0] for an [Optional[int]]: [None] and [0] are falsy. *)
Definition and_positive (q : option Z) : option Z :=
  match q with
  | Some n => if decide (n ≠ 0 ∧ 0 < n) then Some n else None
  | None => None
  end.

(** Truthiness of an optional string: [None] and the empty string are falsy. *)
Definition truthy (s : option string) : bool :=
  match s with
  | Some EmptyString => false
  | Some _ => true
  | None => false
  end.

(** [datetime]: the calendar day and the time within the day. *)
Record datetime : Type := mk_datetime { date : Z; time_of_day : Z }.

End Py.

Import Py.

Global Instance datetime_eq_dec : EqDecision datetime.
Proof. solve_decision. Defined.

(** ** strategy/base/signal.py *)

(** The dataclass, without its metadata dict. *)
Module Signal.

Inductive SignalType : Type := BUY | SELL | HOLD | CLOSE_LONG | CLOSE_SHORT.

Record t : Type := mk {
  symbol : string;
  signal_type : SignalType;
  price : Qc;
  timestamp : datetime;
  strength : Qc;
  quantity : option Z
}.

Definition set_symbol (s : t) (sym : string) : t :=
  mk sym (signal_type s) (price s) (timestamp s) (strength s) (quantity s).

End Signal.

(** ** backtest/backtest_engine.py *)

(** An entry of [BacktestEngine.positions]. *)
Module Position.
Record t : Type := mk { quantity : Z; avg_cost : Qc; total_cost : Qc }.
End Position.

Global Instance Position_eq_dec : EqDecision Position.t.
Proof. solve_decision. Defined.

Inductive Direction : Type := D_BUY | D_SELL.

Global Instance Direction_eq_dec : EqDecision Direction.
Proof. solve_decision. Defined.

(** An entry of [BacktestEngine.trades]; [profit] is present on sells only. *)
Module Trade.
Record t : Type := mk {
  date : datetime;
  symbol : string;
  direction : Direction;
  price : Qc;
  quantity : Z;
  amount : Qc;
  commission : Qc;
  profit : option Qc;
  cash_after : Qc
}.
End Trade.

Global Instance Trade_eq_dec : EqDecision Trade.t.
Proof. solve_decision. Defined.

(** An entry of [BacktestEngine.daily_values]. *)
Module DailyValue.
Record t : Type := mk {
  date : datetime;
  total_value : Qc;
  cash : Qc;
  position_value : Qc
}.
End DailyValue.

Global Instance DailyValue_eq_dec : EqDecision DailyValue.t.
Proof. solve_decision. Defined.

(** A row of the bar series, with its index. *)
Module Bar.
Record t : Type := mk {
  index : datetime;
  open : Qc; high : Qc; low : Qc; close : Qc;
  volume : Qc; amount : Qc
}.
End Bar.

Module Strategy.
Record t : Type := mk {
  name : string;
  generate_signals : list Bar.t → list Signal.t
}.
End Strategy.

Module BacktestEngine.

(** The engine; its [performance_analyzer] is the [analyze] of [run_backtest]
    below. *)
Record t : Type := mk {
  initial_capital : Qc;
  commission_rate : Qc;
  stamp_duty_rate : Qc;
  slippage : Qc;
  cash : Qc;
  positions : gmap string Position.t;
  trades : list Trade.t;
  daily_values : list DailyValue.t
}.

(** [BacktestEngine(initial_capital, commission_rate, stamp_duty_rate, slippage)] *)
Definition __init__ (initial_capital commission_rate stamp_duty_rate slippage : Qc) : t :=
  mk initial_capital commission_rate stamp_duty_rate slippage
     initial_capital ∅ [] [].

Definition set_cash (self : t) (c : Qc) : t :=
  mk (initial_capital self) (commission_rate self) (stamp_duty_rate self)
     (slippage self) c (positions self) (trades self) (daily_values self).

Definition set_positions (self : t) (p : gmap string Position.t) : t :=
  mk (initial_capital self) (commission_rate self) (stamp_duty_rate self)
     (slippage self) (cash self) p (trades self) (daily_values self).

Definition append_trade (self : t) (tr : Trade.t) : t :=
  mk (initial_capital self) (commission_rate self) (stamp_duty_rate self)
     (slippage self) (cash self) (positions self) (trades self ++ [tr])
     (daily_values self).

Definition append_daily_value (self : t) (dv : DailyValue.t) : t :=
  mk (initial_capital self) (commission_rate self) (stamp_duty_rate self)
     (slippage self) (cash self) (positions self) (trades self)
     (daily_values self ++ [dv]).

Definition reset (self : t) : t :=
  mk (initial_capital self) (commission_rate self) (stamp_duty_rate self)
     (slippage self) (initial_capital self) ∅ [] [].

Definition min_unit : Z := 100.

Definition _execute_buy (self : t) (signal : Signal.t) (price : Qc)
  : outcome unit t :=
  let actual_price := (price * (1 + slippage self))%Qc in
  if decide (actual_price = 0%Qc) then Raise ZeroDivisionError self else
  let max_quantity := Py.int_of_float (cash self / actual_price)%Qc in
  let quantity := (max_quantity `div` min_unit) * min_unit in
  if decide (quantity < min_unit) then Return () self else
  let quantity :=
    match and_positive (Signal.quantity signal) with
    | Some requested => (Z.min quantity requested `div` min_unit) * min_unit
    | None => quantity
    end in
  let amount := (Py.float_of_int quantity * actual_price)%Qc in
  let commission := Py.pymax (amount * commission_rate self)%Qc (lit 5) in
  let total_cost := (amount + commission)%Qc in
  if decide (cash self < total_cost)%Qc then Return () self else
  let self := set_cash self (cash self - total_cost)%Qc in
  let symbol := Signal.symbol signal in
  let pos :=
    match positions self !! symbol with
    | Some pos => pos
    | None => Position.mk 0 0%Qc 0%Qc
    end in
  let pos := Position.mk (Position.quantity pos) (Position.avg_cost pos)
               (Position.total_cost pos + amount)%Qc in
  let pos := Position.mk (Position.quantity pos + quantity)
               (Position.avg_cost pos) (Position.total_cost pos) in
  let self := set_positions self (<[symbol := pos]> (positions self)) in
  if decide (Position.quantity pos = 0) then Raise ZeroDivisionError self else
  let pos := Position.mk (Position.quantity pos)
               (Position.total_cost pos / Py.float_of_int (Position.quantity pos))%Qc
               (Position.total_cost pos) in
  let self := set_positions self (<[symbol := pos]> (positions self)) in
  Return () (append_trade self
    (Trade.mk (Signal.timestamp signal) symbol D_BUY actual_price quantity
       amount commission None (cash self))).

Definition _execute_sell (self : t) (signal : Signal.t) (price : Qc)
  : outcome unit t :=
  let symbol := Signal.symbol signal in
  match positions self !! symbol with
  | None => Return () self
  | Some pos =>
    if decide (Position.quantity pos ≤ 0) then Return () self else
    let quantity := Position.quantity pos in
    let quantity :=
      match and_positive (Signal.quantity signal) with
      | Some requested => (Z.min quantity requested `div` min_unit) * min_unit
      | None => quantity
      end in
    if decide (quantity ≤ 0) then Return () self else
    let actual_price := (price * (1 - slippage self))%Qc in
    let amount := (Py.float_of_int quantity * actual_price)%Qc in
    let commission := Py.pymax (amount * commission_rate self)%Qc (lit 5) in
    let stamp_duty := (amount * stamp_duty_rate self)%Qc in
    let total_revenue := (amount - commission - stamp_duty)%Qc in
    let self := set_cash self (cash self + total_revenue)%Qc in
    let cost := (Py.float_of_int quantity * Position.avg_cost pos)%Qc in
    let profit := (amount - cost)%Qc in
    let remaining := Position.quantity pos - quantity in
    let pos :=
      if decide (remaining ≤ 0) then Position.mk 0 0%Qc 0%Qc
      else Position.mk remaining (Position.avg_cost pos)
             (Py.float_of_int remaining * Position.avg_cost pos)%Qc in
    let self := set_positions self (<[symbol := pos]> (positions self)) in
    Return () (append_trade self
      (Trade.mk (Signal.timestamp signal) symbol D_SELL actual_price quantity
         amount (commission + stamp_duty)%Qc (Some profit) (cash self)))
  end.

Fixpoint _process_signals (self : t) (signals : list Signal.t)
    (current_date : datetime) (current_price : Qc) : outcome unit t :=
  match signals with
  | [] => Return () self
  | signal :: rest =>
    if decide (date (Signal.timestamp signal) ≠ date current_date)
    then _process_signals self rest current_date current_price
    else
      let step :=
        match Signal.signal_type signal with
        | Signal.BUY => _execute_buy self signal current_price
        | Signal.SELL => _execute_sell self signal current_price
        | _ => Return () self
        end in
      match step with
      | Return _ self => _process_signals self rest current_date current_price
      | Raise e self => Raise e self
      end
  end.

Definition _update_daily_value (self : t) (date : datetime)
    (current_price : Qc) : t :=
  let position_value :=
    map_fold (λ (_ : string) pos acc,
                (acc + Py.float_of_int (Position.quantity pos) * current_price)%Qc)
             0%Qc (positions self) in
  let total_value := (cash self + position_value)%Qc in
  append_daily_value self
    (DailyValue.mk date total_value (cash self) position_value).

(** The loop of [run_backtest] over [data.iterrows()]. *)
Fixpoint run_rows (self : t) (signals : list Signal.t) (rows : list Bar.t)
  : outcome unit t :=
  match rows with
  | [] => Return () self
  | row :: rest =>
    let current_date := Bar.index row in
    let current_price := Bar.close row in
    match _process_signals self signals current_date current_price with
    | Return _ self =>
        run_rows (_update_daily_value self current_date current_price)
                 signals rest
    | Raise e self => Raise e self
    end
  end.

Section Run.

(** [PerformanceAnalyzer.analyze] on the value frame; the engine only
    stores what it returns. *)
Context {Performance : Type}.
Variable analyze : list DailyValue.t → Qc → Performance.

Inductive result : Type :=
| ErrorDict (error : string)
| ResultDict (strategy_name : string) (initial_capital final_value : Qc)
    (trades : list Trade.t) (daily_values : list DailyValue.t)
    (performance : Performance).

Definition _generate_result (self : t) (strategy_name : string) : result :=
  match last (daily_values self) with
  | None => ErrorDict "没有交易记录"
  | Some final =>
      ResultDict strategy_name (initial_capital self)
        (DailyValue.total_value final) (trades self) (daily_values self)
        (analyze (daily_values self) (initial_capital self))
  end.

Definition run_backtest (self : t) (strategy : Strategy.t)
    (data : list Bar.t) (symbol : option string) : outcome result t :=
  let self := reset self in
  match data with
  | [] => Return (ErrorDict "数据为空") self
  | _ =>
    let signals := Strategy.generate_signals strategy data in
    let signals :=
      match symbol with
      | Some sym =>
          if truthy symbol
          then map (λ signal, Signal.set_symbol signal sym) signals
          else signals
      | None => signals
      end in
    match run_rows self signals data with
    | Return _ self =>
        Return (_generate_result self (Strategy.name strategy)) self
    | Raise e self => Raise e self
    end
  end.

End Run.

Definition get_current_positions (self : t) : gmap string Position.t :=
  filter (λ kv, 0 < Position.quantity kv.2) (positions self).

Definition get_trade_count (self : t) : nat := length (trades self).

(** [t.get('profit', 0)] *)
Definition profit_or_zero (tr : Trade.t) : Qc := default 0%Qc (Trade.profit tr).



End BacktestEngine.

(** ** risk/position_manager.py *)

(** An entry of [PositionManager.positions]. *)
Module Holding.
Record t : Type := mk {
  quantity : Z;
  avg_cost : Qc;
  total_cost : Qc;
  current_price : Qc
}.
End Holding.

Global Instance Holding_eq_dec : EqDecision Holding.t.
Proof. solve_decision. Defined.

(** The [Position] dataclass that [get_position] returns. *)
Module PositionRecord.
Record t : Type := mk {
  symbol : string;
  quantity : Z;
  avg_cost : Qc;
  current_price : Qc;
  market_value : Qc;
  profit_loss : Qc;
  profit_loss_ratio : Qc
}.
End PositionRecord.

Module PositionManager.

Record t : Type := mk {
  initial_capital : Qc;
  cash : Qc;
  positions : gmap string Holding.t
}.

Definition __init__ (initial_capital : Qc) : t :=
  mk initial_capital initial_capital ∅.

Definition get_position_quantity (self : t) (symbol : string) : Z :=
  match positions self !! symbol with
  | Some pos => Holding.quantity pos
  | None => 0
  end.

Definition has_position (self : t) (symbol : string) : bool :=
  match positions self !! symbol with
  | Some pos => bool_decide (0 < Holding.quantity pos)
  | None => false
  end.

Definition update_position (self : t) (symbol : string) (quantity : Z)
    (price : Qc) (is_buy : bool) : t :=
  let pos :=
    match positions self !! symbol with
    | Some pos => pos
    | None => Holding.mk 0 0%Qc 0%Qc price
    end in
  let '(pos, cash) :=
    if is_buy then
      let amount := (Py.float_of_int quantity * price)%Qc in
      let total_cost := (Holding.total_cost pos + amount)%Qc in
      let held := Holding.quantity pos + quantity in
      let avg_cost :=
        if decide (0 < held) then (total_cost / Py.float_of_int held)%Qc else 0%Qc in
      (Holding.mk held avg_cost total_cost (Holding.current_price pos),
       (cash self - amount)%Qc)
    else if decide (quantity ≤ Holding.quantity pos) then
      let held := Holding.quantity pos - quantity in
      let revenue := (Py.float_of_int quantity * price)%Qc in
      let pos :=
        if decide (held ≤ 0)
        then Holding.mk 0 0%Qc 0%Qc (Holding.current_price pos)
        else Holding.mk held (Holding.avg_cost pos) (Holding.total_cost pos)
               (Holding.current_price pos) in
      (pos, (cash self + revenue)%Qc)
    else (pos, cash self) in
  let pos := Holding.mk (Holding.quantity pos) (Holding.avg_cost pos)
               (Holding.total_cost pos) price in
  mk (initial_capital self) cash (<[symbol := pos]> (positions self)).

Definition clear_position (self : t) (symbol : string) (price : Qc)
  : Qc * t :=
  match positions self !! symbol with
  | None => (0%Qc, self)
  | Some pos =>
    let quantity := Holding.quantity pos in
    if decide (quantity ≤ 0) then (0%Qc, self) else
    let revenue := (Py.float_of_int quantity * price)%Qc in
    (revenue,
     mk (initial_capital self) (cash self + revenue)%Qc
        (<[symbol := Holding.mk 0 0%Qc 0%Qc price]> (positions self)))
  end.

Definition get_position (self : t) (symbol : string)
  : option PositionRecord.t :=
  match positions self !! symbol with
  | None => None
  | Some pos =>
    if decide (Holding.quantity pos ≤ 0) then None else
    let price := Holding.current_price pos in
    Some (PositionRecord.mk symbol (Holding.quantity pos)
            (Holding.avg_cost pos) price
            (Py.float_of_int (Holding.quantity pos) * price)%Qc
            ((price - Holding.avg_cost pos)
             * Py.float_of_int (Holding.quantity pos))%Qc
            (if decide (0 < Holding.avg_cost pos)%Qc
             then ((price - Holding.avg_cost pos) / Holding.avg_cost pos)%Qc
             else 0%Qc))
  end.

Definition get_position_value (self : t) (symbol : string) : Qc :=
  match get_position self symbol with
  | Some pos => PositionRecord.market_value pos
  | None => 0%Qc
  end.

(** The loop over [prices.items()]: each held symbol that has a price gets
    it as its current price. *)
Definition update_current_prices (self : t) (prices : gmap string Qc) : t :=
  mk (initial_capital self) (cash self)
     (map_imap (λ symbol pos,
                  Some match prices !! symbol with
                       | Some price =>
                           Holding.mk (Holding.quantity pos)
                             (Holding.avg_cost pos) (Holding.total_cost pos)
                             price
                       | None => pos
                       end) (positions self)).

(** The loop over [list(self.positions.keys())]: the symbols are distinct
    and each call touches its own entry.  The order of the loop, which the
    map does not keep, shows only in the rounding of the two running sums,
    the cash and the returned total. *)
Definition clear_all_positions (self : t) (prices : gmap string Qc) : Qc * t :=
  map_fold (λ symbol (_ : Holding.t) (acc : Qc * t),
              match prices !! symbol with
              | Some price =>
                  let '(revenue, self) := clear_position acc.2 symbol price in
                  ((acc.1 + revenue)%Qc, self)
              | None => acc
              end) (0%Qc, self) (positions self).

Definition reset (self : t) : t :=
  mk (initial_capital self) (initial_capital self) ∅.

End PositionManager.

(** ** trading/order/order.py *)

Module Order.

Inductive OrderStatus : Type :=
| PENDING | SUBMITTED | PARTIAL_FILLED | FILLED | CANCELLED | REJECTED.

Inductive OrderType : Type := MARKET | LIMIT | STOP | STOP_LIMIT.

Inductive OrderDirection : Type := BUY | SELL.

(** [OrderDirection.value] *)
Definition direction_value (d : OrderDirection) : string :=
  match d with BUY => "buy" | SELL => "sell" end.

(** The dataclass, without its two clock readings and its metadata dict. *)
Record t : Type := mk {
  symbol : string;
  direction : OrderDirection;
  quantity : Z;
  order_type : OrderType;
  price : option Qc;
  stop_price : option Qc;
  status : OrderStatus;
  filled_quantity : Z;
  filled_price : Qc;
  commission : Qc;
  order_id : string;
  strategy_id : option string;
  message : string
}.

(** [_generate_order_id], given the formatted reading of the clock. *)
Definition _generate_order_id (symbol : string) (direction : OrderDirection)
    (stamp : string) : string :=
  symbol +:+ "_" +:+ direction_value direction +:+ "_" +:+ stamp.

Definition is_active (self : t) : bool :=
  match status self with
  | PENDING | SUBMITTED | PARTIAL_FILLED => true
  | _ => false
  end.

Definition is_completed (self : t) : bool :=
  match status self with FILLED => true | _ => false end.

Definition set_status (self : t) (st : OrderStatus) : t :=
  mk (symbol self) (direction self) (quantity self) (order_type self)
     (price self) (stop_price self) st (filled_quantity self)
     (filled_price self) (commission self) (order_id self)
     (strategy_id self) (message self).

Definition set_message (self : t) (msg : string) : t :=
  mk (symbol self) (direction self) (quantity self) (order_type self)
     (price self) (stop_price self) (status self) (filled_quantity self)
     (filled_price self) (commission self) (order_id self)
     (strategy_id self) msg.

Definition update_fill (self : t) (filled_qty : Z) (fill_price : Qc)
    (fee : Qc) : t :=
  let total := filled_quantity self + filled_qty in
  let average :=
    if decide (0 < total)
    then ((filled_price self * Py.float_of_int (total - filled_qty)
           + fill_price * Py.float_of_int filled_qty) / Py.float_of_int total)%Qc
    else 0%Qc in
  let st :=
    if decide (quantity self ≤ total) then FILLED
    else if decide (0 < total) then PARTIAL_FILLED
    else status self in
  mk (symbol self) (direction self) (quantity self) (order_type self)
     (price self) (stop_price self) st total average
     (commission self + fee)%Qc (order_id self) (strategy_id self)
     (message self).

Definition cancel (self : t) (reason : string) : t :=
  if is_active self then set_message (set_status self CANCELLED) reason
  else self.

Definition reject (self : t) (reason : string) : t :=
  set_message (set_status self REJECTED) reason.

Definition get_unfilled_quantity (self : t) : Z :=
  quantity self - filled_quantity self.

End Order.

Global Instance OrderStatus_eq_dec : EqDecision Order.OrderStatus.
Proof. solve_decision. Defined.
Global Instance OrderType_eq_dec : EqDecision Order.OrderType.
Proof. solve_decision. Defined.
Global Instance OrderDirection_eq_dec : EqDecision Order.OrderDirection.
Proof. solve_decision. Defined.
Global Instance Order_eq_dec : EqDecision Order.t.
Proof. solve_decision. Defined.

(** Order objects are shared: the manager's and the broker's dicts hold
    references to the same object.  The objects live in a store indexed by
    allocation order, and a dict maps an order id to an index. *)
Abbreviation ref := nat (only parsing).
Abbreviation store := (list Order.t) (only parsing).

(** [l.remove(x)] guarded by [x in l]: drops the first occurrence, if any. *)
Fixpoint remove_first (x : string) (l : list string) : list string :=
  match l with
  | [] => []
  | y :: l => if decide (x = y) then l else y :: remove_first x l
  end.

(** ** trading/order/order_manager.py *)

Module OrderManager.

Record t : Type := mk {
  orders : gmap string ref;
  pending_orders : list string;
  active_orders : list string;
  completed_orders : list string
}.

Definition __init__ : t := mk ∅ [] [] [].

(** [self.orders.get(order_id)], followed to the object. *)
Definition get_order (h : store) (self : t) (order_id : string)
  : option (ref * Order.t) :=
  match orders self !! order_id with
  | Some r => match h !! r with Some o => Some (r, o) | None => None end
  | None => None
  end.

Definition create_order (h : store) (self : t) (stamp : string)
    (symbol : string) (direction : Order.OrderDirection) (quantity : Z)
    (order_type : Order.OrderType) (price stop_price : option Qc)
    (strategy_id : option string) : ref * store * t :=
  let order_id := Order._generate_order_id symbol direction stamp in
  let order :=
    Order.mk symbol direction quantity order_type price stop_price
      Order.PENDING 0 0%Qc 0%Qc order_id strategy_id "" in
  let r := length h in
  (r, h ++ [order],
   mk (<[order_id := r]> (orders self)) (pending_orders self ++ [order_id])
      (active_orders self) (completed_orders self)).

Definition submit_order (h : store) (self : t) (order_id : string)
  : bool * store * t :=
  match get_order h self order_id with
  | Some (r, order) =>
    match Order.status order with
    | Order.PENDING =>
      (true, <[r := Order.set_status order Order.SUBMITTED]> h,
       mk (orders self) (remove_first order_id (pending_orders self))
          (active_orders self ++ [order_id]) (completed_orders self))
    | _ => (false, h, self)
    end
  | None => (false, h, self)
  end.

Definition fill_order (h : store) (self : t) (order_id : string)
    (filled_quantity : Z) (filled_price commission : Qc)
  : bool * store * t :=
  match get_order h self order_id with
  | Some (r, order) =>
    if Order.is_active order then
      let order :=
        Order.update_fill order filled_quantity filled_price commission in
      let self :=
        if Order.is_completed order
        then mk (orders self) (pending_orders self)
                (remove_first order_id (active_orders self))
                (completed_orders self ++ [order_id])
        else self in
      (true, <[r := order]> h, self)
    else (false, h, self)
  | None => (false, h, self)
  end.

Definition cancel_order (h : store) (self : t) (order_id : string)
    (reason : string) : bool * store * t :=
  match get_order h self order_id with
  | Some (r, order) =>
    if Order.is_active order then
      (true, <[r := Order.cancel order reason]> h,
       mk (orders self) (remove_first order_id (pending_orders self))
          (remove_first order_id (active_orders self))
          (completed_orders self ++ [order_id]))
    else (false, h, self)
  | None => (false, h, self)
  end.

Definition reject_order (h : store) (self : t) (order_id : string)
    (reason : string) : bool * store * t :=
  match get_order h self order_id with
  | Some (r, order) =>
    match Order.status order with
    | Order.PENDING =>
      (true, <[r := Order.reject order reason]> h,
       mk (orders self) (remove_first order_id (pending_orders self))
          (active_orders self) (completed_orders self ++ [order_id]))
    | _ => (false, h, self)
    end
  | None => (false, h, self)
  end.

(** [[self.orders[oid] for oid in bucket if oid in self.orders]], as
    references. *)
Definition bucket_orders (self : t) (bucket : list string) : list ref :=
  omap (λ order_id, orders self !! order_id) bucket.

Definition get_pending_orders (self : t) : list ref :=
  bucket_orders self (pending_orders self).

Definition get_active_orders (self : t) : list ref :=
  bucket_orders self (active_orders self).

Definition get_completed_orders (self : t) : list ref :=
  bucket_orders self (completed_orders self).

(** The loop of [clear_completed_orders] over a copy of the bucket. *)
Definition clear_completed_orders (self : t) : t :=
  mk (foldl (λ orders order_id, delete order_id orders) (orders self)
        (completed_orders self))
     (pending_orders self) (active_orders self) [].

Definition reset (self : t) : t := mk ∅ [] [] [].

End OrderManager.

(** ** trading/broker/broker_interface.py *)

(** An entry of [SimulatedBroker.trades], without its clock reading. *)
Module BrokerTrade.
Record t : Type := mk {
  order_id : string;
  symbol : string;
  direction : Direction;
  price : Qc;
  quantity : Z;
  amount : Qc;
  commission : Qc;
  profit : option Qc
}.
End BrokerTrade.

Global Instance BrokerTrade_eq_dec : EqDecision BrokerTrade.t.
Proof. solve_decision. Defined.

Module SimulatedBroker.

Record t : Type := mk {
  connected : bool;
  initial_capital : Qc;
  cash : Qc;
  positions : gmap string Position.t;
  orders : gmap string ref;
  trades : list BrokerTrade.t;
  commission_rate : Qc;
  stamp_duty_rate : Qc;
  slippage : Qc
}.

Definition __init__ (initial_capital : Qc) : t :=
  mk false initial_capital initial_capital ∅ ∅ []
     (lit 0.0003) (lit 0.001) (lit 0.001).

Definition set_connected (self : t) (b : bool) : t :=
  mk b (initial_capital self) (cash self) (positions self) (orders self)
     (trades self) (commission_rate self) (stamp_duty_rate self)
     (slippage self).

Definition set_cash (self : t) (c : Qc) : t :=
  mk (connected self) (initial_capital self) c (positions self)
     (orders self) (trades self) (commission_rate self)
     (stamp_duty_rate self) (slippage self).

Definition set_positions (self : t) (p : gmap string Position.t) : t :=
  mk (connected self) (initial_capital self) (cash self) p (orders self)
     (trades self) (commission_rate self) (stamp_duty_rate self)
     (slippage self).

Definition set_orders (self : t) (o : gmap string ref) : t :=
  mk (connected self) (initial_capital self) (cash self) (positions self)
     o (trades self) (commission_rate self) (stamp_duty_rate self)
     (slippage self).

Definition append_trade (self : t) (tr : BrokerTrade.t) : t :=
  mk (connected self) (initial_capital self) (cash self) (positions self)
     (orders self) (trades self ++ [tr]) (commission_rate self)
     (stamp_duty_rate self) (slippage self).

Definition connect (self : t) : bool * t := (true, set_connected self true).

Definition disconnect (self : t) : bool * t :=
  (true, set_connected self false).

(** [submit_order(order)]: the argument is the object, given by reference. *)
Definition submit_order (h : store) (self : t) (r : ref)
  : bool * store * t :=
  match h !! r with
  | None => (false, h, self)
  | Some order =>
    if negb (connected self) then (false, h, self) else
    (true, <[r := Order.set_status order Order.SUBMITTED]> h,
     set_orders self (<[Order.order_id order := r]> (orders self)))
  end.

Definition cancel_order (h : store) (self : t) (order_id : string)
  : bool * store * t :=
  match orders self !! order_id with
  | Some r =>
    match h !! r with
    | Some order =>
      if Order.is_active order
      then (true, <[r := Order.cancel order "用户取消"]> h, self)
      else (false, h, self)
    | None => (false, h, self)
    end
  | None => (false, h, self)
  end.

Definition get_order_status (h : store) (self : t) (order_id : string)
  : Order.OrderStatus :=
  match orders self !! order_id with
  | Some r =>
    match h !! r with
    | Some order => Order.status order
    | None => Order.REJECTED
    end
  | None => Order.REJECTED
  end.

Definition _execute_buy (h : store) (self : t) (r : ref) (order : Order.t)
    (current_price : Qc) : outcome bool (store * t) :=
  let priced : outcome (option Qc) unit :=
    match Order.order_type order with
    | Order.MARKET => Return (Some (current_price * (1 + slippage self))%Qc) ()
    | Order.LIMIT =>
      match Order.price order with
      | None => Raise TypeError ()
      | Some limit =>
        if decide (limit < current_price)%Qc then Return None ()
        else Return (Some limit) ()
      end
    | _ => Return None ()
    end in
  match priced with
  | Raise e _ => Raise e (h, self)
  | Return None _ => Return false (h, self)
  | Return (Some execution_price) _ =>
    let quantity := Order.quantity order in
    let amount := (Py.float_of_int quantity * execution_price)%Qc in
    let commission := Py.pymax (amount * commission_rate self)%Qc (lit 5) in
    let total_cost := (amount + commission)%Qc in
    if decide (cash self < total_cost)%Qc
    then Return false (<[r := Order.reject order "资金不足"]> h, self) else
    let self := set_cash self (cash self - total_cost)%Qc in
    let symbol := Order.symbol order in
    let pos :=
      match positions self !! symbol with
      | Some pos => pos
      | None => Position.mk 0 0%Qc 0%Qc
      end in
    let pos := Position.mk (Position.quantity pos + quantity)
                 (Position.avg_cost pos) (Position.total_cost pos + amount)%Qc in
    let self := set_positions self (<[symbol := pos]> (positions self)) in
    if decide (Position.quantity pos = 0)
    then Raise ZeroDivisionError (h, self) else
    let pos := Position.mk (Position.quantity pos)
                 (Position.total_cost pos / Py.float_of_int (Position.quantity pos))%Qc
                 (Position.total_cost pos) in
    let self := set_positions self (<[symbol := pos]> (positions self)) in
    let h := <[r := Order.update_fill order quantity execution_price commission]> h in
    Return true
      (h, append_trade self
            (BrokerTrade.mk (Order.order_id order) symbol D_BUY
               execution_price quantity amount commission None))
  end.

Definition _execute_sell (h : store) (self : t) (r : ref) (order : Order.t)
    (current_price : Qc) : outcome bool (store * t) :=
  let symbol := Order.symbol order in
  let held :=
    match positions self !! symbol with
    | Some pos => if decide (Position.quantity pos < Order.quantity order)
                  then None else Some pos
    | None => None
    end in
  match held with
  | None => Return false (<[r := Order.reject order "持仓不足"]> h, self)
  | Some pos =>
    let priced : outcome (option Qc) unit :=
      match Order.order_type order with
      | Order.MARKET => Return (Some (current_price * (1 - slippage self))%Qc) ()
      | Order.LIMIT =>
        match Order.price order with
        | None => Raise TypeError ()
        | Some limit =>
          if decide (current_price < limit)%Qc then Return None ()
          else Return (Some limit) ()
        end
      | _ => Return None ()
      end in
    match priced with
    | Raise e _ => Raise e (h, self)
    | Return None _ => Return false (h, self)
    | Return (Some execution_price) _ =>
      let quantity := Order.quantity order in
      let amount := (Py.float_of_int quantity * execution_price)%Qc in
      let commission := Py.pymax (amount * commission_rate self)%Qc (lit 5) in
      let stamp_duty := (amount * stamp_duty_rate self)%Qc in
      let total_revenue := (amount - commission - stamp_duty)%Qc in
      let self := set_cash self (cash self + total_revenue)%Qc in
      let cost := (Py.float_of_int quantity * Position.avg_cost pos)%Qc in
      let profit := (amount - cost)%Qc in
      let remaining := Position.quantity pos - quantity in
      let pos :=
        if decide (remaining ≤ 0) then Position.mk 0 0%Qc 0%Qc
        else Position.mk remaining (Position.avg_cost pos)
               (Py.float_of_int remaining * Position.avg_cost pos)%Qc in
      let self := set_positions self (<[symbol := pos]> (positions self)) in
      let h := <[r := Order.update_fill order quantity execution_price
                        (commission + stamp_duty)%Qc]> h in
      Return true
        (h, append_trade self
              (BrokerTrade.mk (Order.order_id order) symbol D_SELL
                 execution_price quantity amount
                 (commission + stamp_duty)%Qc (Some profit)))
    end
  end.

Definition execute_order (h : store) (self : t) (r : ref)
    (current_price : Qc) : outcome bool (store * t) :=
  match h !! r with
  | None => Return false (h, self)
  | Some order =>
    if negb (connected self) then Return false (h, self) else
    match Order.direction order with
    | Order.BUY => _execute_buy h self r order current_price
    | Order.SELL => _execute_sell h self r order current_price
    end
  end.

End SimulatedBroker.

(** The interactive order path: one store of order objects, driven through
    the manager and through the broker. *)
Module OrderPath.

Record world : Type := mk {
  objects : store;
  manager : OrderManager.t;
  broker : SimulatedBroker.t
}.

Definition init (initial_capital : Qc) : world :=
  mk [] OrderManager.__init__ (SimulatedBroker.__init__ initial_capital).

Inductive op : Type :=
| create_order (stamp symbol : string) (direction : Order.OrderDirection)
    (quantity : Z) (order_type : Order.OrderType)
    (price stop_price : option Qc) (strategy_id : option string)
| submit_order (order_id : string)
| fill_order (order_id : string) (filled_quantity : Z)
    (filled_price commission : Qc)
| cancel_order (order_id reason : string)
| reject_order (order_id reason : string)
| broker_connect
| broker_disconnect
| broker_submit_order (order : ref)
| broker_cancel_order (order_id : string)
| broker_execute_order (order : ref) (current_price : Qc).

Definition on_manager (w : world) (r : bool * store * OrderManager.t)
  : world := mk r.1.2 r.2 (broker w).

Definition on_broker (w : world) (r : bool * store * SimulatedBroker.t)
  : world := mk r.1.2 (manager w) r.2.

(** The world after a call; a call that raises leaves the world it had
    built up to the exception. *)
Definition step (w : world) (o : op) : world :=
  match o with
  | create_order stamp symbol direction quantity order_type price
      stop_price strategy_id =>
      let '(_, h, m) :=
        OrderManager.create_order (objects w) (manager w) stamp symbol
          direction quantity order_type price stop_price strategy_id in
      mk h m (broker w)
  | submit_order order_id =>
      on_manager w (OrderManager.submit_order (objects w) (manager w) order_id)
  | fill_order order_id filled_quantity filled_price commission =>
      on_manager w (OrderManager.fill_order (objects w) (manager w) order_id
                      filled_quantity filled_price commission)
  | cancel_order order_id reason =>
      on_manager w (OrderManager.cancel_order (objects w) (manager w)
                      order_id reason)
  | reject_order order_id reason =>
      on_manager w (OrderManager.reject_order (objects w) (manager w)
                      order_id reason)
  | broker_connect =>
      mk (objects w) (manager w) (SimulatedBroker.connect (broker w)).2
  | broker_disconnect =>
      mk (objects w) (manager w) (SimulatedBroker.disconnect (broker w)).2
  | broker_submit_order r =>
      on_broker w (SimulatedBroker.submit_order (objects w) (broker w) r)
  | broker_cancel_order order_id =>
      on_broker w (SimulatedBroker.cancel_order (objects w) (broker w) order_id)
  | broker_execute_order r current_price =>
      let '(h, b) :=
        state_of (SimulatedBroker.execute_order (objects w) (broker w) r
                    current_price) in
      mk h (manager w) b
  end.

Definition run (w : world) (ops : list op) : world := foldl step w ops.

(** The operations of the order manager. *)
Definition is_manager_op (o : op) : bool :=
  match o with
  | create_order _ _ _ _ _ _ _ _ | submit_order _ | fill_order _ _ _ _
  | cancel_order _ _ | reject_order _ _ => true
  | _ => false
  end.

Definition terminal (st : Order.OrderStatus) : bool :=
  match st with
  | Order.FILLED | Order.CANCELLED | Order.REJECTED => true
  | _ => false
  end.

(** What the state machine allows of one change of status: REJECTED is
    entered from PENDING only, and a terminal status is never left. *)
Definition transition_ok (before after : Order.OrderStatus) : Prop :=
  (after = Order.REJECTED → before ≠ Order.REJECTED → before = Order.PENDING)
  ∧ (terminal before = true → after = before).

Definition step_ok (w : world) (o : op) : Prop :=
  ∀ (r : ref) (before after : Order.t),
    objects w !! r = Some before →
    objects (step w o) !! r = Some after →
    transition_ok (Order.status before) (Order.status after).

End OrderPath.

(** ** backtest/performance_analyzer.py *)

Module DataFrame.

(** The value frame: its [total_value] column and the two derived columns,
    which a frame may lack. *)
Record t : Type := mk {
  total_value : list float;
  daily_return : option (list float);
  cumulative_return : option (list float)
}.

Definition len (df : t) : nat := length (total_value df).

Definition empty (df : t) : bool :=
  match total_value df with [] => true | _ => false end.

End DataFrame.

Module Series.

(** [cummax()]: the running maximum, NaN entries skipped and kept. *)
Fixpoint cummax_from (m : option float) (l : list float) : list float :=
  match l with
  | [] => []
  | x :: l =>
    if PrimFloat.is_nan x then nan :: cummax_from m l else
    let m' :=
      match m with
      | Some y => if PrimFloat.ltb y x then x else y
      | None => x
      end in
    m' :: cummax_from (Some m') l
  end.

Definition cummax (l : list float) : list float := cummax_from None l.

(** [min()]: the least entry that is not NaN; NaN when there is none. *)
Definition min (l : list float) : float :=
  match
    foldl (λ (m : option float) x,
             if PrimFloat.is_nan x then m else
             match m with
             | Some y => Some (if PrimFloat.ltb x y then x else y)
             | None => Some x
             end) None l
  with
  | Some m => m
  | None => nan
  end.

(** [s[s < 0]] *)
Definition negative (l : list float) : list float :=
  filter (λ x, PrimFloat.ltb x 0 = true) l.

Definition of_nat (n : nat) : float :=
  PrimFloat.of_uint63 (Uint63.of_Z (Z.of_nat n)).

Definition dropna (l : list float) : list float :=
  filter (λ x, PrimFloat.is_nan x = false) l.

Definition sum (l : list float) : float := foldl PrimFloat.add 0%float l.

(** The sample standard deviation ([ddof = 1], NaN entries skipped, NaN
    below two entries) computed in two passes.  It is the definition that
    [Series.std()] implements; pandas is free to sum in another order. *)
Definition std_two_pass (l : list float) : float :=
  let xs := dropna l in
  let n := length xs in
  if bool_decide (n < 2)%nat then nan else
  let mean := (sum xs / of_nat n)%float in
  PrimFloat.sqrt
    (sum (map (λ x, ((x - mean) * (x - mean))%float) xs) / of_nat (n - 1))%float.

End Series.

(** The dict that [analyze_trades] returns.  The profits are those of the
    engine's ledger; [profit_factor] is [None] for [float('inf')]. *)
Module TradeAnalysis.
Record t : Type := mk {
  win_rate : Qc;
  profit_factor : option Qc;
  avg_profit : Qc;
  avg_loss : Qc;
  total_trades : nat;
  winning_trades : nat;
  losing_trades : nat;
  total_profit : Qc;
  total_loss : Qc
}.
End TradeAnalysis.

Module PerformanceAnalyzer.

Record t : Type := mk { risk_free_rate : float }.

(** [risk_free_rate = 0.03] *)
Definition __init__ : t := mk 0x1.eb851eb851eb8p-6%float.

Section Calculators.

(** [Series.std()] of pandas and [**] of numpy: library functions, whose
    rounding the analyzer does not depend on. *)
Variable std : list float → float.
Variable pow : float → float → float.

Definition _calculate_annualized_return (self : t) (df : DataFrame.t)
  : outcome float unit :=
  if DataFrame.empty df || bool_decide (DataFrame.len df < 2)%nat
  then Return 0%float () else
  match DataFrame.cumulative_return df with
  | None => Raise (KeyError "cumulative_return") ()
  | Some column =>
    match last column with
    | None => Raise IndexError ()
    | Some total_return =>
      let trading_days := DataFrame.len df in
      let years := (Series.of_nat trading_days / 252)%float in
      if PrimFloat.leb years 0 then Return 0%float () else
      Return (pow (1 + total_return) (1 / years) - 1)%float ()
    end
  end.

Definition _calculate_volatility (self : t) (df : DataFrame.t) : float :=
  if DataFrame.empty df then 0%float else
  match DataFrame.daily_return df with
  | None => 0%float
  | Some column => (std column * PrimFloat.sqrt 252)%float
  end.

Definition _calculate_sharpe_ratio (self : t) (df : DataFrame.t)
  : outcome float unit :=
  if DataFrame.empty df then Return 0%float () else
  match DataFrame.daily_return df with
  | None => Return 0%float ()
  | Some _ =>
    match _calculate_annualized_return self df with
    | Raise e _ => Raise e ()
    | Return annualized_return _ =>
      let volatility := _calculate_volatility self df in
      if PrimFloat.eqb volatility 0 then Return 0%float () else
      Return ((annualized_return - risk_free_rate self) / volatility)%float ()
    end
  end.

Definition _calculate_max_drawdown (self : t) (df : DataFrame.t) : float :=
  if DataFrame.empty df then 0%float else
  let cummax := Series.cummax (DataFrame.total_value df) in
  let drawdown :=
    zip_with (λ v m, ((v - m) / m)%float) (DataFrame.total_value df) cummax in
  Series.min drawdown.

Definition calculate_sortino_ratio (self : t) (df : DataFrame.t)
  : outcome float unit :=
  if DataFrame.empty df then Return 0%float () else
  match DataFrame.daily_return df with
  | None => Return 0%float ()
  | Some column =>
    match _calculate_annualized_return self df with
    | Raise e _ => Raise e ()
    | Return annualized_return _ =>
      let negative_returns := Series.negative column in
      match negative_returns with
      | [] => Return infinity ()
      | _ =>
        let downside_std :=
          (std negative_returns * PrimFloat.sqrt 252)%float in
        if PrimFloat.eqb downside_std 0 then Return 0%float () else
        Return ((annualized_return - risk_free_rate self) / downside_std)%float ()
      end
    end
  end.

Definition calculate_calmar_ratio (self : t) (df : DataFrame.t)
  : outcome float unit :=
  if DataFrame.empty df then Return 0%float () else
  match _calculate_annualized_return self df with
  | Raise e _ => Raise e ()
  | Return annualized_return _ =>
    let max_drawdown := PrimFloat.abs (_calculate_max_drawdown self df) in
    if PrimFloat.eqb max_drawdown 0 then Return infinity () else
    Return (annualized_return / max_drawdown)%float ()
  end.

End Calculators.

(** [sum(l)] and [np.mean(l)] of a list of profits. *)
Definition sum (l : list Qc) : Qc := foldl Qcplus 0%Qc l.

Definition mean (l : list Qc) : Qc :=
  (sum l / Py.float_of_int (Z.of_nat (length l)))%Qc.

(** [analyze_trades(trades)]; [None] is the empty dict. *)
Definition analyze_trades (self : t) (trades : list Trade.t)
  : option TradeAnalysis.t :=
  match trades with
  | [] => None
  | _ =>
    let sell_trades := filter (λ tr, Trade.direction tr = D_SELL) trades in
    match sell_trades with
    | [] => None
    | _ =>
      let profits := map BacktestEngine.profit_or_zero sell_trades in
      let winning_trades := filter (λ p, (0 < p)%Qc) profits in
      let losing_trades := filter (λ p, (p < 0)%Qc) profits in
      let total_profit :=
        match winning_trades with [] => 0%Qc | _ => sum winning_trades end in
      let total_loss :=
        match losing_trades with [] => 0%Qc | _ => Qcabs (sum losing_trades) end in
      let win_rate :=
        match profits with
        | [] => 0%Qc
        | _ => (Py.float_of_int (Z.of_nat (length winning_trades))
                / Py.float_of_int (Z.of_nat (length profits)))%Qc
        end in
      let profit_factor :=
        if decide (0 < total_loss)%Qc then Some (total_profit / total_loss)%Qc
        else None in
      let avg_profit :=
        match winning_trades with [] => 0%Qc | _ => mean winning_trades end in
      let avg_loss :=
        match losing_trades with [] => 0%Qc | _ => mean losing_trades end in
      Some (TradeAnalysis.mk win_rate profit_factor avg_profit avg_loss
              (length sell_trades) (length winning_trades)
              (length losing_trades) total_profit total_loss)
    end
  end.

End PerformanceAnalyzer.

(** ** risk/risk_manager.py *)

Module RiskMetrics.
Record t : Type := mk {
  max_position_ratio : Qc;
  max_single_stock_ratio : Qc;
  max_daily_loss_ratio : Qc;
  max_drawdown_ratio : Qc;
  current_position_ratio : Qc;
  current_daily_pnl_ratio : Qc;
  current_drawdown_ratio : Qc;
  risk_level : string
}.
End RiskMetrics.

Module RiskManager.

Record t : Type := mk {
  max_position_ratio : Qc;
  max_single_stock_ratio : Qc;
  max_daily_loss_ratio : Qc;
  max_drawdown_ratio : Qc;
  stop_loss_ratio : Qc;
  take_profit_ratio : Qc;
  initial_capital : Qc;
  peak_value : Qc;
  daily_start_value : Qc;
  daily_pnl : Qc
}.

Definition __init__ (max_position_ratio max_single_stock_ratio
    max_daily_loss_ratio max_drawdown_ratio stop_loss_ratio
    take_profit_ratio : Qc) : t :=
  mk max_position_ratio max_single_stock_ratio max_daily_loss_ratio
     max_drawdown_ratio stop_loss_ratio take_profit_ratio 0%Qc 0%Qc 0%Qc 0%Qc.



Definition update_daily_start (self : t) (current_value : Qc) : t :=
  mk (max_position_ratio self) (max_single_stock_ratio self)
     (max_daily_loss_ratio self) (max_drawdown_ratio self)
     (stop_loss_ratio self) (take_profit_ratio self)
     (initial_capital self) (peak_value self) current_value 0%Qc.



Definition calculate_single_stock_ratio (self : t)
    (stock_value total_value : Qc) : Qc :=
  if decide (total_value = 0%Qc) then 0%Qc
  else (stock_value / total_value)%Qc.




Definition check_single_stock_limit (self : t)
    (stock_value total_value : Qc) : bool :=
  let ratio := calculate_single_stock_ratio self stock_value total_value in
  bool_decide (ratio ≤ max_single_stock_ratio self)%Qc.



Definition check_stop_loss (self : t) (avg_cost current_price : Qc) : bool :=
  if decide (avg_cost = 0%Qc) then false else
  let loss_ratio := ((current_price - avg_cost) / avg_cost)%Qc in
  bool_decide (loss_ratio ≤ - stop_loss_ratio self)%Qc.

Definition check_take_profit (self : t) (avg_cost current_price : Qc)
  : bool :=
  if decide (avg_cost = 0%Qc) then false else
  let profit_ratio := ((current_price - avg_cost) / avg_cost)%Qc in
  bool_decide (take_profit_ratio self ≤ profit_ratio)%Qc.




End RiskManager.

(** ** strategy/base/base_strategy.py *)

(** The strategy's own book: its positions and the signals it recorded,
    without the [params] dict. *)
Module BaseStrategy.

Record t : Type := mk {
  name : string;
  positions : gmap string Position.t;
  signals_history : list Signal.t
}.

Definition __init__ (name : string) : t := mk name ∅ [].

Definition update_positions (self : t) (symbol : string) (quantity : Z)
    (price : Qc) : t :=
  let positions :=
    match positions self !! symbol with
    | Some _ => positions self
    | None => <[symbol := Position.mk 0 0%Qc 0%Qc]> (positions self)
    end in
  let pos := default (Position.mk 0 0%Qc 0%Qc) (positions !! symbol) in
  let pos :=
    if decide (0 < quantity) then
      let total_cost :=
        (Position.total_cost pos + Py.float_of_int quantity * price)%Qc in
      let held := Position.quantity pos + quantity in
      Position.mk held
        (if decide (0 < held) then (total_cost / Py.float_of_int held)%Qc
         else 0%Qc)
        total_cost
    else
      let sell_quantity := Z.abs quantity in
      if decide (Position.quantity pos ≤ sell_quantity)
      then Position.mk 0 0%Qc 0%Qc
      else
        let held := Position.quantity pos - sell_quantity in
        Position.mk held (Position.avg_cost pos)
          (Py.float_of_int held * Position.avg_cost pos)%Qc in
  mk (name self) (<[symbol := pos]> positions) (signals_history self).

Definition get_position (self : t) (symbol : string) : Position.t :=
  default (Position.mk 0 0%Qc 0%Qc) (positions self !! symbol).

Definition has_position (self : t) (symbol : string) : bool :=
  bool_decide (0 < Position.quantity (get_position self symbol)).

Definition get_all_positions (self : t) : gmap string Position.t :=
  filter (λ kv, 0 < Position.quantity kv.2) (positions self).

Definition clear_position (self : t) (symbol : string) : t :=
  match positions self !! symbol with
  | Some _ =>
      mk (name self) (<[symbol := Position.mk 0 0%Qc 0%Qc]> (positions self))
         (signals_history self)
  | None => self
  end.

Definition clear_all_positions (self : t) : t :=
  mk (name self) ∅ (signals_history self).

Definition record_signal (self : t) (signal : Signal.t) : t :=
  mk (name self) (positions self) (signals_history self ++ [signal]).

Definition get_signals_history (self : t) (symbol : option string)
  : list Signal.t :=
  if Py.truthy symbol
  then filter (λ s, Some (Signal.symbol s) = symbol) (signals_history self)
  else signals_history self.

Definition reset (self : t) : t := mk (name self) ∅ [].

End BaseStrategy.

(** * The back-test engine in binary64 *)

(** The engine as a run computes.  [run_backtest] reads the close of a bar
    from a pandas frame, so the price is a numpy.float64 and so is every
    amount computed from it: the arithmetic is IEEE 754 binary64, a division
    by zero gives an infinity or NaN and does not raise, and [int()] raises
    OverflowError on an infinity and ValueError on NaN.  The two sizing
    functions are given Python floats, on which a division by zero raises
    ZeroDivisionError. *)
Module Binary64.

Inductive exn : Type := OverflowError | ValueError | ZeroDivisionError.

Inductive outcome (A S : Type) : Type :=
| Return (a : A) (s : S)
| Raise (e : exn) (s : S).
Arguments Return {A S} a s.
Arguments Raise {A S} e s.

Definition state_of {A S : Type} (o : outcome A S) : S :=
  match o with
  | Return _ s => s
  | Raise _ s => s
  end.

(** The double nearest to an [int] operand of a mixed operation. *)
Definition of_int (n : Z) : float :=
  SF2Prim (binary_normalize prec emax n 0 false).

(** The double nearest to the decimal literal [n / 10 ^ k] of the source. *)
Definition decimal (n : Z) (k : Z) : float :=
  (of_int n / of_int (10 ^ k))%float.

(** [int(x)]: truncation toward zero. *)
Definition int (x : float) : exn + Z :=
  match Prim2SF x with
  | S754_zero _ => inr 0
  | S754_finite s m e =>
      inr (if s then - Z.shiftl (Z.pos m) e else Z.shiftl (Z.pos m) e)
  | S754_infinity _ => inl OverflowError
  | S754_nan => inl ValueError
  end.

(** [max(a, b)]: [b] only when it is strictly greater. *)
Definition max (a b : float) : float := if PrimFloat.ltb a b then b else a.

(** A [dict] with string keys: its entries in insertion order. *)
Module Dict.

Fixpoint get {V : Type} (d : list (string * V)) (key : string) : option V :=
  match d with
  | [] => None
  | (k, v) :: d => if decide (key = k) then Some v else get d key
  end.

Fixpoint set {V : Type} (d : list (string * V)) (key : string) (value : V)
  : list (string * V) :=
  match d with
  | [] => [(key, value)]
  | (k, v) :: d =>
      if decide (key = k) then (k, value) :: d else (k, v) :: set d key value
  end.

End Dict.

Module Signal.
Record t : Type := mk {
  symbol : string;
  signal_type : Signal.SignalType;
  price : float;
  timestamp : datetime;
  strength : float;
  quantity : option Z
}.

Definition set_symbol (s : t) (sym : string) : t :=
  mk sym (signal_type s) (price s) (timestamp s) (strength s) (quantity s).
End Signal.

Module Position.
Record t : Type := mk { quantity : Z; avg_cost : float; total_cost : float }.
End Position.

Module Trade.
Record t : Type := mk {
  date : datetime;
  symbol : string;
  direction : Direction;
  price : float;
  quantity : Z;
  amount : float;
  commission : float;
  profit : option float;
  cash_after : float
}.
End Trade.

Module DailyValue.
Record t : Type := mk {
  date : datetime;
  total_value : float;
  cash : float;
  position_value : float
}.
End DailyValue.

Module Bar.
Record t : Type := mk {
  index : datetime;
  open : float; high : float; low : float; close : float;
  volume : float; amount : float
}.
End Bar.

Module Strategy.
Record t : Type := mk {
  name : string;
  generate_signals : list Bar.t → list Signal.t
}.
End Strategy.

Module BacktestEngine.

Record t : Type := mk {
  initial_capital : float;
  commission_rate : float;
  stamp_duty_rate : float;
  slippage : float;
  cash : float;
  positions : list (string * Position.t);
  trades : list Trade.t;
  daily_values : list DailyValue.t
}.

Definition __init__ (initial_capital commission_rate stamp_duty_rate
    slippage : float) : t :=
  mk initial_capital commission_rate stamp_duty_rate slippage
     initial_capital [] [] [].

Definition set_cash (self : t) (c : float) : t :=
  mk (initial_capital self) (commission_rate self) (stamp_duty_rate self)
     (slippage self) c (positions self) (trades self) (daily_values self).

Definition set_positions (self : t) (p : list (string * Position.t)) : t :=
  mk (initial_capital self) (commission_rate self) (stamp_duty_rate self)
     (slippage self) (cash self) p (trades self) (daily_values self).

Definition append_trade (self : t) (tr : Trade.t) : t :=
  mk (initial_capital self) (commission_rate self) (stamp_duty_rate self)
     (slippage self) (cash self) (positions self) (trades self ++ [tr])
     (daily_values self).

Definition append_daily_value (self : t) (dv : DailyValue.t) : t :=
  mk (initial_capital self) (commission_rate self) (stamp_duty_rate self)
     (slippage self) (cash self) (positions self) (trades self)
     (daily_values self ++ [dv]).

Definition reset (self : t) : t :=
  mk (initial_capital self) (commission_rate self) (stamp_duty_rate self)
     (slippage self) (initial_capital self) [] [] [].

Definition min_unit : Z := 100.

Definition _execute_buy (self : t) (signal : Signal.t) (price : float)
  : outcome unit t :=
  let actual_price := (price * (1 + slippage self))%float in
  match int (cash self / actual_price) with
  | inl e => Raise e self
  | inr max_quantity =>
    let quantity := (max_quantity `div` min_unit) * min_unit in
    if decide (quantity < min_unit) then Return () self else
    let quantity :=
      match and_positive (Signal.quantity signal) with
      | Some requested => (Z.min quantity requested `div` min_unit) * min_unit
      | None => quantity
      end in
    let amount := (of_int quantity * actual_price)%float in
    let commission := max (amount * commission_rate self) 5 in
    let total_cost := (amount + commission)%float in
    if PrimFloat.ltb (cash self) total_cost then Return () self else
    let self := set_cash self (cash self - total_cost) in
    let symbol := Signal.symbol signal in
    let self :=
      match Dict.get (positions self) symbol with
      | Some _ => self
      | None =>
          set_positions self
            (Dict.set (positions self) symbol (Position.mk 0 0 0))
      end in
    let pos := default (Position.mk 0 0 0) (Dict.get (positions self) symbol) in
    let pos := Position.mk (Position.quantity pos) (Position.avg_cost pos)
                 (Position.total_cost pos + amount) in
    let pos := Position.mk (Position.quantity pos + quantity)
                 (Position.avg_cost pos) (Position.total_cost pos) in
    let pos := Position.mk (Position.quantity pos)
                 (Position.total_cost pos / of_int (Position.quantity pos))
                 (Position.total_cost pos) in
    let self := set_positions self (Dict.set (positions self) symbol pos) in
    Return () (append_trade self
      (Trade.mk (Signal.timestamp signal) symbol D_BUY actual_price quantity
         amount commission None (cash self)))
  end.

Definition _execute_sell (self : t) (signal : Signal.t) (price : float)
  : outcome unit t :=
  let symbol := Signal.symbol signal in
  match Dict.get (positions self) symbol with
  | None => Return () self
  | Some pos =>
    if decide (Position.quantity pos ≤ 0) then Return () self else
    let quantity := Position.quantity pos in
    let quantity :=
      match and_positive (Signal.quantity signal) with
      | Some requested => (Z.min quantity requested `div` min_unit) * min_unit
      | None => quantity
      end in
    if decide (quantity ≤ 0) then Return () self else
    let actual_price := (price * (1 - slippage self))%float in
    let amount := (of_int quantity * actual_price)%float in
    let commission := max (amount * commission_rate self) 5 in
    let stamp_duty := (amount * stamp_duty_rate self)%float in
    let total_revenue := (amount - commission - stamp_duty)%float in
    let self := set_cash self (cash self + total_revenue) in
    let cost := (of_int quantity * Position.avg_cost pos)%float in
    let profit := (amount - cost)%float in
    let remaining := Position.quantity pos - quantity in
    let pos :=
      if decide (remaining ≤ 0) then Position.mk 0 0 0
      else Position.mk remaining (Position.avg_cost pos)
             (of_int remaining * Position.avg_cost pos) in
    let self := set_positions self (Dict.set (positions self) symbol pos) in
    Return () (append_trade self
      (Trade.mk (Signal.timestamp signal) symbol D_SELL actual_price quantity
         amount (commission + stamp_duty) (Some profit) (cash self)))
  end.

Fixpoint _process_signals (self : t) (signals : list Signal.t)
    (current_date : datetime) (current_price : float) : outcome unit t :=
  match signals with
  | [] => Return () self
  | signal :: rest =>
    if decide (date (Signal.timestamp signal) ≠ date current_date)
    then _process_signals self rest current_date current_price
    else
      let step :=
        match Signal.signal_type signal with
        | Signal.BUY => _execute_buy self signal current_price
        | Signal.SELL => _execute_sell self signal current_price
        | _ => Return () self
        end in
      match step with
      | Return _ self => _process_signals self rest current_date current_price
      | Raise e self => Raise e self
      end
  end.

Definition _update_daily_value (self : t) (date : datetime)
    (current_price : float) : t :=
  let position_value :=
    foldl (λ acc entry,
             (acc + of_int (Position.quantity entry.2) * current_price)%float)
          0%float (positions self) in
  let total_value := (cash self + position_value)%float in
  append_daily_value self
    (DailyValue.mk date total_value (cash self) position_value).

(** The loop of [run_backtest] over [data.iterrows()]. *)
Fixpoint run_rows (self : t) (signals : list Signal.t) (rows : list Bar.t)
  : outcome unit t :=
  match rows with
  | [] => Return () self
  | row :: rest =>
    let current_date := Bar.index row in
    let current_price := Bar.close row in
    match _process_signals self signals current_date current_price with
    | Return _ self =>
        run_rows (_update_daily_value self current_date current_price)
                 signals rest
    | Raise e self => Raise e self
    end
  end.

Section Run.

Context {Performance : Type}.
Variable analyze : list DailyValue.t → float → Performance.

Inductive result : Type :=
| ErrorDict (error : string)
| ResultDict (strategy_name : string) (initial_capital final_value : float)
    (trades : list Trade.t) (daily_values : list DailyValue.t)
    (performance : Performance).

Definition _generate_result (self : t) (strategy_name : string) : result :=
  match last (daily_values self) with
  | None => ErrorDict "没有交易记录"
  | Some final =>
      ResultDict strategy_name (initial_capital self)
        (DailyValue.total_value final) (trades self) (daily_values self)
        (analyze (daily_values self) (initial_capital self))
  end.

Definition run_backtest (self : t) (strategy : Strategy.t)
    (data : list Bar.t) (symbol : option string) : outcome result t :=
  let self := reset self in
  match data with
  | [] => Return (ErrorDict "数据为空") self
  | _ =>
    let signals := Strategy.generate_signals strategy data in
    let signals :=
      match symbol with
      | Some sym =>
          if truthy symbol
          then map (λ signal, Signal.set_symbol signal sym) signals
          else signals
      | None => signals
      end in
    match run_rows self signals data with
    | Return _ self =>
        Return (_generate_result self (Strategy.name strategy)) self
    | Raise e self => Raise e self
    end
  end.

End Run.

End BacktestEngine.

(** [a / b] on Python floats. *)
Definition truediv (a b : float) : exn + float :=
  if PrimFloat.eqb b 0 then inl ZeroDivisionError else inr (a / b)%float.

(** risk/risk_manager.py *)
Module RiskManager.

Record t : Type := mk {
  max_position_ratio : float;
  max_single_stock_ratio : float;
  max_daily_loss_ratio : float;
  max_drawdown_ratio : float;
  stop_loss_ratio : float;
  take_profit_ratio : float;
  initial_capital : float;
  peak_value : float;
  daily_start_value : float;
  daily_pnl : float
}.

Definition __init__ (max_position_ratio max_single_stock_ratio
    max_daily_loss_ratio max_drawdown_ratio stop_loss_ratio
    take_profit_ratio : float) : t :=
  mk max_position_ratio max_single_stock_ratio max_daily_loss_ratio
     max_drawdown_ratio stop_loss_ratio take_profit_ratio 0 0 0 0.

Definition calculate_max_position_size (self : t) (total_value price : float)
  : outcome Z unit :=
  let max_value := (total_value * max_single_stock_ratio self)%float in
  match truediv max_value price with
  | inl e => Raise e ()
  | inr quotient =>
    match int quotient with
    | inl e => Raise e ()
    | inr max_quantity =>
      let min_unit := 100 in
      Return (max_quantity `div` min_unit * min_unit) ()
    end
  end.

End RiskManager.

(** strategy/base/base_strategy.py *)
Module BaseStrategy.

Definition calculate_position_size (self : BaseStrategy.t) (symbol : string)
    (price total_capital risk_ratio : float) : outcome Z unit :=
  let risk_amount := (total_capital * risk_ratio)%float in
  match truediv risk_amount price with
  | inl e => Raise e ()
  | inr quotient =>
    match int quotient with
    | inl e => Raise e ()
    | inr quantity =>
      let min_unit := 100 in
      let quantity := quantity `div` min_unit * min_unit in
      Return (Z.max quantity min_unit) ()
    end
  end.

End BaseStrategy.

End Binary64.

Global Instance exn_eq_dec : EqDecision exn.
Proof. solve_decision. Defined.

Global Instance outcome_eq_dec {A S : Type} `{EqDecision A, EqDecision S} :
  EqDecision (outcome A S).
Proof. solve_decision. Defined.

Global Instance SignalType_eq_dec : EqDecision Signal.SignalType.
Proof. solve_decision. Defined.

Global Instance BacktestEngine_eq_dec : EqDecision BacktestEngine.t.
Proof. solve_decision. Defined.

Global Instance result_eq_dec {Performance : Type} `{EqDecision Performance} :
  EqDecision (@BacktestEngine.result Performance).
Proof. solve_decision. Defined.

Global Instance SimulatedBroker_eq_dec : EqDecision SimulatedBroker.t.
Proof. solve_decision. Defined.

Global Instance OrderManager_eq_dec : EqDecision OrderManager.t.
Proof. solve_decision. Defined.

Global Instance PositionManager_eq_dec : EqDecision PositionManager.t.
Proof. solve_decision. Defined.

(** * Vocabulary of the statements, and worked examples *)

Section BacktestVocabulary.

Import BacktestEngine.

(** The engine of the worked example: capital 10,000, commission rate 0.0003,
    slippage 0.001. *)
Definition example_engine (stamp_duty_rate : Qc) : BacktestEngine.t :=
  __init__ (lit 10000) (lit 0.0003) stamp_duty_rate (lit 0.001).




(** The engine of the worked example after a first buy of one lot. *)
Definition one_lot_engine : BacktestEngine.t :=
  mk (lit 10000) (lit 0.0003) (lit 0.001) (lit 0.001) (lit 8994)
     {[ "600000" := Position.mk 100 (lit 10.01) (lit 1001) ]}
     [Trade.mk (mk_datetime 1 0) "600000" D_BUY (lit 10.01) 100 (lit 1001)
        (lit 5) None (lit 8994)]
     [].

Definition buy_signal (day : Z) (requested : option Z) : Signal.t :=
  Signal.mk "600000" Signal.BUY (lit 10) (mk_datetime day 0) (lit 1) requested.


Definition buy_once : Strategy.t :=
  Strategy.mk "buy_once" (λ _, [buy_signal 1 None]).

Definition example_trades : list Trade.t :=
  [Trade.mk (mk_datetime 1 0) "600000" D_BUY (lit 10.01) 900 (lit 9009)
     (lit 5) None (lit 986)].

Definition example_daily_values : list DailyValue.t :=
  [DailyValue.mk (mk_datetime 1 0) (lit 9986) (lit 986) (lit 9000)].

Definition example_ledger : BacktestEngine.t :=
  mk (lit 10000) (lit 0.0003) (lit 0.001) (lit 0.001) (lit 986)
     {[ "600000" := Position.mk 900 (lit 10.01) (lit 9009) ]}
     example_trades example_daily_values.

End BacktestVocabulary.

(** A sell of 450 requested shares at close 11 on the ledger of the worked
    example, and the same position sold through the broker by a market order
    of 400 shares. *)
Definition example_sell_signal : Signal.t :=
  Signal.mk "600000" Signal.SELL (lit 11) (mk_datetime 2 0) (lit 1) (Some 450).

Definition example_sell_trade : Trade.t :=
  Trade.mk (mk_datetime 2 0) "600000" D_SELL (lit 10.989) 400 (lit 4395.6)
    (lit 9.3956) (Some (lit 391.6)) (lit 5372.2044).

Definition example_sell_order : Order.t :=
  Order.mk "600000" Order.SELL 400 Order.MARKET None None Order.SUBMITTED
    0 0%Qc 0%Qc "600000_sell_20240102093000000000" None "".

Definition example_broker : SimulatedBroker.t :=
  SimulatedBroker.mk true (lit 10000) (lit 986)
    {[ "600000" := Position.mk 900 (lit 10.01) (lit 9009) ]}
    {[ "600000_sell_20240102093000000000" := 0%nat ]} []
    (lit 0.0003) (lit 0.001) (lit 0.001).

Section PositionsVocabulary.

Import PositionManager.

Definition example_manager : PositionManager.t :=
  mk (lit 1000000) (lit 900000)
     {[ "TEST" := Holding.mk 10000 (lit 10) (lit 100000) (lit 10) ]}.

End PositionsVocabulary.

Section OrdersVocabulary.

Import OrderPath.

(** The operations that look at the status of the order before they change
    it: those of the order manager, and the broker's cancel; connecting and
    disconnecting the broker touch no order. *)
Definition status_guarded (o : op) : bool :=
  match o with
  | broker_submit_order _ | broker_execute_order _ _ => false
  | _ => true
  end.

(** The order path of the counterexample: a market order for a million
    shares, created through the manager and submitted to a connected broker
    that holds 1,000,000 of cash. *)
Definition oversized_order_ops : list op :=
  [create_order "20240102093000000000" "600000" Order.BUY 1000000
     Order.MARKET None None None;
   broker_connect;
   broker_submit_order 0%nat].

Definition status_at (w : world) (r : ref) : option Order.OrderStatus :=
  Order.status <$> objects w !! r.

(** An order of 100 shares filled through the manager, and one filled by the
    broker. *)
Definition example_order_id : string := "600000_buy_20240102093000000000".

Definition manager_filled : world :=
  run (init (lit 1000000))
    [create_order "20240102093000000000" "600000" Order.BUY 100
       Order.MARKET None None (Some "MA_Strategy");
     submit_order example_order_id;
     fill_order example_order_id 100 (lit 10.2) (lit 5)].

Definition broker_filled : world :=
  run (init (lit 1000000))
    [create_order "20240102093000000000" "600000" Order.BUY 100
       Order.MARKET None None None;
     broker_connect;
     broker_submit_order 0%nat;
     broker_execute_order 0%nat (lit 10)].

Definition unheld_sell : world :=
  run (init (lit 1000000))
    [create_order "20240102093000000000" "600000" Order.SELL 100
       Order.MARKET None None None;
     broker_connect;
     broker_submit_order 0%nat].

End OrdersVocabulary.

Section RatiosVocabulary.

Import PerformanceAnalyzer.


End RatiosVocabulary.

(** A stand-in for [**] in closed examples.  No calculator lets the value of
    the annualized return decide which sentinel it returns. *)
Definition stand_in_pow (x y : float) : float := x.





Section RunVocabulary.

Import BacktestEngine.




(** The signals that a bar acts on: those of its day that buy or sell. *)
Definition due (current_date : datetime) (signals : list Signal.t)
  : list Signal.t :=
  filter (λ signal,
            date (Signal.timestamp signal) = date current_date
            ∧ (Signal.signal_type signal = Signal.BUY
               ∨ Signal.signal_type signal = Signal.SELL)) signals.




End RunVocabulary.

Section LedgerVocabulary.

Import PositionManager.

(** What [clear_all_positions] leaves of an entry. *)
Definition cleared (prices : gmap string Qc) (symbol : string)
    (pos : Holding.t) : Holding.t :=
  match prices !! symbol with
  | Some price =>
      if decide (Holding.quantity pos ≤ 0) then pos
      else Holding.mk 0 0%Qc 0%Qc price
  | None => pos
  end.

End LedgerVocabulary.

Section BrokerVocabulary.

Import SimulatedBroker.

(** The broker is long only: no position is negative and every trade is for
    a positive quantity. *)
Definition long_only (self : SimulatedBroker.t) : Prop :=
  map_Forall (λ _ pos, 0 ≤ Position.quantity pos) (positions self)
  ∧ Forall (λ tr, 0 < BrokerTrade.quantity tr) (trades self).

(** Every order of the store is for a positive quantity. *)
Definition positive_orders (h : store) : Prop :=
  Forall (λ order, 0 < Order.quantity order) h.

(** An operation of the order path that creates no order of a quantity that
    is not positive. *)
Definition creates_positive (o : OrderPath.op) : Prop :=
  match o with
  | OrderPath.create_order _ _ _ quantity _ _ _ _ => 0 < quantity
  | _ => True
  end.

(** The manager's dict maps each id to a stored order that carries that id,
    and files every finished order under [completed_orders]. *)
Definition manager_ok (h : store) (m : OrderManager.t) : Prop :=
  ∀ order_id r,
    OrderManager.orders m !! order_id = Some r →
    ∃ order, h !! r = Some order
             ∧ Order.order_id order = order_id
             ∧ (OrderPath.terminal (Order.status order) = true →
                order_id ∈ OrderManager.completed_orders m).

(** Two orders with the same terms: they may differ in status, fills, fees,
    strategy and message. *)
Definition same_terms (a b : Order.t) : Prop :=
  Order.symbol a = Order.symbol b
  ∧ Order.direction a = Order.direction b
  ∧ Order.quantity a = Order.quantity b
  ∧ Order.order_type a = Order.order_type b
  ∧ Order.price a = Order.price b
  ∧ Order.order_id a = Order.order_id b.

(** What a call of the broker returns or raises, and the broker it leaves. *)
Definition broker_effect (o : outcome bool (store * SimulatedBroker.t))
  : outcome bool SimulatedBroker.t :=
  match o with
  | Return ok (_, self) => Return ok self
  | Raise e (_, self) => Raise e self
  end.

End BrokerVocabulary.

Section StrategyVocabulary.

(** A position of a strategy's book is never short, and an empty one has no
    cost. *)
Definition book_entry_ok (pos : Position.t) : Prop :=
  0 ≤ Position.quantity pos
  ∧ (Position.quantity pos = 0
     → Position.avg_cost pos = 0%Qc ∧ Position.total_cost pos = 0%Qc).

End StrategyVocabulary.

Section Binary64Vocabulary.

Import Binary64 Binary64.BacktestEngine.

(** The engine of the worked example in binary64: capital 10,000, commission
    rate 0.0003, stamp duty 0.001, slippage 0.001. *)
Definition worked_example (stamp_duty_rate : float) : BacktestEngine.t :=
  __init__ 10000 (decimal 3 4) stamp_duty_rate (decimal 1 3).

(** A BUY signal of day 1 for "600000", and the strategy that emits it. *)
Definition buy_order (requested : option Z) : Signal.t :=
  Signal.mk "600000" Signal.BUY 10 (mk_datetime 1 0) 1 requested.

Definition buys_once (requested : option Z) : Strategy.t :=
  Strategy.mk "buy_once" (λ _, [buy_order requested]).

(** An analyzer that reports nothing. *)
Definition no_analysis (_ : list DailyValue.t) (_ : float) : unit := tt.

(** One bar of day 1 that closes at 10. *)
Definition bar_at_10 : list Bar.t :=
  [Bar.mk (mk_datetime 1 0) 10 10 10 10 1000 10000].

(** What a trade does to the cash, as the two executions compute it: a buy
    takes [amount + commission]; a sell adds
    [amount - commission - stamp_duty], the two fees computed from the
    amount. *)
Definition cash_step (self : BacktestEngine.t) (cash : float) (tr : Trade.t)
  : float :=
  match Trade.direction tr with
  | D_BUY => (cash - (Trade.amount tr + Trade.commission tr))%float
  | D_SELL =>
      (cash
       + (Trade.amount tr
          - Binary64.max (Trade.amount tr * commission_rate self) 5
          - Trade.amount tr * stamp_duty_rate self))%float
  end.

(** The cash after a list of trades, from the initial capital. *)
Definition replay (self : BacktestEngine.t) (l : list Trade.t) : float :=
  foldl (cash_step self) (initial_capital self) l.

(** The cash is the replay of the trades, and so is every recorded
    [cash_after]; the engine is one of [self]. *)
Definition replays (self s : BacktestEngine.t) : Prop :=
  initial_capital s = initial_capital self
  ∧ commission_rate s = commission_rate self
  ∧ stamp_duty_rate s = stamp_duty_rate self
  ∧ cash s = replay self (trades s)
  ∧ ∀ (i : nat) (tr : Trade.t),
      trades s !! i = Some tr →
      Trade.cash_after tr = replay self (take (S i) (trades s)).

(** The closed form of the conservation of cash as the specification writes
    it, and with the two sums signed as the code moves the cash, both
    evaluated in binary64 from left to right. *)
Definition taken_by_buys (l : list Trade.t) : float :=
  foldl (λ acc tr,
           match Trade.direction tr with
           | D_BUY => (acc + (Trade.amount tr + Trade.commission tr))%float
           | D_SELL => acc
           end) 0%float l.

Definition brought_by_sells (l : list Trade.t) : float :=
  foldl (λ acc tr,
           match Trade.direction tr with
           | D_BUY => acc
           | D_SELL => (acc + (Trade.amount tr - Trade.commission tr))%float
           end) 0%float l.

Definition residual_as_stated (s : BacktestEngine.t) : float :=
  (initial_capital s - cash s + taken_by_buys (trades s)
   - brought_by_sells (trades s))%float.

Definition residual_signed (s : BacktestEngine.t) : float :=
  (cash s - initial_capital s + taken_by_buys (trades s)
   - brought_by_sells (trades s))%float.

End Binary64Vocabulary.

(** * Properties *)

(** ** Arithmetic of the embedding *)

(** Two canonical rationals are equal as soon as their fractions are. *)
Ltac qc_eq := apply Qc_is_canon; vm_compute; reflexivity.

Ltac qc_neq :=
  let H := fresh in
  intros H; apply (f_equal this) in H; vm_compute in H; discriminate H.

Ltac qc_nlt := let H := fresh in intros H; vm_compute in H; discriminate H.

(** ** The back-test engine *)

Section Backtest.

Import BacktestEngine.

(** C8, amended: on an empty bar series the run raises nothing.  It returns
    the error result ['数据为空'] ("the data is empty"), and the engine is in
    its reset state: the strategy was not asked for signals, nothing was
    executed and no daily value was recorded. *)
Theorem run_backtest_empty {Performance : Type}
    (analyze : list DailyValue.t → Qc → Performance)
    (self : BacktestEngine.t) (strategy : Strategy.t) (symbol : option string) :
  run_backtest analyze self strategy [] symbol
  = Return (ErrorDict "数据为空") (reset self)
  ∧ cash (reset self) = initial_capital self
  ∧ positions (reset self) = ∅
  ∧ trades (reset self) = []
  ∧ daily_values (reset self) = [].
Proof. repeat split. Qed.

(** C8, as stated, on the engine of the worked example: the run on the empty
    series does not fail with an exception, it returns a result. *)
Lemma run_backtest_empty_returns :
  run_backtest (λ _ _, ()) (example_engine (lit 0.001)) buy_once [] None
  = Return (ErrorDict "数据为空") (reset (example_engine (lit 0.001)))
  ∧ ¬ (∃ (e : exn) (s : BacktestEngine.t),
         run_backtest (λ _ _, ()) (example_engine (lit 0.001)) buy_once []
           None = Raise e s).
Proof.
  split; [reflexivity|]. intros (e & s & H). discriminate H.
Qed.

(** *** Lots and quantities *)




(** *** Buying less than one lot *)

Lemma _execute_buy_unaffordable_lot (self : BacktestEngine.t)
    (signal : Signal.t) (price : Qc) :
  (price * (1 + slippage self))%Qc ≠ 0%Qc →
  Py.int_of_float (cash self / (price * (1 + slippage self)))%Qc
    `div` min_unit * min_unit < min_unit →
  _execute_buy self signal price = Return () self.
Proof.
  intros Hprice Hlot. unfold _execute_buy.
  rewrite decide_False by exact Hprice. now rewrite decide_True by exact Hlot.
Qed.

Lemma _execute_buy_insufficient_cash (self : BacktestEngine.t)
    (price : Qc) (symbol : string) (timestamp : datetime) (strength : Qc) :
  (price * (1 + slippage self))%Qc ≠ 0%Qc →
  let affordable :=
    Py.int_of_float (cash self / (price * (1 + slippage self)))%Qc
      `div` min_unit * min_unit in
  let amount := (Py.float_of_int affordable * (price * (1 + slippage self)))%Qc in
  (cash self < amount + Py.pymax (amount * commission_rate self) (lit 5))%Qc →
  _execute_buy self (Signal.mk symbol Signal.BUY price timestamp strength None)
    price
  = Return () self.
Proof.
  intros Hprice affordable amount Hcash. unfold _execute_buy.
  rewrite decide_False by exact Hprice.
  destruct (decide _); [reflexivity|]. simpl.
  now rewrite decide_True by exact Hcash.
Qed.

Lemma one_lot_engine_reached :
  _execute_buy (example_engine (lit 0.001)) (buy_signal 1 (Some 100)) (lit 10)
  = Return () one_lot_engine.
Proof. apply (bool_decide_unpack _). vm_compute. exact I. Qed.

(** C3, at a request of 50 shares with 8994 of cash and 100 shares held: the
    requested quantity rounds down to no lot at all, and the buy still takes
    the minimum commission of 5 from the cash and records a trade of 0
    shares. *)
Theorem buy_below_one_lot_is_charged :
  _execute_buy one_lot_engine (buy_signal 2 (Some 50)) (lit 10)
  = Return ()
      (mk (lit 10000) (lit 0.0003) (lit 0.001) (lit 0.001) (lit 8989)
         {[ "600000" := Position.mk 100 (lit 10.01) (lit 1001) ]}
         [Trade.mk (mk_datetime 1 0) "600000" D_BUY (lit 10.01) 100 (lit 1001)
            (lit 5) None (lit 8994);
          Trade.mk (mk_datetime 2 0) "600000" D_BUY (lit 10.01) 0 (lit 0)
            (lit 5) None (lit 8989)]
         []).
Proof. apply (bool_decide_unpack _). vm_compute. exact I. Qed.

(** The same request on a symbol that is not held: the commission is taken
    and the division for the average cost raises. *)
Lemma buy_below_one_lot_raises :
  _execute_buy (example_engine (lit 0.001)) (buy_signal 1 (Some 50)) (lit 10)
  = Raise ZeroDivisionError
      (mk (lit 10000) (lit 0.0003) (lit 0.001) (lit 0.001) (lit 9995)
         {[ "600000" := Position.mk 0 (lit 0) (lit 0) ]} [] []).
Proof. apply (bool_decide_unpack _). vm_compute. exact I. Qed.

(** *** Profit and cash of a sell *)

Lemma app_singleton_neq {A : Type} (l : list A) (x : A) : l ≠ l ++ [x].
Proof.
  intros H. apply (f_equal length) in H. rewrite length_app in H.
  simpl in H. lia.
Qed.

Lemma _execute_sell_trade (self self' : BacktestEngine.t) (signal : Signal.t)
    (price : Qc) (tr : Trade.t) :
  _execute_sell self signal price = Return () self' →
  trades self' = trades self ++ [tr] →
  ∃ pos : Position.t,
    positions self !! Signal.symbol signal = Some pos
    ∧ Trade.direction tr = D_SELL
    ∧ Trade.amount tr
      = (Py.float_of_int (Trade.quantity tr) * (price * (1 - slippage self)))%Qc
    ∧ Trade.profit tr
      = Some (Trade.amount tr
              - Py.float_of_int (Trade.quantity tr) * Position.avg_cost pos)%Qc
    ∧ Trade.commission tr
      = (Py.pymax (Trade.amount tr * commission_rate self) (lit 5)
         + Trade.amount tr * stamp_duty_rate self)%Qc
    ∧ cash self'
      = (cash self
         + (Trade.amount tr
            - Py.pymax (Trade.amount tr * commission_rate self) (lit 5)
            - Trade.amount tr * stamp_duty_rate self))%Qc.
Proof.
  unfold _execute_sell. intros Hrun Htrades.
  destruct (positions self !! _) as [pos|] eqn:Hlook.
  2:{ injection Hrun as <-. now apply app_singleton_neq in Htrades. }
  destruct (decide _).
  { injection Hrun as <-. now apply app_singleton_neq in Htrades. }
  destruct (decide _).
  { injection Hrun as <-. now apply app_singleton_neq in Htrades. }
  injection Hrun as <-. simpl in Htrades.
  apply app_inj_tail in Htrades as [_ <-]. exists pos. simpl.
  repeat split; reflexivity.
Qed.

End Backtest.

(** ** The back-test engine in binary64 *)

Section Binary64Runs.

Import Binary64 Binary64.BacktestEngine.

Lemma replay_snoc (self : BacktestEngine.t) (l : list Trade.t) (tr : Trade.t) :
  replay self (l ++ [tr]) = cash_step self (replay self l) tr.
Proof. unfold replay. now rewrite foldl_app. Qed.

Lemma replays_append (self s : BacktestEngine.t) (c : float) (tr : Trade.t)
    (p : list (string * Position.t)) :
  replays self s →
  c = cash_step self (cash s) tr → Trade.cash_after tr = c →
  replays self
    (append_trade (set_positions (set_cash s c) p) tr).
Proof.
  intros (Hcap & Hrate & Hstamp & Hcash & Hafter) Hc Htr.
  unfold replays.
  cbn [initial_capital commission_rate stamp_duty_rate cash trades
       append_trade set_positions set_cash].
  split; [exact Hcap|]. split; [exact Hrate|]. split; [exact Hstamp|].
  assert (c = replay self (trades s ++ [tr])) as Hreplay
    by (rewrite replay_snoc, <- Hcash; exact Hc).
  split; [exact Hreplay|].
  intros i tr' Hi.
  destruct (decide (i < length (trades s))%nat) as [Hlt|Hge].
  - rewrite lookup_app_l in Hi by exact Hlt.
    rewrite take_app_le by lia. now apply Hafter.
  - rewrite lookup_app_r in Hi by lia.
    destruct (i - length (trades s))%nat as [|n] eqn:Hn; [|now destruct n].
    injection Hi as <-.
    rewrite take_ge by (rewrite length_app; simpl; lia).
    now rewrite Htr.
Qed.

Lemma _execute_buy_replays (self s : BacktestEngine.t) (signal : Signal.t)
    (price : float) :
  replays self s → replays self (state_of (_execute_buy s signal price)).
Proof.
  intros Hs. unfold _execute_buy.
  destruct (int _) as [e|max_quantity]; [exact Hs|].
  destruct (decide _); [exact Hs|]. cbv zeta.
  destruct (PrimFloat.ltb _ _); [exact Hs|].
  cbn [state_of].
  set (quantity := match and_positive _ with Some _ => _ | None => _ end).
  set (amount := (of_int quantity * _)%float).
  set (commission := Binary64.max _ 5).
  match goal with
  | |- replays _ (append_trade (set_positions ?s' ?p) ?tr) =>
      assert (s' = set_positions (set_cash s (cash s - (amount + commission))%float)
                     (positions s')) as Hs'
  end.
  { destruct (Dict.get _ _); reflexivity. }
  rewrite Hs'.
  match goal with
  | |- replays _ (append_trade (set_positions (set_positions ?a ?p1) ?p2) ?tr) =>
      change (set_positions (set_positions a p1) p2) with (set_positions a p2)
  end.
  apply replays_append; [exact Hs| |].
  - unfold cash_step. cbn [Trade.direction Trade.amount Trade.commission].
    reflexivity.
  - cbn [Trade.cash_after]. destruct (Dict.get _ _); reflexivity.
Qed.

Lemma _execute_sell_replays (self s : BacktestEngine.t) (signal : Signal.t)
    (price : float) :
  replays self s → replays self (state_of (_execute_sell s signal price)).
Proof.
  intros Hs. unfold _execute_sell.
  destruct (Dict.get _ _) as [pos|]; [|exact Hs].
  destruct (decide _); [exact Hs|]. cbv zeta.
  destruct (decide _); [exact Hs|].
  cbn [state_of]. destruct Hs as (Hcap & Hrate & Hstamp & Hcash & Hafter).
  apply replays_append.
  - repeat split; assumption.
  - unfold cash_step. cbn [Trade.direction Trade.amount Trade.commission].
    now rewrite Hrate, Hstamp.
  - reflexivity.
Qed.

Lemma _process_signals_replays (self : BacktestEngine.t)
    (signals : list Signal.t) (current_date : datetime)
    (current_price : float) (s : BacktestEngine.t) :
  replays self s →
  replays self
    (state_of (_process_signals s signals current_date current_price)).
Proof.
  revert s. induction signals as [|signal rest IH]; intros s Hs; simpl;
    [exact Hs|].
  destruct (decide _); [now apply IH|].
  destruct (Signal.signal_type signal); try now apply IH.
  - pose proof (_execute_buy_replays self s signal current_price Hs) as H.
    destruct (_execute_buy s signal current_price); [now apply IH | exact H].
  - pose proof (_execute_sell_replays self s signal current_price Hs) as H.
    destruct (_execute_sell s signal current_price); [now apply IH | exact H].
Qed.

Lemma run_rows_replays (self : BacktestEngine.t) (signals : list Signal.t)
    (rows : list Bar.t) (s : BacktestEngine.t) :
  replays self s → replays self (state_of (run_rows s signals rows)).
Proof.
  revert s. induction rows as [|row rest IH]; intros s Hs; simpl; [exact Hs|].
  pose proof (_process_signals_replays self signals (Bar.index row)
                (Bar.close row) s Hs) as H.
  destruct (_process_signals s signals (Bar.index row) (Bar.close row));
    [|exact H].
  apply IH. exact H.
Qed.

(** C5, amended.  In any run, whether it returns or raises, the cash moves
    only with the trades and by what they record, each step as binary64
    computes it: from the initial capital every buy takes
    [amount + commission] and every sell adds
    [amount - commission - stamp_duty]; replaying the trades in this way
    gives the [cash_after] that each trade records and, at the end, the cash
    of the engine. *)
Theorem cash_replays_trades {Performance : Type}
    (analyze : list DailyValue.t → float → Performance)
    (self : BacktestEngine.t) (strategy : Strategy.t) (data : list Bar.t)
    (symbol : option string) :
  let s := state_of (run_backtest analyze self strategy data symbol) in
  cash s = replay self (trades s)
  ∧ ∀ (i : nat) (tr : Trade.t),
      trades s !! i = Some tr →
      Trade.cash_after tr = replay self (take (S i) (trades s)).
Proof.
  intros s.
  assert (replays self s) as (_ & _ & _ & Hcash & Hafter);
    [|split; [exact Hcash | exact Hafter]].
  assert (replays self (reset self)) as Hreset.
  { repeat split. intros i tr Hi. destruct i; discriminate Hi. }
  subst s. unfold run_backtest. destruct data as [|row rest]; [exact Hreset|].
  match goal with
  | |- context [run_rows ?s0 ?sigs ?rows] =>
      pose proof (run_rows_replays self sigs rows s0 Hreset) as Hrun;
      destruct (run_rows s0 sigs rows); exact Hrun
  end.
Qed.

End Binary64Runs.

Section Binary64Examples.

Import Binary64 Binary64.BacktestEngine.

(** C2, amended.  On the worked example (capital 10,000, commission rate
    0.0003, slippage 0.001, a BUY without a requested quantity at the close
    10.0) the buy is executed for exactly 900 shares and a commission of
    exactly 5; the effective price is 10.009999999999998, the amount
    9008.999999999998 and the cash afterwards 986.0000000000018, which are
    the 10.01, 9009.0 and 986.0 of the example to within 1e-11 and not
    exactly.  This holds for every symbol, timestamp and stamp duty rate. *)
Theorem example_buy_in_binary64 (stamp_duty_rate : float) (symbol : string)
    (price strength : float) (timestamp : datetime) :
  let effective_price := 0x1.4051eb851eb84p+3%float in
  let amount := 0x1.1987fffffffffp+13%float in
  let cash_after := 0x1.ed0000000001p+9%float in
  _execute_buy (worked_example stamp_duty_rate)
    (Signal.mk symbol Signal.BUY price timestamp strength None) 10
  = Return ()
      (mk 10000 (decimal 3 4) stamp_duty_rate (decimal 1 3) cash_after
         [(symbol, Position.mk 900 effective_price amount)]
         [Trade.mk timestamp symbol D_BUY effective_price 900 amount 5 None
            cash_after] [])
  ∧ PrimFloat.ltb (PrimFloat.abs (effective_price - decimal 1001 2))
      (decimal 1 11) = true
  ∧ PrimFloat.ltb (PrimFloat.abs (amount - 9009)) (decimal 1 11) = true
  ∧ PrimFloat.ltb (PrimFloat.abs (cash_after - 986)) (decimal 1 11) = true
  ∧ PrimFloat.eqb effective_price (decimal 1001 2) = false
  ∧ PrimFloat.eqb amount 9009 = false
  ∧ PrimFloat.eqb cash_after 986 = false.
Proof.
  cbv zeta. split; [|vm_compute; repeat split].
  unfold _execute_buy, worked_example, __init__.
  cbn [slippage cash commission_rate positions Signal.quantity Signal.symbol
       Signal.timestamp and_positive set_cash set_positions append_trade
       initial_capital BacktestEngine.stamp_duty_rate trades daily_values].
  replace (10 * (1 + decimal 1 3))%float with 0x1.4051eb851eb84p+3%float
    by (vm_compute; reflexivity).
  replace (int (10000 / 0x1.4051eb851eb84p+3)) with (@inr exn Z 999)
    by (vm_compute; reflexivity).
  replace (999 `div` min_unit * min_unit) with 900 by reflexivity.
  rewrite decide_False by (unfold min_unit; lia).
  replace (of_int 900 * 0x1.4051eb851eb84p+3)%float
    with 0x1.1987fffffffffp+13%float by (vm_compute; reflexivity).
  replace (Binary64.max (0x1.1987fffffffffp+13 * decimal 3 4) 5)
    with 5%float by (vm_compute; reflexivity).
  replace (PrimFloat.ltb 10000 (0x1.1987fffffffffp+13 + 5)) with false
    by (vm_compute; reflexivity).
  replace (10000 - (0x1.1987fffffffffp+13 + 5))%float
    with 0x1.ed0000000001p+9%float by (vm_compute; reflexivity).
  cbn [Dict.get Dict.set positions set_positions default from_option id].
  rewrite decide_True by reflexivity.
  cbn [default from_option id Position.quantity Position.avg_cost
       Position.total_cost cash positions initial_capital commission_rate
       BacktestEngine.stamp_duty_rate slippage trades daily_values app].
  rewrite decide_True by reflexivity.
  replace (0 + 0x1.1987fffffffffp+13)%float with 0x1.1987fffffffffp+13%float
    by (vm_compute; reflexivity).
  replace (0x1.1987fffffffffp+13 / of_int (0 + 900))%float
    with 0x1.4051eb851eb84p+3%float by (vm_compute; reflexivity).
  reflexivity.
Qed.

(** C2, as stated, on the example: the buy is for 900 shares and a
    commission of 5, but its effective price is not 10.01, its amount is not
    9009.0, and the cash it leaves is above 986.0. *)
Lemma example_buy_is_not_exact :
  let s := state_of (_execute_buy (worked_example (decimal 1 3))
                       (buy_order None) 10) in
  trades s
  = [Trade.mk (mk_datetime 1 0) "600000" D_BUY 0x1.4051eb851eb84p+3 900
       0x1.1987fffffffffp+13 5 None 0x1.ed0000000001p+9]
  ∧ cash s = 0x1.ed0000000001p+9%float
  ∧ PrimFloat.ltb 986 (cash s) = true
  ∧ PrimFloat.eqb 0x1.4051eb851eb84p+3 (decimal 1001 2) = false
  ∧ PrimFloat.eqb 0x1.1987fffffffffp+13 9009 = false
  ∧ cash s ≠ 986%float.
Proof.
  cbv zeta. repeat split; try (vm_compute; reflexivity).
  intros H. apply (f_equal (λ x, PrimFloat.eqb x 986)) in H.
  vm_compute in H. discriminate H.
Qed.

(** C1: a BUY that requests less than one lot of a symbol that is not held.
    On the worked example, with one bar closing at 10.0 and a BUY of 50
    shares, the run returns; it has taken the minimum commission, recorded a
    trade of 0 shares, and left the position with quantity 0, total cost 0.0
    and an average cost that is NaN (0.0 / 0), not 0. *)
Theorem sub_lot_buy_breaks_ledger {Performance : Type}
    (analyze : list DailyValue.t → float → Performance) :
  let run := run_backtest analyze (worked_example (decimal 1 3))
               (buys_once (Some 50)) bar_at_10 None in
  (∃ res, run = Return res (state_of run))
  ∧ positions (state_of run) = [("600000", Position.mk 0 nan 0)]
  ∧ PrimFloat.is_nan nan = true
  ∧ PrimFloat.eqb nan 0 = false
  ∧ cash (state_of run) = 9995%float
  ∧ trades (state_of run)
    = [Trade.mk (mk_datetime 1 0) "600000" D_BUY 0x1.4051eb851eb84p+3 0 0 5
         None 9995].
Proof.
  cbv zeta. split; [eexists; reflexivity|].
  repeat split; vm_compute; reflexivity.
Qed.

(** C5, as stated, on the worked example: with the signs of the claim the
    closed form is about 18028, not 0.  With the two sums signed as the code
    moves the cash, the run that buys 100 shares at 10.0 from a capital of
    1,000,000 ends with 998994.0 after taking 1005.9999999999998, and the
    closed form is negative (-2.27e-13), not 0: in binary64 it holds only up
    to rounding. *)
Lemma closed_form_conservation_fails :
  let s := state_of (run_backtest no_analysis (worked_example (decimal 1 3))
                       (buys_once None) bar_at_10 None) in
  let s' := state_of (run_backtest no_analysis
                        (__init__ 1000000 (decimal 3 4) (decimal 1 3)
                           (decimal 1 3))
                        (buys_once (Some 100)) bar_at_10 None) in
  PrimFloat.ltb 18027 (residual_as_stated s) = true
  ∧ residual_as_stated s ≠ 0%float
  ∧ cash s' = 998994%float
  ∧ taken_by_buys (trades s') = 0x1.f6ffffffffffep+9%float
  ∧ PrimFloat.ltb (residual_signed s') 0 = true
  ∧ residual_signed s' ≠ 0%float.
Proof.
  cbv zeta. repeat split; try (vm_compute; reflexivity).
  - intros H. apply (f_equal (λ x, PrimFloat.eqb x 0)) in H.
    vm_compute in H. discriminate H.
  - intros H. apply (f_equal (λ x, PrimFloat.eqb x 0)) in H.
    vm_compute in H. discriminate H.
Qed.

End Binary64Examples.

(** ** The simulated broker *)

Section Broker.

Import SimulatedBroker.

Lemma broker_execute_sell_trade (h h' : store) (self self' : SimulatedBroker.t)
    (r : ref) (order : Order.t) (current_price : Qc) :
  _execute_sell h self r order current_price = Return true (h', self') →
  ∃ (pos : Position.t) (tr : BrokerTrade.t),
    positions self !! Order.symbol order = Some pos
    ∧ trades self' = trades self ++ [tr]
    ∧ BrokerTrade.direction tr = D_SELL
    ∧ BrokerTrade.quantity tr = Order.quantity order
    ∧ BrokerTrade.amount tr
      = (Py.float_of_int (BrokerTrade.quantity tr) * BrokerTrade.price tr)%Qc
    ∧ BrokerTrade.profit tr
      = Some (BrokerTrade.amount tr
              - Py.float_of_int (BrokerTrade.quantity tr)
                * Position.avg_cost pos)%Qc
    ∧ BrokerTrade.commission tr
      = (Py.pymax (BrokerTrade.amount tr * commission_rate self) (lit 5)
         + BrokerTrade.amount tr * stamp_duty_rate self)%Qc
    ∧ cash self'
      = (cash self
         + (BrokerTrade.amount tr
            - Py.pymax (BrokerTrade.amount tr * commission_rate self) (lit 5)
            - BrokerTrade.amount tr * stamp_duty_rate self))%Qc.
Proof.
  unfold _execute_sell. intros Hrun.
  destruct (positions self !! _) as [pos|] eqn:Hlook; [|discriminate].
  destruct (decide _); [discriminate|].
  destruct (Order.order_type order); try discriminate.
  - injection Hrun as _ <-. exists pos. eexists. simpl.
    repeat split; reflexivity.
  - destruct (Order.price order) as [limit|]; [|discriminate].
    destruct (decide _); [discriminate|].
    injection Hrun as _ <-. exists pos. eexists. simpl.
    repeat split; reflexivity.
Qed.

End Broker.

(** ** Sells on the two paths *)

(** C4: an executed SELL records [profit = amount - quantity * avg_cost], the
    average cost being the one held before the sell and no fee entering the
    profit, and credits the cash with [amount - commission - stamp_duty];
    the fees field of the record is the commission plus the stamp duty.
    This holds for a sell of the back-test engine that appends its trade and
    for a sell order that the simulated broker executes. *)
Theorem sell_profit_excludes_fees :
  (∀ (self self' : BacktestEngine.t) (signal : Signal.t) (price : Qc)
     (tr : Trade.t),
     BacktestEngine._execute_sell self signal price = Return () self' →
     BacktestEngine.trades self' = BacktestEngine.trades self ++ [tr] →
     ∃ pos : Position.t,
       BacktestEngine.positions self !! Signal.symbol signal = Some pos
       ∧ Trade.profit tr
         = Some (Trade.amount tr
                 - Py.float_of_int (Trade.quantity tr)
                   * Position.avg_cost pos)%Qc
       ∧ BacktestEngine.cash self'
         = (BacktestEngine.cash self
            + (Trade.amount tr
               - Py.pymax (Trade.amount tr
                           * BacktestEngine.commission_rate self) (lit 5)
               - Trade.amount tr * BacktestEngine.stamp_duty_rate self))%Qc)
  ∧ (∀ (h h' : store) (self self' : SimulatedBroker.t) (r : ref)
       (order : Order.t) (current_price : Qc),
       h !! r = Some order →
       Order.direction order = Order.SELL →
       SimulatedBroker.execute_order h self r current_price
         = Return true (h', self') →
       ∃ (pos : Position.t) (tr : BrokerTrade.t),
         SimulatedBroker.positions self !! Order.symbol order = Some pos
         ∧ SimulatedBroker.trades self' = SimulatedBroker.trades self ++ [tr]
         ∧ BrokerTrade.profit tr
           = Some (BrokerTrade.amount tr
                   - Py.float_of_int (BrokerTrade.quantity tr)
                     * Position.avg_cost pos)%Qc
         ∧ SimulatedBroker.cash self'
           = (SimulatedBroker.cash self
              + (BrokerTrade.amount tr
                 - Py.pymax (BrokerTrade.amount tr
                             * SimulatedBroker.commission_rate self) (lit 5)
                 - BrokerTrade.amount tr
                   * SimulatedBroker.stamp_duty_rate self))%Qc).
Proof.
  split.
  - intros self self' signal price tr Hrun Htrades.
    destruct (_execute_sell_trade _ _ _ _ _ Hrun Htrades)
      as (pos & Hpos & _ & _ & Hprofit & _ & Hcash).
    exists pos. auto.
  - intros h h' self self' r order current_price Hr Hdir.
    unfold SimulatedBroker.execute_order. rewrite Hr, Hdir.
    destruct (negb _); [discriminate|]. intros Hrun.
    destruct (broker_execute_sell_trade _ _ _ _ _ _ _ Hrun)
      as (pos & tr & Hpos & Htrades & _ & _ & _ & Hprofit & _ & Hcash).
    exists pos, tr. auto.
Qed.

Lemma sell_profit_excludes_fees_witness :
  (∃ pos : Position.t,
     BacktestEngine.positions example_ledger !! "600000" = Some pos
     ∧ Trade.profit example_sell_trade
       = Some (Trade.amount example_sell_trade
               - Py.float_of_int (Trade.quantity example_sell_trade)
                 * Position.avg_cost pos)%Qc
     ∧ BacktestEngine.cash
         (state_of (BacktestEngine._execute_sell example_ledger
                      example_sell_signal (lit 11)))
       = (BacktestEngine.cash example_ledger
          + (Trade.amount example_sell_trade
             - Py.pymax (Trade.amount example_sell_trade
                         * BacktestEngine.commission_rate example_ledger)
                 (lit 5)
             - Trade.amount example_sell_trade
               * BacktestEngine.stamp_duty_rate example_ledger))%Qc)
  ∧ (∃ (pos : Position.t) (tr : BrokerTrade.t),
       SimulatedBroker.positions example_broker !! "600000" = Some pos
       ∧ SimulatedBroker.trades
           (state_of (SimulatedBroker.execute_order [example_sell_order]
                        example_broker 0%nat (lit 11))).2
         = SimulatedBroker.trades example_broker ++ [tr]
       ∧ BrokerTrade.profit tr
         = Some (BrokerTrade.amount tr
                 - Py.float_of_int (BrokerTrade.quantity tr)
                   * Position.avg_cost pos)%Qc
       ∧ SimulatedBroker.cash
           (state_of (SimulatedBroker.execute_order [example_sell_order]
                        example_broker 0%nat (lit 11))).2
         = (SimulatedBroker.cash example_broker
            + (BrokerTrade.amount tr
               - Py.pymax (BrokerTrade.amount tr
                           * SimulatedBroker.commission_rate example_broker)
                   (lit 5)
               - BrokerTrade.amount tr
                 * SimulatedBroker.stamp_duty_rate example_broker))%Qc).
Proof.
  split.
  - apply (proj1 sell_profit_excludes_fees example_ledger
             (state_of (BacktestEngine._execute_sell example_ledger
                          example_sell_signal (lit 11)))
             example_sell_signal (lit 11) example_sell_trade).
    + vm_compute. reflexivity.
    + apply (bool_decide_unpack _). vm_compute. exact I.
  - apply (proj2 sell_profit_excludes_fees [example_sell_order]
             (state_of (SimulatedBroker.execute_order [example_sell_order]
                          example_broker 0%nat (lit 11))).1
             example_broker
             (state_of (SimulatedBroker.execute_order [example_sell_order]
                          example_broker 0%nat (lit 11))).2
             0%nat example_sell_order (lit 11)).
    + reflexivity.
    + reflexivity.
    + vm_compute. reflexivity.
Defined.

(** ** The position manager *)

Section Positions.

Import PositionManager.

(** C9: a sell through [update_position] of more shares than the symbol's
    position holds changes neither the cash nor the quantity, average cost
    and total cost of the position, nor any other position; the position's
    [current_price] becomes the supplied price. *)
Theorem update_position_oversized_sell (self : PositionManager.t)
    (symbol : string) (quantity : Z) (price : Qc) (pos : Holding.t) :
  positions self !! symbol = Some pos →
  Holding.quantity pos < quantity →
  update_position self symbol quantity price false
  = mk (initial_capital self) (cash self)
       (<[symbol := Holding.mk (Holding.quantity pos) (Holding.avg_cost pos)
                      (Holding.total_cost pos) price]> (positions self)).
Proof.
  intros Hlook Hheld. unfold update_position. rewrite Hlook.
  rewrite decide_False by lia. reflexivity.
Qed.

Lemma update_position_oversized_sell_witness :
  positions example_manager !! "TEST"
  = Some (Holding.mk 10000 (lit 10) (lit 100000) (lit 10))
  ∧ 10000 < 10001
  ∧ update_position example_manager "TEST" 10001 (lit 12) false
    = mk (lit 1000000) (lit 900000)
         (<["TEST" := Holding.mk 10000 (lit 10) (lit 100000) (lit 12)]>
            (positions example_manager)).
Proof.
  split; [reflexivity|]. split; [lia|].
  apply (update_position_oversized_sell example_manager "TEST" 10001 (lit 12)
           (Holding.mk 10000 (lit 10) (lit 100000) (lit 10)));
    [reflexivity | simpl; lia].
Defined.

(** C10: [clear_position] on a held symbol adds [quantity * price] to the
    cash, with no commission, stamp duty or slippage, returns that revenue
    and leaves the position at quantity 0, average cost 0 and total cost 0
    (its [current_price] is the supplied price); on a symbol that has no
    position, or whose quantity is not positive, it returns 0 and changes
    nothing. *)
Theorem clear_position_spec (self : PositionManager.t) (symbol : string)
    (price : Qc) :
  (∀ pos : Holding.t,
     positions self !! symbol = Some pos → 0 < Holding.quantity pos →
     clear_position self symbol price
     = ((Py.float_of_int (Holding.quantity pos) * price)%Qc,
        mk (initial_capital self)
           (cash self + Py.float_of_int (Holding.quantity pos) * price)%Qc
           (<[symbol := Holding.mk 0 0%Qc 0%Qc price]> (positions self))))
  ∧ (positions self !! symbol = None →
     clear_position self symbol price = (0%Qc, self))
  ∧ (∀ pos : Holding.t,
       positions self !! symbol = Some pos → Holding.quantity pos ≤ 0 →
       clear_position self symbol price = (0%Qc, self)).
Proof.
  unfold clear_position. repeat split.
  - intros pos -> Hq. now rewrite decide_False by lia.
  - now intros ->.
  - intros pos -> Hq. now rewrite decide_True by lia.
Qed.

Lemma clear_position_spec_witness :
  clear_position example_manager "TEST" (lit 12)
  = ((Py.float_of_int 10000 * lit 12)%Qc,
     mk (lit 1000000) (lit 900000 + Py.float_of_int 10000 * lit 12)%Qc
        (<["TEST" := Holding.mk 0 0%Qc 0%Qc (lit 12)]>
           (positions example_manager)))
  ∧ clear_position example_manager "NONE" (lit 12) = (0%Qc, example_manager)
  ∧ clear_position
      (mk (lit 1000000) (lit 1000000)
          {[ "TEST" := Holding.mk 0 0%Qc 0%Qc (lit 10) ]}) "TEST" (lit 12)
    = (0%Qc,
       mk (lit 1000000) (lit 1000000)
          {[ "TEST" := Holding.mk 0 0%Qc 0%Qc (lit 10) ]}).
Proof.
  split; [|split].
  - apply (proj1 (clear_position_spec example_manager "TEST" (lit 12))
             (Holding.mk 10000 (lit 10) (lit 100000) (lit 10)));
      [reflexivity | simpl; lia].
  - apply (proj1 (proj2 (clear_position_spec example_manager "NONE" (lit 12)))).
    reflexivity.
  - apply (proj2 (proj2 (clear_position_spec
                           (mk (lit 1000000) (lit 1000000)
                               {[ "TEST" := Holding.mk 0 0%Qc 0%Qc (lit 10) ]})
                           "TEST" (lit 12)))
             (Holding.mk 0 0%Qc 0%Qc (lit 10)));
      [reflexivity | simpl; lia].
Defined.

End Positions.

(** ** The order state machine *)

Section Orders.

Import OrderPath.

Lemma transition_ok_refl (st : Order.OrderStatus) : transition_ok st st.
Proof. split; [intros H1 H2; contradiction | reflexivity]. Qed.

Lemma transition_ok_active (order : Order.t) (after : Order.OrderStatus) :
  Order.is_active order = true → after ≠ Order.REJECTED →
  transition_ok (Order.status order) after.
Proof.
  unfold Order.is_active. intros Hactive Hafter. split.
  - intros ->. contradiction.
  - destruct (Order.status order); simpl; intros; discriminate.
Qed.

(** Replacing one object of the store by one that made a legal transition
    is a legal step for every object. *)
Lemma store_update_ok (h : store) (r' : ref) (o o' : Order.t) :
  h !! r' = Some o →
  transition_ok (Order.status o) (Order.status o') →
  ∀ (r : ref) (before after : Order.t),
    h !! r = Some before → <[r' := o']> h !! r = Some after →
    transition_ok (Order.status before) (Order.status after).
Proof.
  intros Ho Hok r before after Hbefore Hafter.
  destruct (decide (r = r')) as [->|Hne].
  - rewrite list_lookup_insert_eq in Hafter by (eapply lookup_lt_Some; eauto).
    congruence.
  - rewrite list_lookup_insert_ne in Hafter by congruence.
    assert (before = after) as -> by congruence. apply transition_ok_refl.
Qed.

Lemma store_same_ok (h : store) :
  ∀ (r : ref) (before after : Order.t),
    h !! r = Some before → h !! r = Some after →
    transition_ok (Order.status before) (Order.status after).
Proof.
  intros r before after H1 H2. assert (before = after) as -> by congruence.
  apply transition_ok_refl.
Qed.

Lemma get_order_Some (h : store) (m : OrderManager.t) (order_id : string)
    (r : ref) (order : Order.t) :
  OrderManager.get_order h m order_id = Some (r, order) →
  OrderManager.orders m !! order_id = Some r ∧ h !! r = Some order.
Proof.
  unfold OrderManager.get_order.
  destruct (OrderManager.orders m !! order_id) as [r'|]; [|discriminate].
  destruct (h !! r') as [o|] eqn:Hr; [|discriminate].
  intros [= -> ->]. auto.
Qed.

Lemma update_fill_status (order : Order.t) (q : Z) (p c : Qc) :
  Order.status (Order.update_fill order q p c) = Order.FILLED
  ∨ Order.status (Order.update_fill order q p c) = Order.PARTIAL_FILLED
  ∨ Order.status (Order.update_fill order q p c) = Order.status order.
Proof.
  unfold Order.update_fill; simpl. repeat case_decide; auto.
Qed.

Lemma status_guarded_step_ok (w : world) (o : op) :
  status_guarded o = true → step_ok w o.
Proof.
  intros Hg. unfold step_ok. destruct o; try discriminate; simpl.
  - (* create_order *)
    intros r before after Hbefore Hafter.
    rewrite lookup_app_l in Hafter by (eapply lookup_lt_Some; eauto).
    eapply store_same_ok; eauto.
  - (* submit_order *)
    unfold OrderManager.submit_order.
    destruct (OrderManager.get_order _ _ _) as [[r' order]|] eqn:Hget;
      [|apply store_same_ok].
    apply get_order_Some in Hget as [_ Hr'].
    destruct (Order.status order) eqn:Hst; try apply store_same_ok.
    simpl. eapply store_update_ok; [exact Hr'|]. rewrite Hst. simpl.
    split; [discriminate | discriminate].
  - (* fill_order *)
    unfold OrderManager.fill_order.
    destruct (OrderManager.get_order _ _ _) as [[r' order]|] eqn:Hget;
      [|apply store_same_ok].
    apply get_order_Some in Hget as [_ Hr'].
    destruct (Order.is_active order) eqn:Hactive; [|apply store_same_ok].
    simpl. eapply store_update_ok; [exact Hr'|].
    apply transition_ok_active; [exact Hactive|].
    destruct (update_fill_status order filled_quantity filled_price commission)
      as [-> | [-> | ->]]; try discriminate.
    unfold Order.is_active in Hactive.
    destruct (Order.status order); discriminate.
  - (* cancel_order *)
    unfold OrderManager.cancel_order.
    destruct (OrderManager.get_order _ _ _) as [[r' order]|] eqn:Hget;
      [|apply store_same_ok].
    apply get_order_Some in Hget as [_ Hr'].
    destruct (Order.is_active order) eqn:Hactive; [|apply store_same_ok].
    simpl. eapply store_update_ok; [exact Hr'|].
    apply transition_ok_active; [exact Hactive|].
    unfold Order.cancel. rewrite Hactive. discriminate.
  - (* reject_order *)
    unfold OrderManager.reject_order.
    destruct (OrderManager.get_order _ _ _) as [[r' order]|] eqn:Hget;
      [|apply store_same_ok].
    apply get_order_Some in Hget as [_ Hr'].
    destruct (Order.status order) eqn:Hst; try apply store_same_ok.
    simpl. eapply store_update_ok; [exact Hr'|]. rewrite Hst.
    split; [reflexivity | discriminate].
  - (* broker_connect *) apply store_same_ok.
  - (* broker_disconnect *) apply store_same_ok.
  - (* broker_cancel_order *)
    unfold SimulatedBroker.cancel_order.
    destruct (SimulatedBroker.orders _ !! _) as [r'|]; [|apply store_same_ok].
    destruct (objects w !! r') as [order|] eqn:Hr'; [|apply store_same_ok].
    destruct (Order.is_active order) eqn:Hactive; [|apply store_same_ok].
    simpl. eapply store_update_ok; [exact Hr'|].
    apply transition_ok_active; [exact Hactive|].
    unfold Order.cancel. rewrite Hactive. discriminate.
Qed.

Lemma manager_cancel_filled (h : store) (m : OrderManager.t)
    (order_id reason : string) (r : ref) (order : Order.t) :
  OrderManager.orders m !! order_id = Some r → h !! r = Some order →
  Order.status order = Order.FILLED →
  OrderManager.cancel_order h m order_id reason = (false, h, m).
Proof.
  intros Hid Hr Hst. unfold OrderManager.cancel_order, OrderManager.get_order.
  rewrite Hid, Hr. unfold Order.is_active. now rewrite Hst.
Qed.

Lemma broker_cancel_filled (h : store) (b : SimulatedBroker.t)
    (order_id : string) (r : ref) (order : Order.t) :
  SimulatedBroker.orders b !! order_id = Some r → h !! r = Some order →
  Order.status order = Order.FILLED →
  SimulatedBroker.cancel_order h b order_id = (false, h, b).
Proof.
  intros Hid Hr Hst. unfold SimulatedBroker.cancel_order.
  rewrite Hid, Hr. unfold Order.is_active. now rewrite Hst.
Qed.

Lemma broker_rejects_unaffordable (h : store) (b : SimulatedBroker.t)
    (r : ref) (order : Order.t) (current_price execution_price : Qc) :
  h !! r = Some order → SimulatedBroker.connected b = true →
  Order.direction order = Order.BUY →
  (Order.order_type order = Order.MARKET
   ∧ execution_price = (current_price * (1 + SimulatedBroker.slippage b))%Qc
   ∨ Order.order_type order = Order.LIMIT
     ∧ Order.price order = Some execution_price
     ∧ ¬ (execution_price < current_price)%Qc) →
  let amount :=
    (Py.float_of_int (Order.quantity order) * execution_price)%Qc in
  (SimulatedBroker.cash b
   < amount + Py.pymax (amount * SimulatedBroker.commission_rate b) (lit 5))%Qc →
  SimulatedBroker.execute_order h b r current_price
  = Return false (<[r := Order.reject order "资金不足"]> h, b).
Proof.
  intros Hr Hc Hdir Hpriced amount Hcash.
  unfold SimulatedBroker.execute_order, SimulatedBroker._execute_buy.
  rewrite Hr, Hc, Hdir.
  destruct Hpriced as [[Hty ->]|(Hty & Hprice & Hreached)]; rewrite Hty.
  - simpl. now rewrite decide_True by exact Hcash.
  - rewrite Hprice. simpl. rewrite decide_False by exact Hreached.
    now rewrite decide_True by exact Hcash.
Qed.

Lemma broker_rejects_unheld (h : store) (b : SimulatedBroker.t)
    (r : ref) (order : Order.t) (current_price : Qc) :
  h !! r = Some order → SimulatedBroker.connected b = true →
  Order.direction order = Order.SELL →
  (∀ pos, SimulatedBroker.positions b !! Order.symbol order = Some pos →
          Position.quantity pos < Order.quantity order) →
  SimulatedBroker.execute_order h b r current_price
  = Return false (<[r := Order.reject order "持仓不足"]> h, b).
Proof.
  intros Hr Hc Hdir Hheld.
  unfold SimulatedBroker.execute_order, SimulatedBroker._execute_sell.
  rewrite Hr, Hc, Hdir. simpl.
  destruct (SimulatedBroker.positions b !! _) as [pos|] eqn:Hpos; [|reflexivity].
  now rewrite decide_True by (apply Hheld; reflexivity).
Qed.

(** C6, amended.  Through the order manager (create, submit, fill, cancel,
    reject) and through the broker's cancel, an order becomes REJECTED only
    from PENDING and never leaves FILLED, CANCELLED or REJECTED, in every
    state of the order path and so along every sequence of these
    operations.  Cancelling a FILLED order returns false and changes neither
    the stored orders nor the manager's id buckets, through the manager and
    through the broker.  On a connected broker [execute_order] turns a
    SUBMITTED order REJECTED, returns false and changes nothing else, when
    the order is a BUY, either a market order or a limit order whose limit is
    not below the current price, whose amount plus commission at its
    execution price exceeds the cash, and when it is a SELL for more than
    the position of its symbol holds. *)
Theorem order_state_machine :
  (∀ (w : world) (ops : list op) (o : op),
     status_guarded o = true → step_ok (run w ops) o)
  ∧ (∀ (h : store) (m : OrderManager.t) (order_id reason : string) (r : ref)
       (order : Order.t),
       OrderManager.orders m !! order_id = Some r → h !! r = Some order →
       Order.status order = Order.FILLED →
       OrderManager.cancel_order h m order_id reason = (false, h, m))
  ∧ (∀ (h : store) (b : SimulatedBroker.t) (order_id : string) (r : ref)
       (order : Order.t),
       SimulatedBroker.orders b !! order_id = Some r → h !! r = Some order →
       Order.status order = Order.FILLED →
       SimulatedBroker.cancel_order h b order_id = (false, h, b))
  ∧ (∀ (h : store) (b : SimulatedBroker.t) (r : ref) (order : Order.t)
       (current_price execution_price : Qc),
       h !! r = Some order → SimulatedBroker.connected b = true →
       Order.status order = Order.SUBMITTED →
       Order.direction order = Order.BUY →
       (Order.order_type order = Order.MARKET
        ∧ execution_price
          = (current_price * (1 + SimulatedBroker.slippage b))%Qc
        ∨ Order.order_type order = Order.LIMIT
          ∧ Order.price order = Some execution_price
          ∧ ¬ (execution_price < current_price)%Qc) →
       (SimulatedBroker.cash b
        < Py.float_of_int (Order.quantity order) * execution_price
          + Py.pymax
              (Py.float_of_int (Order.quantity order) * execution_price
               * SimulatedBroker.commission_rate b) (lit 5))%Qc →
       SimulatedBroker.execute_order h b r current_price
       = Return false (<[r := Order.reject order "资金不足"]> h, b)
       ∧ Order.status (Order.reject order "资金不足") = Order.REJECTED)
  ∧ (∀ (h : store) (b : SimulatedBroker.t) (r : ref) (order : Order.t)
       (current_price : Qc),
       h !! r = Some order → SimulatedBroker.connected b = true →
       Order.status order = Order.SUBMITTED →
       Order.direction order = Order.SELL →
       (∀ pos, SimulatedBroker.positions b !! Order.symbol order = Some pos →
               Position.quantity pos < Order.quantity order) →
       SimulatedBroker.execute_order h b r current_price
       = Return false (<[r := Order.reject order "持仓不足"]> h, b)
       ∧ Order.status (Order.reject order "持仓不足") = Order.REJECTED).
Proof.
  split; [intros w ops o; apply status_guarded_step_ok|].
  split; [exact manager_cancel_filled|].
  split; [exact broker_cancel_filled|].
  split.
  - intros h b r order current_price execution_price Hr Hc _ Hdir Hpriced
      Hcash.
    split; [|reflexivity].
    now apply (broker_rejects_unaffordable h b r order current_price
                 execution_price).
  - intros h b r order current_price Hr Hc _ Hdir Hheld.
    split; [now apply broker_rejects_unheld | reflexivity].
Qed.

(** C6, as stated, on that order path: the broker's [execute_order] at the
    price 10 rejects the order while its status is SUBMITTED, and submitting
    the rejected order to the broker again takes it out of REJECTED. *)
Lemma order_state_machine_as_stated_fails :
  let w1 := run (init (lit 1000000)) oversized_order_ops in
  let w2 := step w1 (broker_execute_order 0%nat (lit 10)) in
  let w3 := step w2 (broker_submit_order 0%nat) in
  status_at w1 0%nat = Some Order.SUBMITTED
  ∧ status_at w2 0%nat = Some Order.REJECTED
  ∧ status_at w3 0%nat = Some Order.SUBMITTED
  ∧ ¬ step_ok w1 (broker_execute_order 0%nat (lit 10))
  ∧ ¬ step_ok w2 (broker_submit_order 0%nat).
Proof.
  assert (∀ w o r, (∃ before after,
              objects w !! r = Some before ∧ objects (step w o) !! r = Some after
              ∧ ((Order.status after = Order.REJECTED
                  ∧ Order.status before = Order.SUBMITTED)
                 ∨ (Order.status before = Order.REJECTED
                    ∧ Order.status after = Order.SUBMITTED))) →
            ¬ step_ok w o) as Hbad.
  { intros w o r (before & after & Hb & Ha & Hst) Hok.
    destruct (Hok r before after Hb Ha) as [Hrej Hterm].
    destruct Hst as [[H1 H2]|[H1 H2]].
    - rewrite H2 in Hrej. specialize (Hrej H1). discriminate Hrej. discriminate.
    - rewrite H1, H2 in Hterm. specialize (Hterm eq_refl). discriminate. }
  cbv zeta. repeat split.
  - apply (Hbad _ _ 0%nat). do 2 eexists.
    split; [vm_compute; reflexivity|]. split; [vm_compute; reflexivity|].
    left. split; reflexivity.
  - apply (Hbad _ _ 0%nat). do 2 eexists.
    split; [vm_compute; reflexivity|]. split; [vm_compute; reflexivity|].
    right. split; reflexivity.
Qed.

Lemma order_state_machine_witness :
  step_ok manager_filled (cancel_order example_order_id "late")
  ∧ status_at manager_filled 0%nat = Some Order.FILLED
  ∧ OrderManager.cancel_order (objects manager_filled)
      (manager manager_filled) example_order_id "late"
    = (false, objects manager_filled, manager manager_filled)
  ∧ status_at broker_filled 0%nat = Some Order.FILLED
  ∧ SimulatedBroker.cancel_order (objects broker_filled)
      (broker broker_filled) example_order_id
    = (false, objects broker_filled, broker broker_filled)
  ∧ status_at (run (init (lit 1000000)) oversized_order_ops) 0%nat
    = Some Order.SUBMITTED
  ∧ status_at
      (step (run (init (lit 1000000)) oversized_order_ops)
         (broker_execute_order 0%nat (lit 10))) 0%nat
    = Some Order.REJECTED
  ∧ status_at unheld_sell 0%nat = Some Order.SUBMITTED
  ∧ status_at (step unheld_sell (broker_execute_order 0%nat (lit 10))) 0%nat
    = Some Order.REJECTED.
Proof.
  destruct order_state_machine
    as (Hguarded & Hmanager & Hbroker & Hfunds & Hheld).
  split; [|split; [|split; [|split; [|split; [|split; [|split; [|split]]]]]]].
  - apply (Hguarded (init (lit 1000000))
             [create_order "20240102093000000000" "600000" Order.BUY 100
                Order.MARKET None None (Some "MA_Strategy");
              submit_order example_order_id;
              fill_order example_order_id 100 (lit 10.2) (lit 5)]
             (cancel_order example_order_id "late")).
    reflexivity.
  - vm_compute. reflexivity.
  - eapply (Hmanager (objects manager_filled) (manager manager_filled)
              example_order_id "late" 0%nat);
      [vm_compute; reflexivity | vm_compute; reflexivity | reflexivity].
  - vm_compute. reflexivity.
  - eapply (Hbroker (objects broker_filled) (broker broker_filled)
              example_order_id 0%nat);
      [vm_compute; reflexivity | vm_compute; reflexivity | reflexivity].
  - vm_compute. reflexivity.
  - unfold status_at, step.
    set (w := run (init (lit 1000000)) oversized_order_ops).
    destruct (Hfunds (objects w) (broker w) 0%nat
                (Order.mk "600000" Order.BUY 1000000 Order.MARKET None None
                   Order.SUBMITTED 0 0%Qc 0%Qc example_order_id None "")
                (lit 10) (lit 10 * (1 + lit 0.001))%Qc) as [Hrun _];
      [vm_compute; reflexivity | reflexivity | reflexivity | reflexivity
      | left; split; reflexivity | vm_compute; reflexivity |].
    rewrite Hrun. reflexivity.
  - vm_compute. reflexivity.
  - unfold status_at, step.
    destruct (Hheld (objects unheld_sell) (broker unheld_sell) 0%nat
                (Order.mk "600000" Order.SELL 100 Order.MARKET None None
                   Order.SUBMITTED 0 0%Qc 0%Qc
                   "600000_sell_20240102093000000000" None "")
                (lit 10)) as [Hrun _];
      [vm_compute; reflexivity | reflexivity | reflexivity | reflexivity
      | intros pos Hpos; vm_compute in Hpos; discriminate Hpos |].
    rewrite Hrun. reflexivity.
Defined.

End Orders.

(** ** The ratio calculators *)

Section Ratios.

Import PerformanceAnalyzer.

Variable std : list float → float.
Variable pow : float → float → float.





End Ratios.




(** * Further properties of the code *)

(** ** Invariants along a run of the back-test engine *)

Section Runs.

Import BacktestEngine.





(** *** Whole lots *)








(** *** One daily value per bar *)





(** *** The cash that the trades record *)

(** X3: a buy never takes the cash below zero: from a cash that is not
    negative, the cash after [_execute_buy] is not negative, whether the buy
    was executed, dropped, or stopped by an exception. *)
Theorem buy_never_overdraws (self : BacktestEngine.t) (signal : Signal.t)
    (price : Qc) :
  (0 ≤ cash self)%Qc →
  (0 ≤ cash (state_of (_execute_buy self signal price)))%Qc.
Proof.
  intros Hcash. unfold _execute_buy.
  destruct (decide _); [exact Hcash|].
  destruct (decide _); [exact Hcash|].
  destruct (decide _) as [|Hle]; [exact Hcash|].
  apply Qcnot_lt_le in Hle.
  assert (∀ a b : Qc, (a ≤ b → 0 ≤ b - a)%Qc) as Hsub.
  { intros a b Hab. apply Qcle_minus_iff in Hab. exact Hab. }
  simpl. destruct (decide _); simpl; apply Hsub; exact Hle.
Qed.

Lemma buy_never_overdraws_witness :
  (0 ≤ cash (example_engine (lit 0.001)))%Qc
  ∧ (0 ≤ cash (state_of (_execute_buy (example_engine (lit 0.001))
                           (buy_signal 1 None) (lit 10))))%Qc.
Proof.
  assert (0 ≤ cash (example_engine (lit 0.001)))%Qc as Hcash
    by (vm_compute; discriminate).
  split; [exact Hcash|].
  exact (buy_never_overdraws (example_engine (lit 0.001)) (buy_signal 1 None)
           (lit 10) Hcash).
Defined.





(** *** The signals a bar acts on *)

(** X5: a bar acts only on the BUY and SELL signals of its own day, in their
    order: processing the whole signal list at a bar is processing the
    signals that are due, and a HOLD, CLOSE_LONG or CLOSE_SHORT signal or a
    signal of another day has no effect. *)
Theorem only_due_signals_count (self : BacktestEngine.t)
    (signals : list Signal.t) (current_date : datetime) (current_price : Qc) :
  _process_signals self signals current_date current_price
  = _process_signals self (due current_date signals) current_date current_price.
Proof.
  revert self. unfold due.
  induction signals as [|signal rest IH]; intros self; [reflexivity|].
  rewrite filter_cons. simpl. destruct (decide (date _ ≠ date _)) as [Hne|Heq].
  - rewrite decide_False by tauto. apply IH.
  - apply dec_stable in Heq.
    destruct (Signal.signal_type signal) eqn:Hty.
    + rewrite decide_True by auto. simpl. rewrite Hty.
      rewrite decide_False by tauto.
      destruct (_execute_buy self signal current_price); [apply IH | reflexivity].
    + rewrite decide_True by auto. simpl. rewrite Hty.
      rewrite decide_False by tauto.
      destruct (_execute_sell self signal current_price); [apply IH | reflexivity].
    + rewrite decide_False by (intros [_ [?|?]]; discriminate). apply IH.
    + rewrite decide_False by (intros [_ [?|?]]; discriminate). apply IH.
    + rewrite decide_False by (intros [_ [?|?]]; discriminate). apply IH.
Qed.

(** *** Sells that do nothing *)

(** X6: a SELL is dropped, leaving cash, positions and trades as they are,
    when the symbol has no position, when its quantity is not positive, and
    when the smaller of the held and the requested quantity is less than one
    lot. *)
Theorem sell_without_a_lot_is_dropped (self : BacktestEngine.t)
    (signal : Signal.t) (price : Qc) :
  (positions self !! Signal.symbol signal = None
   ∨ ∃ pos : Position.t,
       positions self !! Signal.symbol signal = Some pos
       ∧ (Position.quantity pos ≤ 0
          ∨ ∃ requested : Z,
              Signal.quantity signal = Some requested ∧ 0 < requested
              ∧ Position.quantity pos `min` requested < 100)) →
  _execute_sell self signal price = Return () self.
Proof.
  unfold _execute_sell. intros [->|(pos & -> & Hpos)]; [reflexivity|].
  destruct (decide _) as [|Hheld]; [reflexivity|].
  destruct Hpos as [Hpos | (requested & Hreq & Hpositive & Hsmall)]; [lia|].
  rewrite Hreq. unfold and_positive.
  destruct (decide (requested ≠ 0 ∧ 0 < requested)); [|lia].
  rewrite decide_True; [reflexivity|]. unfold min_unit.
  rewrite Z.div_small by lia. lia.
Qed.

Lemma sell_without_a_lot_is_dropped_witness :
  _execute_sell example_ledger
    (Signal.mk "600000" Signal.SELL (lit 11) (mk_datetime 2 0) (lit 1) (Some 50))
    (lit 11)
  = Return () example_ledger.
Proof.
  apply sell_without_a_lot_is_dropped. right.
  exists (Position.mk 900 (lit 10.01) (lit 9009)).
  split; [reflexivity|]. right. exists 50. simpl.
  split; [reflexivity|]. split; lia.
Defined.

(** *** A run on one symbol *)





(** *** Winning and losing trades *)




End Runs.

(** ** The ledger of the position manager *)

Section Ledger.

Import PositionManager.

(** The entry that [update_position] works on. *)
Lemma update_position_buy (self : PositionManager.t) (symbol : string)
    (quantity : Z) (price : Qc) :
  let pos := default (Holding.mk 0 0%Qc 0%Qc price) (positions self !! symbol) in
  let total_cost :=
    (Holding.total_cost pos + Py.float_of_int quantity * price)%Qc in
  let held := Holding.quantity pos + quantity in
  update_position self symbol quantity price true
  = mk (initial_capital self) (cash self - Py.float_of_int quantity * price)%Qc
       (<[symbol := Holding.mk held
                      (if decide (0 < held)
                       then (total_cost / Py.float_of_int held)%Qc else 0%Qc)
                      total_cost price]> (positions self)).
Proof.
  unfold update_position. now destruct (positions self !! symbol).
Qed.

Lemma update_position_sell (self : PositionManager.t) (symbol : string)
    (quantity : Z) (price : Qc) (pos : Holding.t) :
  positions self !! symbol = Some pos →
  quantity ≤ Holding.quantity pos →
  update_position self symbol quantity price false
  = mk (initial_capital self) (cash self + Py.float_of_int quantity * price)%Qc
       (<[symbol :=
            if decide (Holding.quantity pos - quantity ≤ 0)
            then Holding.mk 0 0%Qc 0%Qc price
            else Holding.mk (Holding.quantity pos - quantity)
                   (Holding.avg_cost pos) (Holding.total_cost pos) price]>
          (positions self)).
Proof.
  intros Hlook Hq. unfold update_position. rewrite Hlook.
  rewrite decide_True by exact Hq. now destruct (decide _).
Qed.

(** X9: buying a quantity through [update_position] and selling it back at
    the same price restores the quantity held and charges no fee: the cash
    is the cash before, less the amount of the buy, plus the same amount
    for the sell, computed in that order.  On a symbol that was not held
    the position is left at quantity 0 with no cost. *)
Theorem buy_then_sell_back (self : PositionManager.t) (symbol : string)
    (quantity : Z) (price : Qc) :
  0 < quantity →
  0 ≤ get_position_quantity self symbol →
  let self' :=
    update_position (update_position self symbol quantity price true)
      symbol quantity price false in
  cash self'
  = (cash self - Py.float_of_int quantity * price
     + Py.float_of_int quantity * price)%Qc
  ∧ get_position_quantity self' symbol = get_position_quantity self symbol
  ∧ (positions self !! symbol = None →
     positions self' !! symbol = Some (Holding.mk 0 0%Qc 0%Qc price)).
Proof.
  intros Hq Hheld self'. subst self'.
  rewrite update_position_buy.
  set (pos := default _ _). set (bought := Holding.mk _ _ _ _).
  assert (Holding.quantity pos = get_position_quantity self symbol) as Hpos.
  { unfold pos, get_position_quantity. now destruct (positions self !! symbol). }
  erewrite update_position_sell;
    [|cbn [positions]; apply lookup_insert_eq | unfold bought; simpl; lia].
  unfold get_position_quantity at 1. cbn [positions cash].
  rewrite insert_insert_eq, lookup_insert_eq. unfold bought.
  cbn [Holding.quantity Holding.avg_cost Holding.total_cost].
  split; [reflexivity|]. split.
  - rewrite <- Hpos in *.
    destruct (decide (Holding.quantity pos + quantity - quantity ≤ 0));
      cbn [Holding.quantity]; lia.
  - intros Hnone. unfold pos. rewrite Hnone. simpl.
    now rewrite decide_True by lia.
Qed.

Lemma buy_then_sell_back_witness :
  0 < 500
  ∧ 0 ≤ get_position_quantity example_manager "TEST"
  ∧ cash (update_position (update_position example_manager "TEST" 500
                              (lit 12) true) "TEST" 500 (lit 12) false)
    = (cash example_manager - Py.float_of_int 500 * lit 12
       + Py.float_of_int 500 * lit 12)%Qc
  ∧ get_position_quantity
      (update_position (update_position example_manager "TEST" 500
                          (lit 12) true) "TEST" 500 (lit 12) false) "TEST"
    = get_position_quantity example_manager "TEST".
Proof.
  assert (0 < 500) as Hq by lia.
  assert (0 ≤ get_position_quantity example_manager "TEST") as Hheld
    by (vm_compute; discriminate).
  split; [exact Hq|]. split; [exact Hheld|].
  destruct (buy_then_sell_back example_manager "TEST" 500 (lit 12) Hq
              Hheld)
    as (Hcash & Hquantity & _).
  split; [exact Hcash | exact Hquantity].
Defined.

(** X10: a sell of part of a position through [update_position] leaves the
    position's total cost and average cost as they were, so that the total
    cost stays that of the shares held before the sell; a following buy
    averages that whole cost over the shares that are left. *)
Theorem partial_sell_keeps_total_cost (self : PositionManager.t)
    (symbol : string) (pos : Holding.t) (sold bought : Z) (price price' : Qc) :
  positions self !! symbol = Some pos →
  0 < sold → sold < Holding.quantity pos → 0 < bought →
  let self' := update_position self symbol sold price false in
  let self'' := update_position self' symbol bought price' true in
  positions self' !! symbol
  = Some (Holding.mk (Holding.quantity pos - sold) (Holding.avg_cost pos)
            (Holding.total_cost pos) price)
  ∧ positions self'' !! symbol
    = Some (Holding.mk (Holding.quantity pos - sold + bought)
              ((Holding.total_cost pos + Py.float_of_int bought * price')
               / Py.float_of_int (Holding.quantity pos - sold + bought))%Qc
              (Holding.total_cost pos + Py.float_of_int bought * price')%Qc
              price').
Proof.
  intros Hlook Hsold Hpart Hbought self' self''. subst self'' self'.
  rewrite (update_position_sell self symbol sold price pos Hlook) by lia.
  rewrite decide_False by lia. split.
  - cbn [positions]. apply lookup_insert_eq.
  - rewrite update_position_buy. cbn [positions].
    rewrite !lookup_insert_eq. simpl.
    now rewrite decide_True by lia.
Qed.

Lemma partial_sell_keeps_total_cost_witness :
  positions (update_position example_manager "TEST" 4000 (lit 12) false)
    !! "TEST"
  = Some (Holding.mk (10000 - 4000) (lit 10) (lit 100000) (lit 12))
  ∧ positions
      (update_position
         (update_position example_manager "TEST" 4000 (lit 12) false)
         "TEST" 4000 (lit 10) true) !! "TEST"
    = Some (Holding.mk (10000 - 4000 + 4000)
              ((lit 100000 + Py.float_of_int 4000 * lit 10)
               / Py.float_of_int (10000 - 4000 + 4000))%Qc
              (lit 100000 + Py.float_of_int 4000 * lit 10)%Qc (lit 10)).
Proof.
  apply (partial_sell_keeps_total_cost example_manager "TEST"
           (Holding.mk 10000 (lit 10) (lit 100000) (lit 10)) 4000 4000
           (lit 12) (lit 10)); [reflexivity | lia | simpl; lia | lia].
Defined.

(** *** Liquidating everything *)

Lemma clear_all_positions_fold (self : PositionManager.t)
    (prices : gmap string Qc) (l : list (string * Holding.t)) :
  NoDup l.*1 →
  (∀ symbol pos, (symbol, pos) ∈ l → positions self !! symbol = Some pos) →
  let r :=
    foldr (uncurry (λ symbol (_ : Holding.t) (acc : Qc * PositionManager.t),
                      match prices !! symbol with
                      | Some price =>
                          let '(revenue, self) :=
                            clear_position acc.2 symbol price in
                          ((acc.1 + revenue)%Qc, self)
                      | None => acc
                      end)) (0%Qc, self) l in
  initial_capital r.2 = initial_capital self
  ∧ ((∀ symbol pos, (symbol, pos) ∈ l → is_Some (prices !! symbol) →
        Holding.quantity pos ≤ 0) →
     r = (0%Qc, self))
  ∧ ∀ symbol,
      positions r.2 !! symbol
      = if decide (symbol ∈ l.*1)
        then cleared prices symbol <$> positions self !! symbol
        else positions self !! symbol.
Proof.
  induction l as [|[k v] l IH]; intros Hdup Hin; cbn zeta.
  - cbn [foldr fst snd]. split; [reflexivity|].
    split; [reflexivity|]. intros symbol.
    destruct (decide _) as [Hnil|]; [|reflexivity].
    now apply elem_of_nil in Hnil.
  - simpl in Hdup. apply NoDup_cons in Hdup as [Hk Hdup].
    destruct IH as (Hic & Hidle & Hpos);
      [exact Hdup | intros; apply Hin; now right |].
    cbn [foldr uncurry fst snd]. set (acc := foldr _ _ l) in *.
    assert (positions self !! k = Some v) as Hv by (apply Hin; now left).
    assert (positions acc.2 !! k = Some v) as Hacc.
    { rewrite Hpos. now rewrite decide_False by exact Hk. }
    split; [|split].
    + destruct (prices !! k) as [price|]; [|exact Hic].
      unfold clear_position. rewrite Hacc.
      destruct (decide (Holding.quantity v ≤ 0)); exact Hic.
    + intros Hnone.
      rewrite Hidle by (intros symbol pos Hl; apply Hnone; now right).
      cbn [fst snd].
      destruct (prices !! k) as [price|] eqn:Hprice; [|reflexivity].
      unfold clear_position. rewrite Hv.
      rewrite decide_True
        by (apply (Hnone k v); [now left | rewrite Hprice; eauto]).
      now rewrite Qcplus_0_l.
    + intros symbol.
      assert ((if decide (symbol ∈ ((k, v) :: l).*1)
               then cleared prices symbol <$> positions self !! symbol
               else positions self !! symbol)
              = if decide (symbol = k)
                then Some (cleared prices k v)
                else positions acc.2 !! symbol) as ->.
      { destruct (decide (symbol = k)) as [->|Hne].
        - rewrite decide_True by (simpl; left). now rewrite Hv.
        - rewrite Hpos. destruct (decide (symbol ∈ l.*1)).
          + now rewrite decide_True by (simpl; now right).
          + rewrite decide_False; [reflexivity|]. simpl.
            intros [?|?]%elem_of_cons; contradiction. }
      unfold cleared at 1.
      destruct (prices !! k) as [price|] eqn:Hprice.
      * unfold clear_position. rewrite Hacc.
        destruct (decide (Holding.quantity v ≤ 0)); cbn [fst snd positions].
        -- destruct (decide (symbol = k)) as [->|]; [exact Hacc|reflexivity].
        -- destruct (decide (symbol = k)) as [->|].
           ++ now rewrite lookup_insert_eq.
           ++ now rewrite lookup_insert_ne by congruence.
      * destruct (decide (symbol = k)) as [->|]; [exact Hacc|reflexivity].
Qed.

(** X12: what [clear_all_positions] leaves of the book.  Every held symbol
    that has a price is left at quantity 0 with no cost and that price as
    its current price; every other entry, as well as the initial capital,
    is left as it was; afterwards no symbol that has a price is held.  When
    no symbol with a price was held, the call returns 0 and the manager is
    as it was, cash included. *)
Theorem clear_all_positions_spec (self : PositionManager.t)
    (prices : gmap string Qc) :
  let r := clear_all_positions self prices in
  initial_capital r.2 = initial_capital self
  ∧ (∀ symbol,
       positions r.2 !! symbol
       = cleared prices symbol <$> positions self !! symbol)
  ∧ (∀ symbol, is_Some (prices !! symbol) → has_position r.2 symbol = false)
  ∧ ((∀ symbol, is_Some (prices !! symbol) → has_position self symbol = false)
     → r = (0%Qc, self)).
Proof.
  intros r. subst r. unfold clear_all_positions.
  rewrite !map_fold_foldr.
  destruct (clear_all_positions_fold self prices
              (map_to_list (positions self)))
    as (Hic & Hidle & Hpos).
  { apply NoDup_fst_map_to_list. }
  { intros symbol pos. apply elem_of_map_to_list. }
  cbv zeta in Hic, Hidle, Hpos.
  set (r := foldr _ (0%Qc, self) _) in *.
  assert (∀ symbol,
            positions r.2 !! symbol
            = cleared prices symbol <$> positions self !! symbol) as Hall.
  { intros symbol. rewrite Hpos.
    destruct (decide _) as [|Hout]; [reflexivity|].
    destruct (positions self !! symbol) as [pos|] eqn:Hlook; [|reflexivity].
    exfalso. apply Hout. apply list_elem_of_fmap.
    exists (symbol, pos). split; [reflexivity|].
    now apply elem_of_map_to_list. }
  split; [exact Hic|]. split; [exact Hall|]. split.
  - intros symbol [price Hprice]. unfold has_position. rewrite Hall.
    destruct (positions self !! symbol) as [pos|]; [|reflexivity]. simpl.
    unfold cleared. rewrite Hprice.
    destruct (decide _); apply bool_decide_eq_false; simpl; lia.
  - intros Hnone. apply Hidle. intros symbol pos Hl Hprice.
    apply elem_of_map_to_list in Hl.
    specialize (Hnone symbol Hprice). unfold has_position in Hnone.
    rewrite Hl in Hnone. simpl in Hnone.
    apply bool_decide_eq_false in Hnone. lia.
Qed.

End Ledger.
(** ** Orders and the order manager *)

Section OrderLife.

Import OrderPath.

(** X13: what a fill does to an order.  [update_fill] adds the fill to the
    filled quantity, so that the unfilled quantity goes down by it, and adds
    the fee to the commission.  The order becomes FILLED once the filled
    quantity reaches the order's quantity, PARTIAL_FILLED while it is
    positive and below it, and otherwise keeps its status, with a filled
    price of 0.  The terms of the order are left as they were. *)
Theorem fills_move_the_status (order : Order.t) (filled_quantity : Z)
    (filled_price commission : Qc) :
  let order' := Order.update_fill order filled_quantity filled_price commission in
  let total := Order.filled_quantity order + filled_quantity in
  Order.filled_quantity order' = total
  ∧ Order.get_unfilled_quantity order'
    = Order.get_unfilled_quantity order - filled_quantity
  ∧ Order.commission order' = (Order.commission order + commission)%Qc
  ∧ (Order.quantity order ≤ total → Order.status order' = Order.FILLED)
  ∧ (0 < total < Order.quantity order →
     Order.status order' = Order.PARTIAL_FILLED)
  ∧ (total ≤ 0 → total < Order.quantity order →
     Order.status order' = Order.status order
     ∧ Order.filled_price order' = 0%Qc)
  ∧ same_terms order' order.
Proof.
  intros order' total. subst order' total.
  unfold Order.get_unfilled_quantity, Order.update_fill, same_terms.
  cbn [Order.filled_quantity Order.filled_price Order.commission
       Order.quantity Order.status Order.symbol Order.direction
       Order.order_type Order.price Order.order_id].
  split; [reflexivity|]. split; [lia|]. split; [reflexivity|].
  split; [intros H; now rewrite decide_True by exact H|].
  split.
  { intros [H1 H2]. rewrite decide_False by lia.
    now rewrite decide_True by exact H1. }
  split; [|repeat split].
  intros H1 H2. rewrite decide_False by lia.
  now rewrite !decide_False by lia.
Qed.

(** X14: a finished order is inert in the manager.  Once the order of an id
    is FILLED, CANCELLED or REJECTED, each of [submit_order], [fill_order],
    [cancel_order] and [reject_order] on that id returns false and changes
    neither the stored orders nor the manager. *)
Theorem finished_order_is_inert (h : store) (m : OrderManager.t)
    (order_id : string) (r : ref) (order : Order.t) :
  OrderManager.orders m !! order_id = Some r → h !! r = Some order →
  terminal (Order.status order) = true →
  OrderManager.submit_order h m order_id = (false, h, m)
  ∧ (∀ filled_quantity filled_price commission,
       OrderManager.fill_order h m order_id filled_quantity filled_price
         commission = (false, h, m))
  ∧ (∀ reason, OrderManager.cancel_order h m order_id reason = (false, h, m))
  ∧ (∀ reason, OrderManager.reject_order h m order_id reason = (false, h, m)).
Proof.
  intros Hid Hr Hterm.
  unfold OrderManager.submit_order, OrderManager.fill_order,
    OrderManager.cancel_order, OrderManager.reject_order,
    OrderManager.get_order, Order.is_active.
  rewrite Hid, Hr.
  destruct (Order.status order); try discriminate; repeat split.
Qed.

Lemma finished_order_is_inert_witness :
  OrderManager.submit_order (objects manager_filled) (manager manager_filled)
    example_order_id
  = (false, objects manager_filled, manager manager_filled)
  ∧ OrderManager.fill_order (objects manager_filled) (manager manager_filled)
      example_order_id 100 (lit 10) (lit 5)
    = (false, objects manager_filled, manager manager_filled).
Proof.
  destruct (finished_order_is_inert (objects manager_filled)
              (manager manager_filled) example_order_id 0%nat
              (Order.mk "600000" Order.BUY 100 Order.MARKET None None
                 Order.FILLED 100 (lit 10.2) (lit 5) example_order_id
                 (Some "MA_Strategy") ""))
    as (Hsubmit & Hfill & _);
    [vm_compute; reflexivity
    | apply (bool_decide_unpack _); vm_compute; exact I
    | reflexivity |].
  split; [exact Hsubmit | apply Hfill].
Defined.

Lemma remove_first_fresh (x : string) (l : list string) :
  x ∉ l → remove_first x (l ++ [x]) = l.
Proof.
  induction l as [|y l IH]; intros Hx; simpl.
  - now rewrite decide_True.
  - apply not_elem_of_cons in Hx as [Hne Hx].
    rewrite decide_False by exact Hne. now rewrite IH.
Qed.

(** X15: the life of an order through the manager.  Creating an order whose
    id is in no bucket yet, submitting it and filling it in full succeeds at
    each step.  The store then holds, in the order's place, what
    [update_fill] makes of the submitted order: its status is FILLED, its
    filled quantity is the order's quantity and its terms are the ones it
    was created with.  The id has moved through the buckets: pending and
    active end as they were and the id is appended to the completed ones. *)
Theorem create_submit_fill (h : store) (m : OrderManager.t)
    (stamp symbol : string) (direction : Order.OrderDirection) (quantity : Z)
    (order_type : Order.OrderType) (price stop_price : option Qc)
    (strategy_id : option string) (filled_price commission : Qc) :
  let order_id := Order._generate_order_id symbol direction stamp in
  let created :=
    Order.mk symbol direction quantity order_type price stop_price
      Order.PENDING 0 0%Qc 0%Qc order_id strategy_id "" in
  let filled_order :=
    Order.update_fill (Order.set_status created Order.SUBMITTED) quantity
      filled_price commission in
  0 < quantity →
  order_id ∉ OrderManager.pending_orders m →
  order_id ∉ OrderManager.active_orders m →
  let '(r, h1, m1) :=
    OrderManager.create_order h m stamp symbol direction quantity order_type
      price stop_price strategy_id in
  let '(submitted, h2, m2) := OrderManager.submit_order h1 m1 order_id in
  let '(filled, h3, m3) :=
    OrderManager.fill_order h2 m2 order_id quantity filled_price commission in
  r = length h ∧ h1 = h ++ [created]
  ∧ submitted = true ∧ filled = true
  ∧ h3 = h ++ [filled_order]
  ∧ Order.status filled_order = Order.FILLED
  ∧ Order.filled_quantity filled_order = quantity
  ∧ same_terms filled_order created
  ∧ OrderManager.pending_orders m3 = OrderManager.pending_orders m
  ∧ OrderManager.active_orders m3 = OrderManager.active_orders m
  ∧ OrderManager.completed_orders m3
    = OrderManager.completed_orders m ++ [order_id].
Proof.
  intros order_id created filled_order Hq Hpending Hactive.
  unfold OrderManager.create_order. fold order_id. fold created.
  set (m1 := OrderManager.mk _ _ _ _).
  assert (OrderManager.submit_order (h ++ [created]) m1 order_id
          = (true, h ++ [Order.set_status created Order.SUBMITTED],
             OrderManager.mk (OrderManager.orders m1)
               (OrderManager.pending_orders m)
               (OrderManager.active_orders m ++ [order_id])
               (OrderManager.completed_orders m))) as ->.
  { unfold OrderManager.submit_order, OrderManager.get_order, m1.
    cbn [OrderManager.orders]. rewrite lookup_insert_eq.
    rewrite list_lookup_middle by reflexivity.
    cbn [created Order.status OrderManager.pending_orders
         OrderManager.active_orders OrderManager.completed_orders
         OrderManager.orders].
    rewrite remove_first_fresh by exact Hpending.
    replace (length h) with (length h + 0)%nat at 1 by lia.
    now rewrite insert_app_r. }
  set (m2 := OrderManager.mk _ _ _ _).
  assert (Order.status filled_order = Order.FILLED) as Hstatus.
  { unfold filled_order, Order.update_fill, created.
    cbn [Order.set_status Order.filled_quantity Order.quantity Order.status].
    change (0 + quantity) with quantity.
    now rewrite decide_True by lia. }
  unfold OrderManager.fill_order, OrderManager.get_order, m2, m1.
  cbn [OrderManager.orders]. rewrite lookup_insert_eq.
  rewrite list_lookup_middle by reflexivity.
  replace (Order.is_active (Order.set_status created Order.SUBMITTED))
    with true by reflexivity.
  fold filled_order. unfold Order.is_completed. rewrite Hstatus.
  cbn [OrderManager.pending_orders OrderManager.active_orders
       OrderManager.completed_orders OrderManager.orders].
  rewrite remove_first_fresh by exact Hactive.
  split; [reflexivity|]. split; [reflexivity|].
  split; [reflexivity|]. split; [reflexivity|].
  split.
  { replace (length h) with (length h + 0)%nat by lia.
    now rewrite insert_app_r. }
  repeat split.
Qed.

Lemma create_submit_fill_witness :
  let created :=
    Order.mk "600000" Order.BUY 100 Order.MARKET None None Order.PENDING 0
      0%Qc 0%Qc example_order_id (Some "MA_Strategy") "" in
  let filled_order :=
    Order.update_fill (Order.set_status created Order.SUBMITTED) 100
      (lit 10.2) (lit 5) in
  let '(r, h1, m1) :=
    OrderManager.create_order [] OrderManager.__init__ "20240102093000000000"
      "600000" Order.BUY 100 Order.MARKET None None (Some "MA_Strategy") in
  let '(submitted, h2, m2) :=
    OrderManager.submit_order h1 m1 example_order_id in
  let '(filled, h3, m3) :=
    OrderManager.fill_order h2 m2 example_order_id 100 (lit 10.2) (lit 5) in
  r = 0%nat ∧ h1 = [] ++ [created]
  ∧ submitted = true ∧ filled = true
  ∧ h3 = [] ++ [filled_order]
  ∧ Order.status filled_order = Order.FILLED
  ∧ Order.filled_quantity filled_order = 100
  ∧ same_terms filled_order created
  ∧ OrderManager.pending_orders m3 = []
  ∧ OrderManager.active_orders m3 = []
  ∧ OrderManager.completed_orders m3 = [] ++ [example_order_id].
Proof.
  apply (create_submit_fill [] OrderManager.__init__
           "20240102093000000000" "600000" Order.BUY 100 Order.MARKET None
           None (Some "MA_Strategy") (lit 10.2) (lit 5));
    [lia | apply not_elem_of_nil | apply not_elem_of_nil].
Defined.

(** *** The completed bucket *)

Lemma manager_ok_update (h : store) (m : OrderManager.t) (order_id : string)
    (r : ref) (order order' : Order.t) (pending active completed : list string) :
  manager_ok h m →
  OrderManager.orders m !! order_id = Some r → h !! r = Some order →
  Order.order_id order' = Order.order_id order →
  (∀ x, x ∈ OrderManager.completed_orders m → x ∈ completed) →
  (terminal (Order.status order') = true → order_id ∈ completed) →
  manager_ok (<[r := order']> h)
    (OrderManager.mk (OrderManager.orders m) pending active completed).
Proof.
  intros Hok Hid Hr Hsame Hgrow Hterm id' r' Hid'. cbn [OrderManager.orders] in Hid'.
  destruct (Hok id' r' Hid') as (o' & Hr' & Hname & Hdone).
  destruct (Hok order_id r Hid) as (o & Hro & Hnameo & _).
  assert (o = order) as -> by congruence.
  destruct (decide (r' = r)) as [->|Hne].
  - assert (o' = order) as -> by congruence.
    assert (id' = order_id) as -> by congruence.
    exists order'. rewrite list_lookup_insert_eq by (eapply lookup_lt_Some; eauto).
    split; [reflexivity|]. split; [congruence|]. exact Hterm.
  - exists o'. rewrite list_lookup_insert_ne by congruence.
    split; [exact Hr'|]. split; [exact Hname|].
    intros Ht. apply Hgrow. now apply Hdone.
Qed.

Lemma manager_ok_step (w : world) (o : op) :
  is_manager_op o = true →
  manager_ok (objects w) (manager w) →
  manager_ok (objects (step w o)) (manager (step w o)).
Proof.
  intros Hop Hok. destruct o; try discriminate; simpl.
  - (* create_order *)
    intros id' r' Hid'. cbn [OrderManager.orders] in Hid'.
    destruct (decide (id' = Order._generate_order_id symbol direction stamp))
      as [->|Hne].
    + rewrite lookup_insert_eq in Hid'. injection Hid' as <-.
      eexists. rewrite list_lookup_middle by reflexivity.
      split; [reflexivity|]. split; [reflexivity|]. discriminate.
    + rewrite lookup_insert_ne in Hid' by congruence.
      destruct (Hok id' r' Hid') as (o' & Hr' & Hname & Hdone).
      exists o'. split; [|split; [exact Hname | exact Hdone]].
      rewrite lookup_app_l by (eapply lookup_lt_Some; eauto). exact Hr'.
  - (* submit_order *)
    unfold OrderManager.submit_order.
    destruct (OrderManager.get_order _ _ _) as [[r order]|] eqn:Hget;
      [|exact Hok].
    apply get_order_Some in Hget as [Hid Hr].
    destruct (Order.status order) eqn:Hst; try exact Hok.
    cbn [on_manager objects manager fst snd].
    eapply manager_ok_update; eauto. discriminate.
  - (* fill_order *)
    unfold OrderManager.fill_order.
    destruct (OrderManager.get_order _ _ _) as [[r order]|] eqn:Hget;
      [|exact Hok].
    apply get_order_Some in Hget as [Hid Hr].
    destruct (Order.is_active order) eqn:Hactive; [|exact Hok].
    cbn [on_manager objects manager fst snd].
    destruct (Order.is_completed _) eqn:Hdone.
    + eapply manager_ok_update; eauto.
      * intros x Hx. apply elem_of_app. now left.
      * intros _. apply elem_of_app. right. now left.
    + destruct (manager w) as [orders pending active completed] eqn:Hm.
      eapply (manager_ok_update _ (OrderManager.mk orders pending active completed));
        eauto.
      intros Ht. exfalso.
      destruct (update_fill_status order filled_quantity filled_price commission)
        as [Hs | [Hs | Hs]]; rewrite Hs in Ht.
      * unfold Order.is_completed in Hdone. rewrite Hs in Hdone. discriminate.
      * discriminate.
      * unfold Order.is_active in Hactive.
        destruct (Order.status order); discriminate.
  - (* cancel_order *)
    unfold OrderManager.cancel_order.
    destruct (OrderManager.get_order _ _ _) as [[r order]|] eqn:Hget;
      [|exact Hok].
    apply get_order_Some in Hget as [Hid Hr].
    destruct (Order.is_active order) eqn:Hactive; [|exact Hok].
    cbn [on_manager objects manager fst snd].
    eapply manager_ok_update; eauto.
    + unfold Order.cancel. now rewrite Hactive.
    + intros x Hx. apply elem_of_app. now left.
    + intros _. apply elem_of_app. right. now left.
  - (* reject_order *)
    unfold OrderManager.reject_order.
    destruct (OrderManager.get_order _ _ _) as [[r order]|] eqn:Hget;
      [|exact Hok].
    apply get_order_Some in Hget as [Hid Hr].
    destruct (Order.status order) eqn:Hst; try exact Hok.
    cbn [on_manager objects manager fst snd].
    eapply manager_ok_update; eauto.
    + intros x Hx. apply elem_of_app. now left.
    + intros _. apply elem_of_app. right. now left.
Qed.

Lemma manager_ok_run (initial_capital : Qc) (ops : list op) :
  Forall (λ o, is_manager_op o = true) ops →
  manager_ok (objects (run (init initial_capital) ops))
    (manager (run (init initial_capital) ops)).
Proof.
  intros Hops. unfold run.
  assert (manager_ok (objects (init initial_capital))
            (manager (init initial_capital))) as Hinit.
  { intros id' r' Hid'. simpl in Hid'. now rewrite lookup_empty in Hid'. }
  revert Hinit. generalize (init initial_capital).
  induction Hops as [|o ops Ho Hops IH]; intros w Hw; simpl; [exact Hw|].
  apply IH. now apply manager_ok_step.
Qed.

(** X16: the manager files every finished order.  Along any sequence of the
    manager's operations from the start, each id of the manager's dict
    stands for a stored order that carries that id, and every order that is
    FILLED, CANCELLED or REJECTED has its id in [completed_orders]. *)
Theorem finished_orders_are_completed (initial_capital : Qc) (ops : list op)
    (order_id : string) (r : ref) :
  Forall (λ o, is_manager_op o = true) ops →
  let w := run (init initial_capital) ops in
  OrderManager.orders (manager w) !! order_id = Some r →
  ∃ order : Order.t,
    objects w !! r = Some order
    ∧ Order.order_id order = order_id
    ∧ (terminal (Order.status order) = true →
       order_id ∈ OrderManager.completed_orders (manager w)).
Proof.
  intros Hops w. exact (manager_ok_run initial_capital ops Hops order_id r).
Qed.

Lemma finished_orders_are_completed_witness :
  OrderManager.orders (manager manager_filled) !! example_order_id
  = Some 0%nat
  ∧ ∃ order : Order.t,
      objects manager_filled !! 0%nat = Some order
      ∧ Order.order_id order = example_order_id
      ∧ (terminal (Order.status order) = true →
         example_order_id
         ∈ OrderManager.completed_orders (manager manager_filled)).
Proof.
  assert (OrderManager.orders (manager manager_filled) !! example_order_id
          = Some 0%nat) as Hid by (vm_compute; reflexivity).
  split; [exact Hid|].
  apply (finished_orders_are_completed (lit 1000000)
           [create_order "20240102093000000000" "600000" Order.BUY 100
              Order.MARKET None None (Some "MA_Strategy");
            submit_order example_order_id;
            fill_order example_order_id 100 (lit 10.2) (lit 5)]
           example_order_id 0%nat);
    [repeat constructor | exact Hid].
Defined.

Lemma lookup_foldl_delete (m : gmap string ref) (l : list string)
    (order_id : string) :
  foldl (λ orders k, delete k orders) m l !! order_id
  = if decide (order_id ∈ l) then None else m !! order_id.
Proof.
  revert m. induction l as [|k l IH]; intros m; cbn [foldl].
  - rewrite decide_False by apply not_elem_of_nil. reflexivity.
  - rewrite IH. destruct (decide (order_id = k)) as [->|Hne].
    + rewrite lookup_delete_eq.
      rewrite (decide_True (P := k ∈ k :: l)) by (apply elem_of_cons; now left).
      now destruct (decide (k ∈ l)).
    + rewrite lookup_delete_ne by congruence.
      destruct (decide (order_id ∈ l)) as [Hin|Hout].
      * now rewrite decide_True by (apply elem_of_cons; now right).
      * rewrite decide_False; [reflexivity|].
        intros [?|?]%elem_of_cons; contradiction.
Qed.

(** X17: [clear_completed_orders] forgets exactly the orders whose ids are in
    the completed bucket and empties that bucket; the other ids, and the
    pending and active buckets, stay.  After a sequence of the manager's
    operations from the start, no order that the manager still knows is
    FILLED, CANCELLED or REJECTED. *)
Theorem clear_completed_orders_spec :
  (∀ (m : OrderManager.t) (order_id : string),
     OrderManager.orders (OrderManager.clear_completed_orders m) !! order_id
     = (if decide (order_id ∈ OrderManager.completed_orders m) then None
        else OrderManager.orders m !! order_id)
     ∧ OrderManager.completed_orders (OrderManager.clear_completed_orders m) = []
     ∧ OrderManager.pending_orders (OrderManager.clear_completed_orders m)
       = OrderManager.pending_orders m
     ∧ OrderManager.active_orders (OrderManager.clear_completed_orders m)
       = OrderManager.active_orders m)
  ∧ (∀ (initial_capital : Qc) (ops : list op) (order_id : string) (r : ref)
       (order : Order.t),
       Forall (λ o, is_manager_op o = true) ops →
       let w := run (init initial_capital) ops in
       OrderManager.orders (OrderManager.clear_completed_orders (manager w))
         !! order_id = Some r →
       objects w !! r = Some order →
       terminal (Order.status order) = false).
Proof.
  split.
  - intros m order_id. unfold OrderManager.clear_completed_orders.
    cbn [OrderManager.orders OrderManager.completed_orders
         OrderManager.pending_orders OrderManager.active_orders].
    rewrite lookup_foldl_delete. repeat split.
  - intros initial_capital ops order_id r order Hops w Hid Hr.
    unfold OrderManager.clear_completed_orders in Hid.
    cbn [OrderManager.orders] in Hid. rewrite lookup_foldl_delete in Hid.
    destruct (decide _) as [|Hout]; [discriminate|].
    destruct (manager_ok_run initial_capital ops Hops order_id r Hid)
      as (order' & Hr' & _ & Hdone).
    fold w in Hr'. assert (order' = order) as -> by congruence.
    destruct (terminal (Order.status order)); [|reflexivity].
    exfalso. apply Hout. now apply Hdone.
Qed.

End OrderLife.

(** ** The positions of the simulated broker *)

Section Books.

Import OrderPath.

Lemma positive_orders_insert (h : store) (r : ref) (order order' : Order.t) :
  positive_orders h → h !! r = Some order →
  Order.quantity order' = Order.quantity order →
  positive_orders (<[r := order']> h).
Proof.
  intros Hh Hr Hq. apply Forall_insert; [exact Hh|].
  rewrite Hq. exact (proj1 (Forall_lookup _ _) Hh r order Hr).
Qed.

Lemma cancel_quantity (order : Order.t) (reason : string) :
  Order.quantity (Order.cancel order reason) = Order.quantity order.
Proof. unfold Order.cancel. now destruct (Order.is_active order). Qed.

Lemma broker_execute_buy_long (h : store) (self : SimulatedBroker.t) (r : ref)
    (order : Order.t) (current_price : Qc) :
  positive_orders h → h !! r = Some order → long_only self →
  positive_orders
    (state_of (SimulatedBroker._execute_buy h self r order current_price)).1
  ∧ long_only
      (state_of (SimulatedBroker._execute_buy h self r order current_price)).2.
Proof.
  intros Hh Hr [Hpos Htrades].
  assert (0 < Order.quantity order) as Hq
    by exact (proj1 (Forall_lookup _ _) Hh r order Hr).
  unfold SimulatedBroker._execute_buy.
  set (priced := match Order.order_type order with
                 | Order.MARKET => _ | Order.LIMIT => _ | _ => _ end).
  destruct priced as [[execution_price|] []|e []]; cbn [state_of fst snd];
    [|split; [exact Hh | split; assumption]..].
  cbv zeta. destruct (decide _) as [|Hafford]; cbn [state_of fst snd].
  { split; [|split; assumption].
    eapply positive_orders_insert; eauto. }
  cbn [SimulatedBroker.positions SimulatedBroker.set_cash
       SimulatedBroker.set_positions].
  set (pos := match SimulatedBroker.positions self !! _ with
              | Some _ => _ | None => _ end).
  assert (0 ≤ Position.quantity pos) as Hheld.
  { unfold pos. destruct (SimulatedBroker.positions self !! _) eqn:Hlook.
    - exact (Hpos _ _ Hlook).
    - simpl. lia. }
  cbn [Position.quantity Position.avg_cost Position.total_cost].
  destruct (decide _) as [Hzero|_]; [exfalso; lia|].
  cbn [state_of fst snd]. split.
  { eapply positive_orders_insert; eauto. }
  split.
  - cbn [SimulatedBroker.positions SimulatedBroker.append_trade
         SimulatedBroker.set_positions SimulatedBroker.set_cash].
    rewrite insert_insert_eq.
    apply map_Forall_insert_2; [|exact Hpos]. simpl. lia.
  - cbn [SimulatedBroker.trades SimulatedBroker.append_trade
         SimulatedBroker.set_positions SimulatedBroker.set_cash].
    apply Forall_app. split; [exact Htrades|]. now apply Forall_singleton.
Qed.

Lemma broker_execute_sell_long (h : store) (self : SimulatedBroker.t) (r : ref)
    (order : Order.t) (current_price : Qc) :
  positive_orders h → h !! r = Some order → long_only self →
  positive_orders
    (state_of (SimulatedBroker._execute_sell h self r order current_price)).1
  ∧ long_only
      (state_of (SimulatedBroker._execute_sell h self r order current_price)).2.
Proof.
  intros Hh Hr [Hpos Htrades].
  assert (0 < Order.quantity order) as Hq
    by exact (proj1 (Forall_lookup _ _) Hh r order Hr).
  unfold SimulatedBroker._execute_sell. cbv zeta.
  destruct (SimulatedBroker.positions self !! _) as [pos|] eqn:Hlook;
    [destruct (decide _) as [|Hheld]|]; cbn [state_of fst snd];
    try (split; [|split; assumption];
         eapply positive_orders_insert; eauto).
  set (priced := match Order.order_type order with
                 | Order.MARKET => _ | Order.LIMIT => _ | _ => _ end).
  destruct priced as [[execution_price|] []|e []]; cbn [state_of fst snd];
    [|split; [exact Hh | split; assumption]..].
  split.
  { eapply positive_orders_insert; eauto. }
  split.
  - cbn [SimulatedBroker.positions SimulatedBroker.append_trade
         SimulatedBroker.set_positions SimulatedBroker.set_cash].
    apply map_Forall_insert_2; [|exact Hpos].
    destruct (decide _) as [|Hrem]; simpl; lia.
  - cbn [SimulatedBroker.trades SimulatedBroker.append_trade
         SimulatedBroker.set_positions SimulatedBroker.set_cash].
    apply Forall_app. split; [exact Htrades|]. now apply Forall_singleton.
Qed.

Lemma long_step (w : world) (o : op) :
  creates_positive o →
  positive_orders (objects w) ∧ long_only (broker w) →
  positive_orders (objects (step w o)) ∧ long_only (broker (step w o)).
Proof.
  intros Ho [Hh Hb]. destruct o; simpl.
  - split; [|exact Hb]. apply Forall_app. split; [exact Hh|].
    apply Forall_singleton. exact Ho.
  - unfold OrderManager.submit_order.
    destruct (OrderManager.get_order _ _ _) as [[r order]|] eqn:Hget;
      [|now split].
    apply get_order_Some in Hget as [_ Hr].
    destruct (Order.status order); cbn [on_manager objects broker fst snd];
      try now split.
    split; [|exact Hb]. eapply positive_orders_insert; eauto.
  - unfold OrderManager.fill_order.
    destruct (OrderManager.get_order _ _ _) as [[r order]|] eqn:Hget;
      [|now split].
    apply get_order_Some in Hget as [_ Hr].
    destruct (Order.is_active order); cbn [on_manager objects broker fst snd];
      [|now split].
    split; [|exact Hb]. eapply positive_orders_insert; eauto.
  - unfold OrderManager.cancel_order.
    destruct (OrderManager.get_order _ _ _) as [[r order]|] eqn:Hget;
      [|now split].
    apply get_order_Some in Hget as [_ Hr].
    destruct (Order.is_active order) eqn:Hactive;
      cbn [on_manager objects broker fst snd]; [|now split].
    split; [|exact Hb]. eapply positive_orders_insert; eauto.
    apply cancel_quantity.
  - unfold OrderManager.reject_order.
    destruct (OrderManager.get_order _ _ _) as [[r order]|] eqn:Hget;
      [|now split].
    apply get_order_Some in Hget as [_ Hr].
    destruct (Order.status order); cbn [on_manager objects broker fst snd];
      try now split.
    split; [|exact Hb]. eapply positive_orders_insert; eauto.
  - now split.
  - now split.
  - unfold SimulatedBroker.submit_order.
    destruct (objects w !! order) as [o|] eqn:Hr; [|now split].
    destruct (negb _); cbn [on_broker objects broker fst snd]; [now split|].
    split; [|exact Hb]. eapply positive_orders_insert; eauto.
  - unfold SimulatedBroker.cancel_order.
    destruct (SimulatedBroker.orders _ !! _) as [r|]; [|now split].
    destruct (objects w !! r) as [o|] eqn:Hr; [|now split].
    destruct (Order.is_active o); cbn [on_broker objects broker fst snd];
      [|now split].
    split; [|exact Hb]. eapply positive_orders_insert; eauto.
    apply cancel_quantity.
  - unfold SimulatedBroker.execute_order.
    destruct (objects w !! order) as [o|] eqn:Hr; [|now split].
    destruct (negb _); [now split|].
    destruct (Order.direction o).
    + destruct (broker_execute_buy_long (objects w) (broker w) order o
                  current_price Hh Hr Hb) as [H1 H2].
      destruct (state_of _) as [h' b']. now split.
    + destruct (broker_execute_sell_long (objects w) (broker w) order o
                  current_price Hh Hr Hb) as [H1 H2].
      destruct (state_of _) as [h' b']. now split.
Qed.

Lemma long_run (initial_capital : Qc) (ops : list op) :
  Forall creates_positive ops →
  positive_orders (objects (run (init initial_capital) ops))
  ∧ long_only (broker (run (init initial_capital) ops)).
Proof.
  intros Hops. unfold run.
  assert (positive_orders (objects (init initial_capital))
          ∧ long_only (broker (init initial_capital))) as Hinit.
  { split; [constructor|]. split; [apply map_Forall_empty | constructor]. }
  revert Hinit. generalize (init initial_capital).
  induction Hops as [|o ops Ho Hops IH]; intros w Hw; simpl; [exact Hw|].
  apply IH. now apply long_step.
Qed.

(** X18: the simulated broker never goes short.  Along any sequence of
    operations of the order path from the start that creates orders of
    positive quantity only, every position the broker holds has a quantity
    that is not negative and every trade it has recorded is for a positive
    quantity. *)
Theorem broker_never_short (initial_capital : Qc) (ops : list op) :
  Forall creates_positive ops →
  let b := broker (run (init initial_capital) ops) in
  (∀ (symbol : string) (pos : Position.t),
     SimulatedBroker.positions b !! symbol = Some pos →
     0 ≤ Position.quantity pos)
  ∧ Forall (λ tr, 0 < BrokerTrade.quantity tr) (SimulatedBroker.trades b).
Proof.
  intros Hops b.
  destruct (long_run initial_capital ops Hops) as [_ [Hpos Htrades]].
  split; [exact Hpos | exact Htrades].
Qed.

Lemma broker_never_short_witness :
  Forall creates_positive
    [create_order "20240102093000000000" "600000" Order.BUY 100
       Order.MARKET None None None;
     broker_connect;
     broker_submit_order 0%nat;
     broker_execute_order 0%nat (lit 10)]
  ∧ let b := broker broker_filled in
    (∀ (symbol : string) (pos : Position.t),
       SimulatedBroker.positions b !! symbol = Some pos →
       0 ≤ Position.quantity pos)
    ∧ Forall (λ tr, 0 < BrokerTrade.quantity tr) (SimulatedBroker.trades b).
Proof.
  assert (Forall creates_positive
            [create_order "20240102093000000000" "600000" Order.BUY 100
               Order.MARKET None None None;
             broker_connect;
             broker_submit_order 0%nat;
             broker_execute_order 0%nat (lit 10)]) as Hops
    by (repeat constructor; simpl; lia).
  split; [exact Hops|].
  exact (broker_never_short (lit 1000000) _ Hops).
Defined.

End Books.

(** ** Executions of the simulated broker *)

Section Executions.

(** X19: [execute_order] reads the terms of the order only: its symbol,
    direction, quantity, type, limit price and id.  Two orders with the same
    terms are executed alike, whatever their status and fills: what the call
    returns or raises and the broker it leaves are the same.  In particular
    an order that was cancelled, rejected or filled is executed again. *)
Theorem execution_ignores_status (h1 h2 : store) (self : SimulatedBroker.t)
    (r : ref) (order1 order2 : Order.t) (current_price : Qc) :
  h1 !! r = Some order1 → h2 !! r = Some order2 →
  same_terms order1 order2 →
  broker_effect (SimulatedBroker.execute_order h1 self r current_price)
  = broker_effect (SimulatedBroker.execute_order h2 self r current_price).
Proof.
  intros H1 H2 (Hsym & Hdir & Hq & Hty & Hpr & Hid).
  unfold SimulatedBroker.execute_order. rewrite H1, H2.
  destruct (negb _); [reflexivity|]. rewrite Hdir.
  destruct (Order.direction order2).
  - unfold SimulatedBroker._execute_buy. rewrite Hty, Hpr, Hq, Hsym, Hid.
    destruct (Order.order_type order2); cbv zeta;
      repeat first
        [ reflexivity
        | match goal with
          | |- context [match Order.price ?o with _ => _ end] =>
              destruct (Order.price o)
          | |- context [decide ?P] => destruct (decide P)
          end; cbn [broker_effect] ].
  - unfold SimulatedBroker._execute_sell. rewrite Hty, Hpr, Hq, Hsym, Hid.
    cbv zeta. destruct (SimulatedBroker.positions self !! _) as [pos|];
      [|reflexivity].
    destruct (decide (Position.quantity pos < Order.quantity order2));
      [reflexivity|].
    destruct (Order.order_type order2);
      repeat first
        [ reflexivity
        | match goal with
          | |- context [match Order.price ?o with _ => _ end] =>
              destruct (Order.price o)
          | |- context [decide ?P] => destruct (decide P)
          end; cbn [broker_effect] ].
Qed.

Lemma execution_ignores_status_witness :
  broker_effect
    (SimulatedBroker.execute_order [example_sell_order] example_broker 0%nat
       (lit 11))
  = broker_effect
      (SimulatedBroker.execute_order
         [Order.cancel example_sell_order "用户取消"] example_broker 0%nat
         (lit 11)).
Proof.
  apply (execution_ignores_status [example_sell_order]
           [Order.cancel example_sell_order "用户取消"] example_broker 0%nat
           example_sell_order (Order.cancel example_sell_order "用户取消")
           (lit 11));
    [reflexivity | reflexivity | repeat split].
Defined.

(** X20: what a call of [execute_order] that returns has done.  When it
    returns False the broker is as it was: cash, positions and trades are
    untouched.  When it returns True the broker is connected and the call
    has appended exactly one trade, for the order's id, symbol and whole
    quantity, with the quantity times the trade's price as amount, and has
    recorded on the order a fill of that quantity at the trade's price and
    fees.  Nothing is said of a call that raises. *)
Theorem returned_execution_spec (h h' : store) (self self' : SimulatedBroker.t)
    (r : ref) (current_price : Qc) (ok : bool) :
  SimulatedBroker.execute_order h self r current_price = Return ok (h', self') →
  if ok then
    ∃ (order : Order.t) (tr : BrokerTrade.t),
      h !! r = Some order
      ∧ SimulatedBroker.connected self = true
      ∧ SimulatedBroker.trades self' = SimulatedBroker.trades self ++ [tr]
      ∧ BrokerTrade.order_id tr = Order.order_id order
      ∧ BrokerTrade.symbol tr = Order.symbol order
      ∧ BrokerTrade.quantity tr = Order.quantity order
      ∧ BrokerTrade.amount tr
        = (Py.float_of_int (Order.quantity order) * BrokerTrade.price tr)%Qc
      ∧ h' = <[r := Order.update_fill order (Order.quantity order)
                       (BrokerTrade.price tr) (BrokerTrade.commission tr)]> h
  else self' = self.
Proof.
  unfold SimulatedBroker.execute_order.
  destruct (h !! r) as [order|] eqn:Hr; [|now intros [= <- <- <-]].
  destruct (SimulatedBroker.connected self) eqn:Hconn; cbn [negb];
    [|now intros [= <- <- <-]].
  destruct (Order.direction order).
  - unfold SimulatedBroker._execute_buy.
    set (priced := match Order.order_type order with
                   | Order.MARKET => _ | Order.LIMIT => _ | _ => _ end).
    destruct priced as [[execution_price|] []|e []];
      [|now intros [= <- <- <-]|discriminate].
    cbv zeta. destruct (decide _); [now intros [= <- <- <-]|].
    destruct (decide _); [discriminate|].
    intros [= <- <- <-]. eexists order, _.
    cbn [SimulatedBroker.trades SimulatedBroker.append_trade
         SimulatedBroker.set_positions SimulatedBroker.set_cash
         BrokerTrade.order_id BrokerTrade.symbol BrokerTrade.quantity
         BrokerTrade.amount BrokerTrade.price BrokerTrade.commission].
    repeat split; reflexivity.
  - unfold SimulatedBroker._execute_sell. cbv zeta.
    destruct (SimulatedBroker.positions self !! _) as [pos|];
      [destruct (decide _)|]; try now intros [= <- <- <-].
    set (priced := match Order.order_type order with
                   | Order.MARKET => _ | Order.LIMIT => _ | _ => _ end).
    destruct priced as [[execution_price|] []|e []];
      [|now intros [= <- <- <-]|discriminate].
    intros [= <- <- <-]. eexists order, _.
    cbn [SimulatedBroker.trades SimulatedBroker.append_trade
         SimulatedBroker.set_positions SimulatedBroker.set_cash
         BrokerTrade.order_id BrokerTrade.symbol BrokerTrade.quantity
         BrokerTrade.amount BrokerTrade.price BrokerTrade.commission].
    repeat split; reflexivity.
Qed.

Lemma returned_execution_spec_witness :
  ∃ (order : Order.t) (tr : BrokerTrade.t),
    [example_sell_order] !! 0%nat = Some order
    ∧ SimulatedBroker.connected example_broker = true
    ∧ SimulatedBroker.trades
        (state_of (SimulatedBroker.execute_order [example_sell_order]
                     example_broker 0%nat (lit 11))).2
      = SimulatedBroker.trades example_broker ++ [tr]
    ∧ BrokerTrade.order_id tr = Order.order_id order
    ∧ BrokerTrade.symbol tr = Order.symbol order
    ∧ BrokerTrade.quantity tr = Order.quantity order
    ∧ BrokerTrade.amount tr
      = (Py.float_of_int (Order.quantity order) * BrokerTrade.price tr)%Qc
    ∧ (state_of (SimulatedBroker.execute_order [example_sell_order]
                   example_broker 0%nat (lit 11))).1
      = <[0%nat := Order.update_fill order (Order.quantity order)
                     (BrokerTrade.price tr) (BrokerTrade.commission tr)]>
          [example_sell_order].
Proof.
  apply (returned_execution_spec [example_sell_order] _ example_broker _
           0%nat (lit 11) true).
  apply (bool_decide_unpack _). vm_compute. exact I.
Defined.

End Executions.

(** ** The risk manager *)

Section Risk.

Import RiskManager.









End Risk.

(** ** Position sizes *)

Section Binary64Sizing.

Import Binary64.

Lemma truediv_returns (a b x : float) :
  truediv a b = inr x → PrimFloat.eqb b 0 = false ∧ x = (a / b)%float.
Proof.
  unfold truediv. destruct (PrimFloat.eqb b 0); [discriminate|].
  now intros [= <-].
Qed.

Lemma truediv_zero (a b : float) :
  PrimFloat.eqb b 0 = true → truediv a b = inl ZeroDivisionError.
Proof. unfold truediv. now intros ->. Qed.

Lemma lot_floor (m : Z) :
  (100 | m `div` 100 * 100) ∧ m `div` 100 * 100 ≤ m < m `div` 100 * 100 + 100.
Proof.
  split; [now exists (m `div` 100)|].
  pose proof (Z.mod_pos_bound m 100 ltac:(lia)).
  pose proof (Z.div_mod m 100 ltac:(lia)). lia.
Qed.

(** X23: [calculate_max_position_size] sizes in whole lots.  At a price of
    0 it raises ZeroDivisionError.  When it returns, the size is a multiple
    of 100, no more than the quotient of the limit [total_value *
    max_single_stock_ratio] by the price, as binary64 computes it and
    [int()] truncates it, and less than one lot below it. *)
Theorem max_position_size_is_whole_lots (self : RiskManager.t)
    (total_value price : float) (q : Z) :
  (PrimFloat.eqb price 0 = true →
   RiskManager.calculate_max_position_size self total_value price
   = Raise ZeroDivisionError ())
  ∧ (RiskManager.calculate_max_position_size self total_value price
     = Return q () →
     PrimFloat.eqb price 0 = false
     ∧ ∃ max_quantity : Z,
         int (total_value * RiskManager.max_single_stock_ratio self / price)
         = inr max_quantity
         ∧ (100 | q) ∧ q ≤ max_quantity < q + 100).
Proof.
  unfold RiskManager.calculate_max_position_size. cbv zeta. split.
  - intros Hzero. now rewrite truediv_zero by exact Hzero.
  - destruct (truediv _ price) as [e|x] eqn:Hdiv; [discriminate|].
    apply truediv_returns in Hdiv as [Hprice ->].
    destruct (int _) as [e|m] eqn:Hint; [discriminate|].
    intros [= <-]. split; [exact Hprice|]. exists m.
    split; [reflexivity|]. apply lot_floor.
Qed.

Lemma max_position_size_is_whole_lots_witness :
  RiskManager.calculate_max_position_size
    (RiskManager.__init__ (decimal 8 1) 1 (decimal 5 2) (decimal 15 2)
       (decimal 8 2) (decimal 15 2)) 100 (decimal 1 1)
  = Return 1000 ()
  ∧ (100 | 1000)
  ∧ RiskManager.calculate_max_position_size
      (RiskManager.__init__ (decimal 8 1) 1 (decimal 5 2) (decimal 15 2)
         (decimal 8 2) (decimal 15 2)) 100 0
    = Raise ZeroDivisionError ().
Proof.
  assert (RiskManager.calculate_max_position_size
            (RiskManager.__init__ (decimal 8 1) 1 (decimal 5 2) (decimal 15 2)
               (decimal 8 2) (decimal 15 2)) 100 (decimal 1 1)
          = Return 1000 ()) as Hrun by (vm_compute; reflexivity).
  split; [exact Hrun|].
  destruct (max_position_size_is_whole_lots
              (RiskManager.__init__ (decimal 8 1) 1 (decimal 5 2)
                 (decimal 15 2) (decimal 8 2) (decimal 15 2))
              100 (decimal 1 1) 1000) as [_ Hsize].
  destruct (Hsize Hrun) as (_ & m & _ & Hlots & _).
  split; [exact Hlots|].
  apply (max_position_size_is_whole_lots
           (RiskManager.__init__ (decimal 8 1) 1 (decimal 5 2)
              (decimal 15 2) (decimal 8 2) (decimal 15 2)) 100 0 0).
  reflexivity.
Defined.

(** X24: [calculate_position_size] never sizes below one lot.  At a price
    of 0 it raises ZeroDivisionError.  When it returns, the size is a
    multiple of 100 and at least 100 shares: it is one lot when the quotient
    of the risk amount [total_capital * risk_ratio] by the price, as
    binary64 computes it and [int()] truncates it, is below 200, and
    otherwise the whole lots of that quotient. *)
Theorem position_size_is_at_least_a_lot (self : BaseStrategy.t)
    (symbol : string) (price total_capital risk_ratio : float) (q : Z) :
  (PrimFloat.eqb price 0 = true →
   BaseStrategy.calculate_position_size self symbol price total_capital
     risk_ratio = Raise ZeroDivisionError ())
  ∧ (BaseStrategy.calculate_position_size self symbol price total_capital
       risk_ratio = Return q () →
     PrimFloat.eqb price 0 = false
     ∧ (100 | q) ∧ 100 ≤ q
     ∧ ∃ quantity : Z,
         int (total_capital * risk_ratio / price) = inr quantity
         ∧ (quantity < 200 → q = 100)
         ∧ (200 ≤ quantity → q ≤ quantity < q + 100)).
Proof.
  unfold BaseStrategy.calculate_position_size. cbv zeta. split.
  - intros Hzero. now rewrite truediv_zero by exact Hzero.
  - destruct (truediv _ price) as [e|x] eqn:Hdiv; [discriminate|].
    apply truediv_returns in Hdiv as [Hprice ->].
    destruct (int _) as [e|m] eqn:Hint; [discriminate|].
    intros [= <-]. split; [exact Hprice|].
    destruct (lot_floor m) as [_ Hfloor].
    split.
    { destruct (Z.max_spec (m `div` 100 * 100) 100) as [[_ ->]|[_ ->]].
      - now exists 1.
      - now exists (m `div` 100). }
    split; [lia|]. exists m. split; [reflexivity|]. split; lia.
Qed.

Lemma position_size_is_at_least_a_lot_witness :
  BaseStrategy.calculate_position_size (BaseStrategy.__init__ "MA_Strategy")
    "600000" (decimal 1 1) 20 1 = Return 200 ()
  ∧ (100 | 200) ∧ 100 ≤ 200
  ∧ BaseStrategy.calculate_position_size (BaseStrategy.__init__ "MA_Strategy")
      "600000" (decimal 1001 2) 10000 (decimal 2 2) = Return 100 ()
  ∧ BaseStrategy.calculate_position_size (BaseStrategy.__init__ "MA_Strategy")
      "600000" 0 10000 (decimal 2 2) = Raise ZeroDivisionError ().
Proof.
  assert (BaseStrategy.calculate_position_size
            (BaseStrategy.__init__ "MA_Strategy") "600000" (decimal 1 1) 20 1
          = Return 200 ()) as Hrun by (vm_compute; reflexivity).
  split; [exact Hrun|].
  destruct (position_size_is_at_least_a_lot
              (BaseStrategy.__init__ "MA_Strategy") "600000" (decimal 1 1)
              20 1 200) as [_ Hsize].
  destruct (Hsize Hrun) as (_ & Hlots & Hlot & _).
  split; [exact Hlots|]. split; [exact Hlot|].
  split; [vm_compute; reflexivity|].
  apply (position_size_is_at_least_a_lot
           (BaseStrategy.__init__ "MA_Strategy") "600000" 0 10000
           (decimal 2 2) 0).
  reflexivity.
Defined.

End Binary64Sizing.

(** ** The book of a strategy *)

Section StrategyBook.

Import BaseStrategy.

Lemma book_entry_ok_zero : book_entry_ok (Position.mk 0 0%Qc 0%Qc).
Proof. split; [reflexivity|]. now intros _. Qed.

Lemma update_positions_ok (self : BaseStrategy.t) (symbol : string)
    (quantity : Z) (price : Qc) :
  map_Forall (λ _ pos, book_entry_ok pos) (positions self) →
  map_Forall (λ _ pos, book_entry_ok pos)
    (positions (update_positions self symbol quantity price)).
Proof.
  intros Hok. unfold update_positions. cbv zeta. cbn [positions].
  set (book := match positions self !! symbol with
               | Some _ => positions self
               | None => <[symbol := Position.mk 0 0%Qc 0%Qc]> (positions self)
               end).
  assert (map_Forall (λ _ pos, book_entry_ok pos) book) as Hbook.
  { unfold book. destruct (positions self !! symbol); [exact Hok|].
    apply map_Forall_insert_2; [exact book_entry_ok_zero | exact Hok]. }
  set (pos := default (Position.mk 0 0%Qc 0%Qc) (book !! symbol)).
  assert (book_entry_ok pos) as [Hq _].
  { unfold pos. destruct (book !! symbol) as [p|] eqn:Hlook; cbn [default].
    - exact (Hbook _ _ Hlook).
    - exact book_entry_ok_zero. }
  apply map_Forall_insert_2; [|exact Hbook].
  destruct (decide (0 < quantity)) as [Hbuy|Hsell].
  - unfold book_entry_ok. cbn [Position.quantity]. split; lia.
  - destruct (decide _) as [|Hpart]; [exact book_entry_ok_zero|].
    unfold book_entry_ok. cbn [Position.quantity]. split; lia.
Qed.

Lemma update_positions_all_ok (calls : list (string * Z * Qc))
    (self : BaseStrategy.t) :
  map_Forall (λ _ pos, book_entry_ok pos) (positions self) →
  map_Forall (λ _ pos, book_entry_ok pos)
    (positions
       (foldl (λ self call, update_positions self call.1.1 call.1.2 call.2)
          self calls)).
Proof.
  revert self. induction calls as [|call calls IH]; intros self Hself;
    cbn [foldl]; [exact Hself|].
  apply IH. now apply update_positions_ok.
Qed.

(** X25: the book of a strategy is never short.  After any sequence of
    [update_positions] calls on a new strategy, whatever their symbols,
    quantities and prices, every position has a quantity that is not
    negative, and a zero [avg_cost] and [total_cost] when its quantity is
    zero: a sell of more than is held empties the position. *)
Theorem strategy_book_invariant (name : string)
    (calls : list (string * Z * Qc)) (symbol : string) (pos : Position.t) :
  positions
    (foldl (λ self call, update_positions self call.1.1 call.1.2 call.2)
       (__init__ name) calls) !! symbol = Some pos →
  0 ≤ Position.quantity pos
  ∧ (Position.quantity pos = 0 →
     Position.avg_cost pos = 0%Qc ∧ Position.total_cost pos = 0%Qc).
Proof.
  intros Hlook.
  exact (update_positions_all_ok calls (__init__ name)
           (map_Forall_empty _) _ _ Hlook).
Qed.

Lemma strategy_book_invariant_witness :
  0 ≤ Position.quantity (Position.mk 0 0%Qc 0%Qc)
  ∧ (Position.quantity (Position.mk 0 0%Qc 0%Qc) = 0 →
     Position.avg_cost (Position.mk 0 0%Qc 0%Qc) = 0%Qc
     ∧ Position.total_cost (Position.mk 0 0%Qc 0%Qc) = 0%Qc).
Proof.
  apply (strategy_book_invariant "MA_Strategy"
           [("600000", 400, lit 10); ("600000", 400, lit 10.5);
            ("600000", -900, lit 11)] "600000").
  apply (bool_decide_unpack _). vm_compute. exact I.
Defined.

End StrategyBook.

(** ** The analysis of the trades *)

Section TradeAnalyses.

Import PerformanceAnalyzer.

Lemma sum_from (l : list Qc) (a : Qc) : foldl Qcplus a l = (a + sum l)%Qc.
Proof.
  unfold sum. revert a. induction l as [|x l IH]; intros a; cbn [foldl].
  - ring.
  - rewrite (IH (a + x)%Qc), (IH (0 + x)%Qc). ring.
Qed.

Lemma sum_cons (x : Qc) (l : list Qc) : sum (x :: l) = (x + sum l)%Qc.
Proof. unfold sum at 1. cbn [foldl]. rewrite sum_from. ring. Qed.

Lemma Qcplus_nonneg (a b : Qc) : (0 ≤ a)%Qc → (0 ≤ b)%Qc → (0 ≤ a + b)%Qc.
Proof.
  intros Ha Hb. pose proof (Qcplus_le_compat _ _ _ _ Ha Hb) as H.
  now rewrite Qcplus_0_l in H.
Qed.

Lemma Qcplus_nonpos (a b : Qc) : (a ≤ 0)%Qc → (b ≤ 0)%Qc → (a + b ≤ 0)%Qc.
Proof.
  intros Ha Hb. pose proof (Qcplus_le_compat _ _ _ _ Ha Hb) as H.
  now rewrite Qcplus_0_l in H.
Qed.

Lemma Qcopp_nonneg (a : Qc) : (a ≤ 0)%Qc → (0 ≤ - a)%Qc.
Proof.
  intros Ha. apply Qcopp_le_compat in Ha.
  replace (- 0)%Qc with 0%Qc in Ha by ring. exact Ha.
Qed.

Lemma sum_winning_nonneg (l : list Qc) :
  (0 ≤ sum (filter (λ p, (0 < p)%Qc) l))%Qc.
Proof.
  induction l as [|x l IH]; [apply Qcle_refl|].
  rewrite filter_cons. destruct (decide _) as [Hx|]; [|exact IH].
  rewrite sum_cons.
  apply Qcplus_nonneg; [now apply Qclt_le_weak | exact IH].
Qed.

Lemma sum_losing_nonpos (l : list Qc) :
  (sum (filter (λ p, (p < 0)%Qc) l) ≤ 0)%Qc.
Proof.
  induction l as [|x l IH]; [apply Qcle_refl|].
  rewrite filter_cons. destruct (decide _) as [Hx|]; [|exact IH].
  rewrite sum_cons.
  apply Qcplus_nonpos; [now apply Qclt_le_weak | exact IH].
Qed.

Lemma winners_and_losers_length (l : list Qc) :
  (length (filter (λ p, (0 < p)%Qc) l) + length (filter (λ p, (p < 0)%Qc) l)
   ≤ length l)%nat.
Proof.
  induction l as [|x l IH]; [reflexivity|].
  rewrite !filter_cons.
  destruct (decide (0 < x)%Qc) as [Hpos|Hpos];
    destruct (decide (x < 0)%Qc) as [Hneg|Hneg]; cbn [length]; try lia.
  exfalso. apply (Qclt_not_le _ _ Hpos). now apply Qclt_le_weak.
Qed.

Lemma sum_winning_positive (l : list Qc) :
  filter (λ p, (0 < p)%Qc) l ≠ [] → (0 < sum (filter (λ p, (0 < p)%Qc) l))%Qc.
Proof.
  induction l as [|x l IH]; [now intros []|].
  rewrite filter_cons. destruct (decide _) as [Hx|]; [|exact IH].
  intros _. rewrite sum_cons.
  eapply Qclt_le_trans; [exact Hx|].
  pose proof (Qcplus_le_compat _ _ _ _ (Qcle_refl x) (sum_winning_nonneg l))
    as H.
  now rewrite Qcplus_0_r in H.
Qed.

Lemma sum_losing_negative (l : list Qc) :
  filter (λ p, (p < 0)%Qc) l ≠ [] → (sum (filter (λ p, (p < 0)%Qc) l) < 0)%Qc.
Proof.
  induction l as [|x l IH]; [now intros []|].
  rewrite filter_cons. destruct (decide _) as [Hx|]; [|exact IH].
  intros _. rewrite sum_cons.
  eapply Qcle_lt_trans; [|exact Hx].
  pose proof (Qcplus_le_compat _ _ _ _ (Qcle_refl x) (sum_losing_nonpos l))
    as H.
  now rewrite Qcplus_0_r in H.
Qed.

(** X26: the counts of [analyze_trades].  When the trades hold a sell, the
    analysis counts the sells, the sells of positive profit as winners and
    the sells of negative profit as losers, so that winners and losers
    together are no more than the sells.  The total profit is positive when
    a sell won and 0 otherwise; the total loss is positive when a sell lost
    and 0 otherwise.  The profit factor is the quotient of the total profit
    by the total loss when a sell lost, and the infinite sentinel when none
    did. *)
Theorem analyze_trades_totals (self : PerformanceAnalyzer.t)
    (trades : list Trade.t) (r : TradeAnalysis.t) :
  analyze_trades self trades = Some r →
  let sells := filter (λ tr, Trade.direction tr = D_SELL) trades in
  let profits := map BacktestEngine.profit_or_zero sells in
  TradeAnalysis.total_trades r = length sells
  ∧ TradeAnalysis.winning_trades r = length (filter (λ p, (0 < p)%Qc) profits)
  ∧ TradeAnalysis.losing_trades r = length (filter (λ p, (p < 0)%Qc) profits)
  ∧ (TradeAnalysis.winning_trades r + TradeAnalysis.losing_trades r
     ≤ TradeAnalysis.total_trades r)%nat
  ∧ (TradeAnalysis.winning_trades r = 0%nat →
     TradeAnalysis.total_profit r = 0%Qc ∧ TradeAnalysis.avg_profit r = 0%Qc)
  ∧ (TradeAnalysis.winning_trades r ≠ 0%nat →
     (0 < TradeAnalysis.total_profit r)%Qc)
  ∧ (TradeAnalysis.losing_trades r = 0%nat →
     TradeAnalysis.total_loss r = 0%Qc ∧ TradeAnalysis.avg_loss r = 0%Qc
     ∧ TradeAnalysis.profit_factor r = None)
  ∧ (TradeAnalysis.losing_trades r ≠ 0%nat →
     (0 < TradeAnalysis.total_loss r)%Qc
     ∧ TradeAnalysis.profit_factor r
       = Some (TradeAnalysis.total_profit r / TradeAnalysis.total_loss r)%Qc).
Proof.
  intros Hrun. cbv zeta. unfold analyze_trades in Hrun.
  destruct trades as [|tr0 trades0]; [discriminate|].
  remember (filter (λ tr, Trade.direction tr = D_SELL) (tr0 :: trades0))
    as sells eqn:Hsells.
  clear Hsells tr0 trades0.
  destruct sells as [|tr1 sells1]; [discriminate|].
  cbv beta match zeta in Hrun.
  remember (tr1 :: sells1) as sells eqn:Hsells.
  set (profits := map BacktestEngine.profit_or_zero sells) in *.
  set (winning := filter (λ p, (0 < p)%Qc) profits) in *.
  set (losing := filter (λ p, (p < 0)%Qc) profits) in *.
  assert (length profits = length sells) as Hlen by apply length_map.
  pose proof (sum_winning_positive profits) as Hwin. fold winning in Hwin.
  pose proof (sum_losing_negative profits) as Hlose. fold losing in Hlose.
  injection Hrun as <-.
  cbn [TradeAnalysis.total_trades TradeAnalysis.winning_trades
       TradeAnalysis.losing_trades TradeAnalysis.total_profit
       TradeAnalysis.total_loss TradeAnalysis.profit_factor
       TradeAnalysis.avg_profit TradeAnalysis.avg_loss].
  split; [reflexivity|]. split; [reflexivity|]. split; [reflexivity|].
  split.
  { rewrite <- Hlen. apply winners_and_losers_length. }
  split.
  { intros Hnone. apply length_zero_iff_nil in Hnone. now rewrite Hnone. }
  split.
  { intros Hsome. destruct winning as [|p rest] eqn:Hw; [contradiction|].
    now apply Hwin. }
  split.
  { intros Hnone. apply length_zero_iff_nil in Hnone. rewrite Hnone.
    split; [reflexivity|]. split; [reflexivity|].
    now rewrite decide_False by (intros H; now apply Qclt_not_eq in H). }
  intros Hsome. destruct losing as [|p rest] eqn:Hl; [contradiction|].
  assert (0 < Qcabs (sum (p :: rest)))%Qc as Hpos.
  { assert (sum (p :: rest) < 0)%Qc as Hneg by now apply Hlose.
    rewrite Qcabs_neg by now apply Qclt_le_weak.
    assert (0 ≤ - sum (p :: rest))%Qc as Hnn
      by now apply Qcopp_nonneg, Qclt_le_weak.
    apply Qcle_lt_or_eq in Hnn as [Hlt|Heq]; [exact Hlt|]. exfalso.
    apply (Qclt_not_eq _ _ Hneg).
    replace (sum (p :: rest)) with (- - sum (p :: rest))%Qc by ring.
    rewrite <- Heq. ring. }
  split; [exact Hpos|]. now rewrite decide_True by exact Hpos.
Qed.

Lemma analyze_trades_totals_witness :
  ∃ r : TradeAnalysis.t,
    analyze_trades PerformanceAnalyzer.__init__
      (example_trades ++ [example_sell_trade]) = Some r
    ∧ TradeAnalysis.total_trades r = 1%nat
    ∧ TradeAnalysis.winning_trades r = 1%nat
    ∧ TradeAnalysis.losing_trades r = 0%nat
    ∧ (0 < TradeAnalysis.total_profit r)%Qc
    ∧ TradeAnalysis.total_loss r = 0%Qc
    ∧ TradeAnalysis.profit_factor r = None.
Proof.
  eexists. split; [reflexivity|].
  destruct (analyze_trades_totals PerformanceAnalyzer.__init__
              (example_trades ++ [example_sell_trade]) _ eq_refl)
    as (Htotal & Hwinners & Hlosers & _ & _ & Hprofit & Hloss & _).
  split; [exact Htotal|]. split; [exact Hwinners|]. split; [exact Hlosers|].
  split; [apply Hprofit; rewrite Hwinners; discriminate|].
  destruct (Hloss Hlosers) as (Hzero & _ & Hfactor).
  split; [exact Hzero | exact Hfactor].
Defined.



End TradeAnalyses.

(** ** The calculators on a frame without the derived columns *)

Section RawFrames.

Import PerformanceAnalyzer.

Variable std : list float → float.
Variable pow : float → float → float.

(** X28: the calculators need the column that [analyze] derives.  On a
    frame of two rows or more that has no [cumulative_return] column the
    annualized return and the Calmar ratio raise KeyError; so do the Sharpe
    and the Sortino ratio when the frame has a [daily_return] column, and
    without it they return 0. *)
Theorem calculators_need_cumulative_return (self : PerformanceAnalyzer.t)
    (df : DataFrame.t) :
  (2 ≤ DataFrame.len df)%nat → DataFrame.cumulative_return df = None →
  _calculate_annualized_return pow self df
  = Raise (KeyError "cumulative_return") ()
  ∧ calculate_calmar_ratio pow self df
    = Raise (KeyError "cumulative_return") ()
  ∧ _calculate_sharpe_ratio std pow self df
    = match DataFrame.daily_return df with
      | Some _ => Raise (KeyError "cumulative_return") ()
      | None => Return 0%float ()
      end
  ∧ calculate_sortino_ratio std pow self df
    = match DataFrame.daily_return df with
      | Some _ => Raise (KeyError "cumulative_return") ()
      | None => Return 0%float ()
      end.
Proof.
  intros Hlen Hcolumn.
  assert (DataFrame.empty df = false) as Hempty.
  { unfold DataFrame.empty, DataFrame.len in *.
    destruct (DataFrame.total_value df); [simpl in Hlen; lia | reflexivity]. }
  assert (_calculate_annualized_return pow self df
          = Raise (KeyError "cumulative_return") ()) as Hannual.
  { unfold _calculate_annualized_return. rewrite Hempty, Hcolumn.
    rewrite bool_decide_eq_false_2 by lia. reflexivity. }
  unfold calculate_calmar_ratio, _calculate_sharpe_ratio,
    calculate_sortino_ratio.
  rewrite Hempty, Hannual.
  split; [reflexivity|]. split; [reflexivity|].
  destruct (DataFrame.daily_return df); now split.
Qed.

End RawFrames.

Lemma calculators_need_cumulative_return_witness :
  let df := DataFrame.mk [1000000; 1010000; 1005000]%float None None in
  PerformanceAnalyzer._calculate_annualized_return stand_in_pow
    PerformanceAnalyzer.__init__ df
  = Raise (KeyError "cumulative_return") ()
  ∧ PerformanceAnalyzer.calculate_calmar_ratio stand_in_pow
      PerformanceAnalyzer.__init__ df
    = Raise (KeyError "cumulative_return") ()
  ∧ PerformanceAnalyzer._calculate_sharpe_ratio Series.std_two_pass
      stand_in_pow PerformanceAnalyzer.__init__ df
    = match DataFrame.daily_return df with
      | Some _ => Raise (KeyError "cumulative_return") ()
      | None => Return 0%float ()
      end
  ∧ PerformanceAnalyzer.calculate_sortino_ratio Series.std_two_pass
      stand_in_pow PerformanceAnalyzer.__init__ df
    = match DataFrame.daily_return df with
      | Some _ => Raise (KeyError "cumulative_return") ()
      | None => Return 0%float ()
      end.
Proof.
  apply (calculators_need_cumulative_return Series.std_two_pass stand_in_pow
           PerformanceAnalyzer.__init__
           (DataFrame.mk [1000000; 1010000; 1005000]%float None None)).
  - unfold DataFrame.len. simpl. lia.
  - reflexivity.
Defined.
